(** * T-REX deployment scripts: a shallow embedding and its properties

    The repository holds Hardhat scripts that deploy and wire an ERC-3643
    (T-REX) token suite:

    - [scripts/deployIdentity.ts]: three scripts in one file, an OnchainID
      deployment, the full-suite deployment [deployFullSuite] and the
      single-property factory deployment (its [main], [requireAddress],
      [requireSalt], [parseDecimals], [normalizeAddressArg]);
    - [scripts/deployTREXSuiteInfrastructure.ts]: the infrastructure
      deployment with [resolveRoleSigner];
    - [scripts/registerIdentity.ts]: the identity registration.

    Pure helpers are Rocq functions.  The scripts themselves run in a small
    monad: they read the process environment, ask the host (Hardhat, the
    ledger) for answers, append every awaited effect to a trace and stop at
    the first exception.  The functions of the ethers library that the
    helpers call ([utils.getAddress], [utils.keccak256], the ABI coder) are
    modelled in [Module Ethers]. *)

From Stdlib Require Import String Ascii List NArith ZArith QArith Lia Bool.
From Stdlib.Strings Require Import Byte.
Import ListNotations.

Close Scope Q_scope.

Local Open Scope list_scope.
Local Open Scope string_scope.

(** ** JavaScript values and built-ins *)

Module JS.

(** A string is a sequence of code units; the model keeps the code units
    below U+0100, one [ascii] each. *)

(** [WhiteSpace] and [LineTerminator] code units below U+0100, as
    [String.prototype.trim] strips them: TAB, LF, VT, FF, CR, SP, NBSP. *)
Definition isWhiteSpace (c : ascii) : bool :=
  let n := N_of_ascii c in
  (((9 <=? n) && (n <=? 13)) || (n =? 32) || (n =? 160))%N.

Fixpoint trimStart (s : string) : string :=
  match s with
  | EmptyString => EmptyString
  | String c r => if isWhiteSpace c then trimStart r else s
  end.

Fixpoint trimEnd (s : string) : string :=
  match s with
  | EmptyString => EmptyString
  | String c r =>
      match trimEnd r with
      | EmptyString => if isWhiteSpace c then EmptyString else String c EmptyString
      | r' => String c r'
      end
  end.

(** [String.prototype.trim] *)
Definition trim (s : string) : string := trimEnd (trimStart s).

Fixpoint allWhiteSpace (s : string) : bool :=
  match s with
  | EmptyString => true
  | String c r => isWhiteSpace c && allWhiteSpace r
  end.

Definition firstChar (s : string) : option ascii :=
  match s with EmptyString => None | String c _ => Some c end.

Fixpoint lastChar (s : string) : option ascii :=
  match s with
  | EmptyString => None
  | String c EmptyString => Some c
  | String _ r => lastChar r
  end.

(** Truthiness of a string: the empty string is falsy. *)
Definition truthy (s : string) : bool :=
  match s with EmptyString => false | _ => true end.

Definition isLower (c : ascii) : bool :=
  let n := N_of_ascii c in ((97 <=? n) && (n <=? 122))%N.
Definition isUpper (c : ascii) : bool :=
  let n := N_of_ascii c in ((65 <=? n) && (n <=? 90))%N.

Definition upperChar (c : ascii) : ascii :=
  if isLower c then ascii_of_N (N_of_ascii c - 32) else c.
Definition lowerChar (c : ascii) : ascii :=
  if isUpper c then ascii_of_N (N_of_ascii c + 32) else c.

Fixpoint mapString (f : ascii -> ascii) (s : string) : string :=
  match s with
  | EmptyString => EmptyString
  | String c r => String (f c) (mapString f r)
  end.

(** [toUpperCase] and [toLowerCase] on the letters a-z and A-Z, the only
    letters the scripts apply them to. *)
Definition toUpperCase : string -> string := mapString upperChar.
Definition toLowerCase : string -> string := mapString lowerChar.

(** [a ?? b] *)
Definition nullish {A} (a : option A) (b : A) : A :=
  match a with Some x => x | None => b end.

(** [a || b] on strings that may be undefined *)
Definition orElse (a : option string) (b : string) : string :=
  match a with
  | Some x => if truthy x then x else b
  | None => b
  end.

(** Decimal rendering of a natural number, as a template literal prints a
    non-negative integer. *)
Definition digitChar (d : N) : ascii := ascii_of_N (48 + d).

Fixpoint decimalPos (fuel : nat) (n : N) (acc : string) : string :=
  match fuel with
  | O => acc
  | S fuel' =>
      let acc' := String (digitChar (n mod 10)) acc in
      if (n / 10 =? 0)%N then acc' else decimalPos fuel' (n / 10) acc'
  end.

Definition decimalN (n : N) : string := decimalPos (S (N.to_nat (N.log2 n))) n "".

Definition decimalZ (z : Z) : string :=
  match z with
  | Zneg p => String "-" (decimalN (Npos p))
  | _ => decimalN (Z.to_N z)
  end.

(** The value of [Number(s)], an IEEE double, by its class.  A finite double
    is an exact rational. *)
Inductive number : Type :=
| NaN
| Infinite (negative : bool)
| Finite (q : Q).

(** [Number.isInteger] *)
Definition isInteger (x : number) : bool :=
  match x with
  | Finite q => (Qnum q mod Zpos (Qden q) =? 0)%Z
  | _ => false
  end.

(** The integer a finite integral double stands for. *)
Definition toZ (x : number) : Z :=
  match x with
  | Finite q => (Qnum q / Zpos (Qden q))%Z
  | _ => 0%Z
  end.

(** [x < y] against an integer constant; comparisons with NaN are false. *)
Definition ltZ (x : number) (k : Z) : bool :=
  match x with
  | NaN => false
  | Infinite neg => neg
  | Finite q => (Qnum q <? k * Zpos (Qden q))%Z
  end.

(** [x > y] against an integer constant. *)
Definition gtZ (x : number) (k : Z) : bool :=
  match x with
  | NaN => false
  | Infinite neg => negb neg
  | Finite q => (k * Zpos (Qden q) <? Qnum q)%Z
  end.

End JS.


(** ** The ethers (v5) utilities the scripts call

    These functions belong to the ethers library, not to the repository; they
    are modelled after the library so that the scripts' helpers can be run on
    concrete inputs. *)

Module Ethers.

Definition bytes := list byte.

(** *** Hexadecimal text *)

Definition hexDigit (d : N) : ascii :=
  if (d <? 10)%N then ascii_of_N (48 + d) else ascii_of_N (87 + d).

(** The value of a hexadecimal digit, of either case. *)
Definition hexValue (c : ascii) : option N :=
  let n := N_of_ascii c in
  if ((48 <=? n) && (n <=? 57))%N then Some (n - 48)%N
  else if ((97 <=? n) && (n <=? 102))%N then Some (n - 87)%N
  else if ((65 <=? n) && (n <=? 70))%N then Some (n - 55)%N
  else None.

Definition isHexChar (c : ascii) : bool :=
  match hexValue c with Some _ => true | None => false end.

Fixpoint allHex (s : string) : bool :=
  match s with
  | EmptyString => true
  | String c r => isHexChar c && allHex r
  end.

Definition byteOfN (n : N) : byte :=
  match Byte.of_N (n mod 256) with Some b => b | None => x00 end.

Fixpoint hexOfBytes (b : bytes) : string :=
  match b with
  | [] => EmptyString
  | x :: r =>
      String (hexDigit (Byte.to_N x / 16))
        (String (hexDigit (Byte.to_N x mod 16)) (hexOfBytes r))
  end.

(** [utils.hexlify] of a byte array *)
Definition hexlify (b : bytes) : string := "0x" ++ hexOfBytes b.

Fixpoint bytesOfHex (s : string) : option bytes :=
  match s with
  | EmptyString => Some []
  | String c1 (String c2 r) =>
      match hexValue c1, hexValue c2, bytesOfHex r with
      | Some h, Some l, Some t => Some (byteOfN (16 * h + l) :: t)
      | _, _, _ => None
      end
  | String _ EmptyString => None
  end.

(** [utils.arrayify] of a hex string: "0x" and an even number of digits. *)
Definition arrayify (s : string) : option bytes :=
  match s with
  | String "0" (String "x" r) => bytesOfHex r
  | _ => None
  end.

(** [utils.toUtf8Bytes] on code units below U+0080 (one byte each). *)
Definition toUtf8Bytes (s : string) : bytes := list_byte_of_string s.

(** Big-endian bytes: the [n] low-order base-256 digits of [v]. *)
Fixpoint bigEndian (n : nat) (v : N) : bytes :=
  match n with
  | O => []
  | S n' => (bigEndian n' (v / 256) ++ [byteOfN v])%list
  end.

Fixpoint littleEndian (n : nat) (v : N) : bytes :=
  match n with
  | O => []
  | S n' => byteOfN v :: littleEndian n' (v / 256)
  end.

Definition valueBE (b : bytes) : N :=
  fold_left (fun acc x => (256 * acc + Byte.to_N x)%N) b 0%N.

Fixpoint valueLE (b : bytes) : N :=
  match b with
  | [] => 0%N
  | x :: r => (Byte.to_N x + 256 * valueLE r)%N
  end.

(** *** Keccak-256 (the original Keccak padding, as Ethereum uses it) *)

Module Keccak.

Definition lane := N.
Definition mask64 : N := N.ones 64.

Definition rotl (v : lane) (n : N) : lane :=
  N.lor (N.land (N.shiftl v n) mask64) (N.shiftr v (64 - n)).

Definition get (st : list lane) (x y : nat) : lane :=
  nth (x mod 5 + 5 * (y mod 5)) st 0%N.

Definition roundConstants : list lane :=
  [ 0x0000000000000001; 0x0000000000008082; 0x800000000000808A;
    0x8000000080008000; 0x000000000000808B; 0x0000000080000001;
    0x8000000080008081; 0x8000000000008009; 0x000000000000008A;
    0x0000000000000088; 0x0000000080008009; 0x000000008000000A;
    0x000000008000808B; 0x800000000000008B; 0x8000000000008089;
    0x8000000000008003; 0x8000000000008002; 0x8000000000000080;
    0x000000000000800A; 0x800000008000000A; 0x8000000080008081;
    0x8000000000008080; 0x0000000080000001; 0x8000000080008008 ]%N.

(** Rotation offsets, indexed by [x + 5 * y]. *)
Definition rotationOffsets : list N :=
  [  0;  1; 62; 28; 27;
    36; 44;  6; 55; 20;
     3; 10; 43; 25; 39;
    41; 45; 15; 21;  8;
    18;  2; 61; 56; 14 ]%N.

Definition coords : list (nat * nat) :=
  flat_map (fun y => map (fun x => (x, y)) (seq 0 5)) (seq 0 5).

Definition theta (st : list lane) : list lane :=
  let c := map (fun x =>
              N.lxor (get st x 0) (N.lxor (get st x 1) (N.lxor (get st x 2)
                (N.lxor (get st x 3) (get st x 4))))) (seq 0 5) in
  let d := map (fun x =>
              N.lxor (nth ((x + 4) mod 5) c 0%N)
                     (rotl (nth ((x + 1) mod 5) c 0%N) 1)) (seq 0 5) in
  map (fun '(x, y) => N.lxor (get st x y) (nth x d 0%N)) coords.

(** rho and pi: B[y][2x+3y] = rot(A[x][y]); read backwards, the lane at
    (X, Y) comes from x = (X + 3Y) mod 5, y = X. *)
Definition rhoPi (st : list lane) : list lane :=
  map (fun '(X, Y) =>
         let x := (X + 3 * Y) mod 5 in
         let y := X in
         rotl (get st x y) (nth (x + 5 * y) rotationOffsets 0%N)) coords.

Definition chi (st : list lane) : list lane :=
  map (fun '(x, y) =>
         N.lxor (get st x y)
                (N.ldiff (get st (x + 2) y) (get st (x + 1) y))) coords.

Definition iota (rc : lane) (st : list lane) : list lane :=
  match st with
  | [] => []
  | l :: r => N.lxor l rc :: r
  end.

Definition round (st : list lane) (rc : lane) : list lane :=
  iota rc (chi (rhoPi (theta st))).

Definition permute (st : list lane) : list lane :=
  fold_left round roundConstants st.

Definition rate : nat := 136.

(** Multi-rate padding 0x01 .. 0x80 up to a multiple of the rate. *)
Definition pad (m : bytes) : bytes :=
  let k := (rate - (length m mod rate))%nat in
  if (k =? 1)%nat then (m ++ [x81])%list
  else (m ++ [x01] ++ repeat x00 (k - 2) ++ [x80])%list.

Fixpoint lanesOf (n : nat) (b : bytes) : list lane :=
  match n with
  | O => []
  | S n' => valueLE (firstn 8 b) :: lanesOf n' (skipn 8 b)
  end.

Fixpoint xorInto (st blk : list lane) : list lane :=
  match st, blk with
  | s :: st', b :: blk' => N.lxor s b :: xorInto st' blk'
  | _, [] => st
  | [], _ => []
  end.

Fixpoint absorb (blocks : nat) (st : list lane) (m : bytes) : list lane :=
  match blocks with
  | O => st
  | S k =>
      absorb k (permute (xorInto st (lanesOf 17 (firstn rate m)))) (skipn rate m)
  end.

Definition digest (m : bytes) : bytes :=
  let p := pad m in
  let st := absorb (length p / rate) (repeat 0%N 25) p in
  flat_map (littleEndian 8) (firstn 4 st).

End Keccak.

(** [utils.keccak256], on bytes. *)
Definition keccak256 (m : bytes) : bytes := Keccak.digest m.

(** *** Addresses: [utils.getAddress] and [utils.isAddress] *)

(** [constants.AddressZero] *)
Definition AddressZero : string := "0x0000000000000000000000000000000000000000".

Definition nibbles (b : bytes) : list N :=
  flat_map (fun x => [Byte.to_N x / 16; Byte.to_N x mod 16]%N) b.

(** The EIP-55 loop: the character at position [i] is upper-cased when the
    [i]-th nibble of the hash is 8 or more. *)
Fixpoint checksumCase (hashed : list N) (chars : string) : string :=
  match chars, hashed with
  | String c r, h :: t =>
      String (if (8 <=? h)%N then JS.upperChar c else c) (checksumCase t r)
  | _, _ => chars
  end.

(** [isHexString(value, 20)]: "0x" and exactly forty hexadecimal digits. *)
Definition hexAddressDigits (value : string) : option string :=
  match value with
  | String "0" (String "x" digits) =>
      if allHex digits && (String.length digits =? 40)%nat then Some digits else None
  | _ => None
  end.

Definition getChecksumAddress (address : string) : option string :=
  match hexAddressDigits address with
  | Some digits =>
      let chars := JS.toLowerCase digits in
      let hashed := keccak256 (toUtf8Bytes chars) in
      Some ("0x" ++ checksumCase (nibbles hashed) chars)
  | None => None
  end.

Fixpoint existsChar (p : ascii -> bool) (s : string) : bool :=
  match s with
  | EmptyString => false
  | String c r => p c || existsChar p r
  end.

Fixpoint forallChar (p : ascii -> bool) (s : string) : bool :=
  match s with
  | EmptyString => true
  | String c r => p c && forallChar p r
  end.

Definition isUpperHex (c : ascii) : bool :=
  let n := N_of_ascii c in ((65 <=? n) && (n <=? 70))%N.
Definition isLowerHex (c : ascii) : bool :=
  let n := N_of_ascii c in ((97 <=? n) && (n <=? 102))%N.

(** [/([A-F].*[a-f])|([a-f].*[A-F])/]: letters of both cases occur. *)
Definition mixedCase (s : string) : bool :=
  existsChar isUpperHex s && existsChar isLowerHex s.

(** [/^(0x)?[0-9a-fA-F]{40}$/]; the result carries the "0x" prefix. *)
Definition matchHexAddress (address : string) : option string :=
  match hexAddressDigits address with
  | Some _ => Some address
  | None =>
      if allHex address && (String.length address =? 40)%nat
      then Some ("0x" ++ address) else None
  end.

Definition isDigit (c : ascii) : bool :=
  let n := N_of_ascii c in ((48 <=? n) && (n <=? 57))%N.
Definition isAlnum (c : ascii) : bool :=
  isDigit c || JS.isUpper c || JS.isLower c.

(** [/^XE[0-9]{2}[0-9A-Za-z]{30,31}$/] *)
Definition matchIcap (address : string) : bool :=
  match address with
  | String "X" (String "E" (String d1 (String d2 body))) =>
      isDigit d1 && isDigit d2 && forallChar isAlnum body
      && ((String.length body =? 30) || (String.length body =? 31))%nat
  | _ => false
  end.

(** The value of a base-36 digit of either case. *)
Definition base36Value (c : ascii) : N :=
  let n := N_of_ascii c in
  if isDigit c then (n - 48)%N
  else if JS.isUpper c then (n - 55)%N
  else (n - 87)%N.

Fixpoint foldString {A} (f : A -> ascii -> A) (s : string) (acc : A) : A :=
  match s with
  | EmptyString => acc
  | String c r => foldString f r (f acc c)
  end.

(** [ibanChecksum]: the body followed by "XE00", letters expanded to two
    decimal digits, read as one decimal number modulo 97. *)
Definition ibanChecksum (address : string) : string :=
  let a := JS.toUpperCase address in
  let moved := substring 4 (String.length a - 4) a ++ substring 0 2 a ++ "00" in
  let expanded :=
    foldString (fun acc c =>
                  let v := base36Value c in
                  if (v <? 10)%N then (10 * acc + v)%N else (100 * acc + v)%N)
               moved 0%N in
  let checksum := JS.decimalN (98 - expanded mod 97) in
  if (String.length checksum <? 2)%nat then "0" ++ checksum else checksum.

Fixpoint hexPos (fuel : nat) (n : N) (acc : string) : string :=
  match fuel with
  | O => acc
  | S fuel' =>
      let acc' := String (hexDigit (n mod 16)) acc in
      if (n / 16 =? 0)%N then acc' else hexPos fuel' (n / 16) acc'
  end.

(** [_base36To16]: a base-36 numeral as lower-case hexadecimal digits,
    without leading zeros. *)
Definition base36To16 (value : string) : string :=
  let n := foldString (fun acc c => (36 * acc + base36Value c)%N) value 0%N in
  hexPos (S (N.to_nat (N.log2 n))) n "".

Fixpoint zeros (n : nat) : string :=
  match n with O => EmptyString | S n' => String "0" (zeros n') end.

Definition padStart40 (s : string) : string := zeros (40 - String.length s) ++ s.

(** [utils.getAddress]; [None] stands for the library's exception. *)
Definition getAddress (address : string) : option string :=
  match matchHexAddress address with
  | Some prefixed =>
      match getChecksumAddress prefixed with
      | Some result =>
          if mixedCase prefixed && negb (result =? prefixed)
          then None (* bad address checksum *)
          else Some result
      | None => None
      end
  | None =>
      if matchIcap address then
        if negb (substring 2 2 address =? ibanChecksum address)
        then None (* bad icap checksum *)
        else getChecksumAddress
               ("0x" ++ padStart40
                  (base36To16 (substring 4 (String.length address - 4) address)))
      else None (* invalid address *)
  end.

(** [utils.isAddress]: [getAddress] does not throw. *)
Definition isAddress (address : string) : bool :=
  match getAddress address with Some _ => true | None => false end.

(** *** Big numbers and the ABI coder *)

Definition decimalValue (s : string) : N :=
  foldString (fun acc c => (10 * acc + (N_of_ascii c - 48))%N) s 0%N.

Definition hexNumberValue (s : string) : N :=
  foldString (fun acc c =>
                match hexValue c with
                | Some v => (16 * acc + v)%N
                | None => acc
                end) s 0%N.

(** [BigNumber.from] of a string without sign: decimal digits, or "0x" (of
    either case) and hexadecimal digits. *)
Definition unsignedFrom (s : string) : option N :=
  match s with
  | EmptyString => None
  | String "0" (String x digits) =>
      if ((x =? "x")%char || (x =? "X")%char) then
        if allHex digits && JS.truthy digits then Some (hexNumberValue digits)
        else None
      else if forallChar isDigit s then Some (decimalValue s) else None
  | _ => if forallChar isDigit s then Some (decimalValue s) else None
  end.

(** [BigNumber.from] of a string: [/^-?0x[0-9a-f]+$/i] or [/^-?[0-9]+$/],
    [None] for the library's exception. *)
Definition bigNumberFrom (s : string) : option Z :=
  match s with
  | String "-" r => option_map (fun n => (- Z.of_N n)%Z) (unsignedFrom r)
  | _ => option_map Z.of_N (unsignedFrom s)
  end.

(** One ABI word: 32 bytes, big-endian. *)
Definition word (v : N) : bytes := bigEndian 32 v.

Definition zeroPadRight (b : bytes) : bytes :=
  (b ++ repeat x00 ((32 - List.length b mod 32) mod 32))%list.

(** [defaultAbiCoder.encode(['address', 'uint256', 'bytes'], [a, t, d])]
    on decoded values: three head words (the address, the number, the offset
    0x60 of the dynamic part), then the length of the bytes and the bytes,
    padded to whole words. *)
Definition abiEncodeClaim (identity topic : N) (data : bytes) : bytes :=
  (word identity ++ word topic ++ word 96
   ++ word (N.of_nat (List.length data)) ++ zeroPadRight data)%list.

(** [defaultAbiCoder.encode(['address'], [a])] on a decoded address. *)
Definition abiEncodeAddress (a : N) : bytes := word a.

(** The 20-byte value of an address string, as the address coder reads it. *)
Definition addressValue (s : string) : option N :=
  match getAddress s with
  | Some a => option_map valueBE (arrayify a)
  | None => None
  end.

(** A [uint256] argument given as a string. *)
Definition uint256Value (s : string) : option N :=
  match bigNumberFrom s with
  | Some z => if ((0 <=? z) && (z <? 2 ^ 256))%Z then Some (Z.to_N z) else None
  | None => None
  end.

(** The coder on the script's own values: an address string, a number
    string and a hex string; [None] when an argument is refused. *)
Definition encodeClaim (identity topic data : string) : option bytes :=
  match addressValue identity, uint256Value topic, arrayify data with
  | Some i, Some t, Some d => Some (abiEncodeClaim i t d)
  | _, _, _ => None
  end.

Definition encodeAddress (a : string) : option bytes :=
  option_map abiEncodeAddress (addressValue a).

(** [utils.id]: the hash of a text, as a hex string. *)
Definition id (text : string) : string := hexlify (keccak256 (toUtf8Bytes text)).

Definition messagePrefix : string :=
  String (ascii_of_N 25) "Ethereum Signed Message:
".

(** [utils.hashMessage] of a byte message (EIP-191). *)
Definition hashMessage (message : bytes) : bytes :=
  keccak256 (toUtf8Bytes messagePrefix
             ++ toUtf8Bytes (JS.decimalN (N.of_nat (List.length message)))
             ++ message)%list.

End Ethers.

(** ** Effects of a script run

    A script reads [process.env], talks to Hardhat and the ledger, and prints.
    Everything outside the script is a [host]: its answers are functions of
    the number of effects performed so far (the clock) and of the request, so
    a host stands for an arbitrary deterministic environment.  Every awaited
    effect is recorded in the trace with its result, the latest first; an
    exception ends the run. *)

Inductive outcome (A : Type) : Type :=
| Returned (a : A)
| Thrown (message : string).
Arguments Returned {A} a.
Arguments Thrown {A} message.

(** Arguments of contract calls and constructors. *)
#[warnings="-register-all"]
Inductive value : Type :=
| VString (s : string)
| VNumber (z : Z)
| VBool (b : bool)
| VArray (items : list value)
| VObject (fields : list (string * value)).

(** A signer: an account of [ethers.getSigners()], or a [Wallet] built from
    a private key (with the address the key has). *)
Inductive signer : Type :=
| Account (address : string)
| Wallet (privateKey : string) (address : string).

Definition signerAddress (s : signer) : string :=
  match s with
  | Account a => a
  | Wallet _ a => a
  end.

Record log : Type := mkLog {
  logAddress : string;
  logTopics : list string;
  logData : string
}.

Record receipt : Type := mkReceipt {
  blockNumber : Z;
  gasUsed : Z;
  logs : list log
}.

Record transaction : Type := mkTransaction { hash : string }.

(** A decoded value of an event, by what [typeof] and [toString] tell. *)
Inductive jsval : Type :=
| JUndefined
| JNull
| JString (s : string)
| JObject (toString : option string)
| JOther.

(** [parsedLog.args]: read by name or by position; a missing entry reads
    as [JUndefined]. *)
Record EventArgs : Type := mkEventArgs {
  byKey : string -> jsval;
  byIndex : nat -> jsval
}.

Record parsedLog : Type := mkParsedLog {
  name : string;
  args : EventArgs
}.

Inductive event : Type :=
| ConsoleLog (line : string)
| ConsoleWarn (line : string)
| ConsoleTable (rows : list (string * string))
| GetSigners (res : list signer)
| CreateRandom (res : signer)
| Deploy (artifact : string) (arguments : list value) (from : option signer)
    (res : outcome string)
| Deployed (address : string) (res : outcome unit)
| Send (artifact address method : string) (arguments : list value)
    (from : option signer) (res : outcome transaction)
| Wait (tx : transaction) (res : outcome receipt)
| Query (artifact address method : string) (arguments : list value)
    (res : outcome string)
| GetCode (address : string) (res : outcome string).

Definition trace := list event.

Record host : Type := mkHost {
  (** the process *)
  env : string -> option string;
  toNumber : string -> JS.number;
  (** Hardhat *)
  networkName : option string;
  accounts : list signer;
  hasProvider : bool;
  parseLog : log -> option parsedLog;
  (** key material *)
  computeAddress : string -> option string;
  randomWallet : nat -> string * string;
  signDigest : string -> Ethers.bytes -> Ethers.bytes;
  recoverAddress : Ethers.bytes -> Ethers.bytes -> string;
  (** the ledger *)
  onDeploy : nat -> string -> list value -> option signer -> outcome string;
  onDeployed : nat -> string -> outcome unit;
  onSend : nat -> string -> string -> string -> list value -> option signer ->
           outcome transaction;
  onWait : nat -> transaction -> outcome receipt;
  onQuery : nat -> string -> string -> string -> list value -> outcome string;
  onGetCode : nat -> string -> outcome string
}.

Definition M (A : Type) : Type := host -> trace -> outcome A * trace.

Definition ret {A} (a : A) : M A := fun _ tr => (Returned a, tr).

Definition throw {A} (message : string) : M A := fun _ tr => (Thrown message, tr).

Definition bind {A B} (m : M A) (k : A -> M B) : M B :=
  fun h tr =>
    match m h tr with
    | (Returned a, tr') => k a h tr'
    | (Thrown e, tr') => (Thrown e, tr')
    end.

(** [try { m } catch (error) { handler(error.message) }] *)
Definition tryCatch {A} (m : M A) (handler : string -> M A) : M A :=
  fun h tr =>
    match m h tr with
    | (Returned a, tr') => (Returned a, tr')
    | (Thrown e, tr') => handler e h tr'
    end.

Notation "x <- m ;; k" := (bind m (fun x => k))
  (at level 61, m at next level, right associativity).
Notation "m ;; k" := (bind m (fun _ => k))
  (at level 61, right associativity).

Definition lift {A} (o : outcome A) : M A := fun _ tr => (o, tr).

Definition ask : M host := fun h tr => (Returned h, tr).

Definition emit (e : event) : M unit := fun _ tr => (Returned tt, e :: tr).

(** An effect whose answer the host gives at the current clock. *)
Definition perform {A} (answer : host -> nat -> outcome A)
    (record : outcome A -> event) : M A :=
  fun h tr =>
    let r := answer h (List.length tr) in (r, record r :: tr).

Definition getenv (key : string) : M (option string) :=
  fun h tr => (Returned (env h key), tr).

Definition consoleLog (line : string) : M unit := emit (ConsoleLog line).
Definition consoleWarn (line : string) : M unit := emit (ConsoleWarn line).
Definition consoleTable (rows : list (string * string)) : M unit :=
  emit (ConsoleTable rows).

(** [await ethers.getSigners()] *)
Definition getSigners : M (list signer) :=
  fun h tr => (Returned (accounts h), GetSigners (accounts h) :: tr).

(** [Wallet.createRandom()] *)
Definition createRandom : M signer :=
  fun h tr =>
    let w := randomWallet h (List.length tr) in
    let s := Wallet (fst w) (snd w) in
    (Returned s, CreateRandom s :: tr).

(** [new Wallet(key, provider)]: throws on a key that is no private key. *)
Definition newWallet (key : string) : M signer :=
  fun h tr =>
    match computeAddress h key with
    | Some a => (Returned (Wallet key a), tr)
    | None => (Thrown "invalid private key", tr)
    end.

(** [s.address] of a signer that may be [undefined]. *)
Definition addressOf (s : option signer) : outcome string :=
  match s with
  | Some x => Returned (signerAddress x)
  | None => Thrown "TypeError: Cannot read properties of undefined (reading 'address')"
  end.

(** [await ethers.deployContract(artifact, arguments, from)], and
    [new ContractFactory(..).deploy(..)]: the deployment is submitted. *)
Definition deployContract (artifact : string) (arguments : list value)
    (from : option signer) : M string :=
  perform (fun h n => onDeploy h n artifact arguments from)
          (Deploy artifact arguments from).

(** [await contract.deployed()] *)
Definition deployed (address : string) : M unit :=
  perform (fun h n => onDeployed h n address) (Deployed address).

(** [await contract.connect(from).method(arguments)] of a state-changing
    method: the transaction is submitted. *)
Definition send (artifact address method : string) (arguments : list value)
    (from : option signer) : M transaction :=
  perform (fun h n => onSend h n artifact address method arguments from)
          (Send artifact address method arguments from).

(** [await tx.wait()] *)
Definition wait (tx : transaction) : M receipt :=
  perform (fun h n => onWait h n tx) (Wait tx).

(** [await contract.method(arguments)] of a view method. *)
Definition query (artifact address method : string) (arguments : list value)
    : M string :=
  perform (fun h n => onQuery h n artifact address method arguments)
          (Query artifact address method arguments).

(** [await ethers.provider.getCode(address)] *)
Definition getCode (address : string) : M string :=
  perform (fun h n => onGetCode h n address) (GetCode address).

(** A run from the empty trace. *)
Definition run {A} (m : M A) (h : host) : outcome A * trace := m h [].

Definition quote : string := String (ascii_of_N 34) EmptyString.

(** ** scripts/deployPropertyToken.ts (the third script of
    scripts/deployIdentity.ts) *)

Module DeployPropertyToken.

Record SuiteAddresses : Type := mkSuiteAddresses {
  token : string;
  identityRegistry : string;
  identityRegistryStorage : string;
  trustedIssuersRegistry : string;
  claimTopicsRegistry : string;
  modularCompliance : string
}.

Definition DEFAULT_FACTORY_PLACEHOLDER : string :=
  "0xB7f8BC63BbcaD18155201308C8f3540b07f84F5e".

Definition requireAddress (label value : string) : outcome string :=
  if negb (Ethers.isAddress value) then
    Thrown (label ++ " must be a valid Ethereum address")
  else
    match Ethers.getAddress value with
    | Some a => Returned a
    | None => Thrown "invalid address"
    end.

Definition ensureContractDeployed (address label : string) : M unit :=
  code <- getCode address ;;
  if (code =? "0x")%string then
    h <- ask ;;
    let networkName := JS.nullish (networkName h) "unknown" in
    let hint :=
      if (networkName =? "hardhat")%string then
        "Start `npx hardhat node` in another terminal and rerun with `--network localhost`, or deploy the factory within this script before using it."
      else
        "Make sure the contract is deployed on the " ++ quote ++ networkName
        ++ quote ++ " network." in
    throw (label ++ " (" ++ address ++ ") has no contract bytecode on network "
           ++ quote ++ networkName ++ quote ++ ". " ++ hint)
  else ret tt.

Definition requireSalt (input : string) : outcome string :=
  let salt := JS.trim input in
  if negb (JS.truthy salt) then Thrown "Deployment salt cannot be empty"
  else Returned salt.

(** [parseDecimals(raw, fallback = 0)]; [number] is the host's [Number]. *)
Definition parseDecimals (number : string -> JS.number) (raw : option string)
    (fallback : Z) : outcome JS.number :=
  let source := JS.nullish raw (JS.decimalZ fallback) in
  let parsed := number source in
  if negb (JS.isInteger parsed) || JS.ltZ parsed 0 || JS.gtZ parsed 18 then
    Thrown "Token decimals must be an integer between 0 and 18"
  else Returned parsed.

Definition buildClaimDetails : value :=
  VObject [("claimTopics", VArray []); ("issuers", VArray []);
           ("issuerClaims", VArray [])].

Definition logSuite (table : SuiteAddresses) : M unit :=
  consoleLog "
--- Deployed Suite ---" ;;
  consoleTable
    [("Token", token table);
     ("IdentityRegistry", identityRegistry table);
     ("IdentityRegistryStorage", identityRegistryStorage table);
     ("TrustedIssuersRegistry", trustedIssuersRegistry table);
     ("ClaimTopicsRegistry", claimTopicsRegistry table);
     ("ModularCompliance", modularCompliance table)].

(** [args[key] ?? args[index]] *)
Definition candidateOf (args : EventArgs) (key : string) (index : nat) : jsval :=
  match byKey args key with
  | JUndefined | JNull => byIndex args index
  | v => v
  end.

(** The string read off a candidate, [None] for [undefined]. *)
Definition textOf (candidate : jsval) : option string :=
  match candidate with
  | JString s => Some s
  | JObject (Some s) => Some s
  | _ => None
  end.

Definition normalizeAddressArg (args : EventArgs) (key : string) (index : nat)
    : outcome string :=
  let candidate := candidateOf args key index in
  let value := textOf candidate in
  match value with
  | Some v =>
      if negb (JS.truthy v) || (v =? "0x")%string || (v =? Ethers.AddressZero)%string
      then Thrown ("Could not read " ++ key ++ " from TREXSuiteDeployed event.")
      else
        match Ethers.getAddress v with
        | Some a => Returned a
        | None => Thrown "invalid address"
        end
  | None => Thrown ("Could not read " ++ key ++ " from TREXSuiteDeployed event.")
  end.

(** The object literal of [suiteAddresses]: its six properties in order, the
    first exception leaving the literal. *)
Definition suiteOfArgs (args : EventArgs) : outcome SuiteAddresses :=
  match normalizeAddressArg args "_token" 0 with
  | Thrown e => Thrown e
  | Returned a0 =>
  match normalizeAddressArg args "_ir" 1 with
  | Thrown e => Thrown e
  | Returned a1 =>
  match normalizeAddressArg args "_irs" 2 with
  | Thrown e => Thrown e
  | Returned a2 =>
  match normalizeAddressArg args "_tir" 3 with
  | Thrown e => Thrown e
  | Returned a3 =>
  match normalizeAddressArg args "_ctr" 4 with
  | Thrown e => Thrown e
  | Returned a4 =>
  match normalizeAddressArg args "_mc" 5 with
  | Thrown e => Thrown e
  | Returned a5 => Returned (mkSuiteAddresses a0 a1 a2 a3 a4 a5)
  end end end end end end.

(** The loop over [receipt.logs]: a log that does not parse, or that parses
    to another event, is skipped; so is, by the same [catch], a
    TREXSuiteDeployed log one of whose fields cannot be read; the first log
    that yields the six addresses ends the loop. *)
Fixpoint extractSuiteAddresses (parse : log -> option parsedLog)
    (receiptLogs : list log) : option SuiteAddresses :=
  match receiptLogs with
  | [] => None
  | l :: rest =>
      match parse l with
      | Some parsed =>
          if (name parsed =? "TREXSuiteDeployed")%string then
            match suiteOfArgs (args parsed) with
            | Returned suite => Some suite
            | Thrown _ => extractSuiteAddresses parse rest
            end
          else extractSuiteAddresses parse rest
      | None => extractSuiteAddresses parse rest
      end
  end.

(** [Array.from(new Set([a, b]))] *)
Definition uniquePair (a b : string) : list string :=
  if (a =? b)%string then [a] else [a; b].

Definition main : M unit :=
  consoleLog "Preparing single property TREX deployment..." ;;
  signers <- getSigners ;;
  let deployer := nth_error signers 0 in
  let secondarySigner := nth_error signers 1 in
  envFactory <- getenv "TREX_FACTORY_ADDRESS" ;;
  let factoryAddressInput := JS.nullish envFactory DEFAULT_FACTORY_PLACEHOLDER in
  factoryAddress <- lift (requireAddress "TREX factory address" factoryAddressInput) ;;
  envName <- getenv "PROPERTY_TOKEN_NAME" ;;
  let propertyTokenName := JS.orElse (option_map JS.trim envName) "Luxury Villa A4" in
  envSymbol <- getenv "PROPERTY_TOKEN_SYMBOL" ;;
  let propertyTokenSymbol := JS.orElse (option_map JS.trim envSymbol) "LVA1" in
  envDecimals <- getenv "PROPERTY_TOKEN_DECIMALS" ;;
  h <- ask ;;
  propertyTokenDecimals <- lift (parseDecimals (toNumber h) envDecimals 0) ;;
  envOwner <- getenv "PROPERTY_OWNER_ADDRESS" ;;
  propertyOwnerAddressInput <-
    lift match envOwner with
         | Some v => Returned v
         | None =>
             match secondarySigner with
             | Some s => Returned (signerAddress s)
             | None => addressOf deployer
             end
         end ;;
  propertyOwnerAddress <-
    lift (requireAddress "Property owner address" propertyOwnerAddressInput) ;;
  envSalt <- getenv "PROPERTY_TOKEN_SALT" ;;
  deploymentSalt <- lift (requireSalt (JS.nullish envSalt propertyTokenName)) ;;
  ensureContractDeployed factoryAddress "TREX factory address" ;;
  existingDeployment <-
    tryCatch
      (query "ITREXFactory" factoryAddress "getToken" [VString deploymentSalt])
      (fun message =>
         consoleWarn
           ("⚠️  Skipping duplicate deployment check because factory.getToken reverted: "
            ++ message ++ ". " ++ "Continuing with deployment.") ;;
         ret Ethers.AddressZero) ;;
  if JS.truthy existingDeployment
     && negb (existingDeployment =? Ethers.AddressZero)%string then
    consoleLog
      ("⚠️  Detected existing TREX suite for salt " ++ quote ++ deploymentSalt
       ++ quote ++ ": " ++ existingDeployment ++ ". "
       ++ "Aborting to avoid duplicate deployment.")
  else
    deployerAddress <- lift (addressOf deployer) ;;
    let uniqueAgents :=
      VArray (map VString (uniquePair deployerAddress propertyOwnerAddress)) in
    let tokenDetails :=
      VObject [("owner", VString propertyOwnerAddress);
               ("name", VString propertyTokenName);
               ("symbol", VString propertyTokenSymbol);
               ("decimals", VNumber (JS.toZ propertyTokenDecimals));
               ("irs", VString Ethers.AddressZero);
               ("ONCHAINID", VString Ethers.AddressZero);
               ("irAgents", uniqueAgents);
               ("tokenAgents", uniqueAgents);
               ("complianceModules", VArray []);
               ("complianceSettings", VArray [])] in
    let claimDetails := buildClaimDetails in
    consoleLog ("Using TREX factory at: " ++ factoryAddress) ;;
    consoleLog ("Deployment salt: " ++ deploymentSalt) ;;
    consoleLog ("Deployer: " ++ deployerAddress) ;;
    consoleLog ("Property owner: " ++ propertyOwnerAddress) ;;
    consoleLog ("Deploying token " ++ propertyTokenName ++ " (" ++ propertyTokenSymbol
                ++ ") with " ++ JS.decimalZ (JS.toZ propertyTokenDecimals)
                ++ " decimals") ;;
    tx <- send "ITREXFactory" factoryAddress "deployTREXSuite"
            [VString deploymentSalt; tokenDetails; claimDetails] deployer ;;
    consoleLog ("Submitted deployment tx: " ++ hash tx) ;;
    receipt <- wait tx ;;
    consoleLog ("Transaction confirmed in block " ++ JS.decimalZ (blockNumber receipt)
                ++ " (gas used: " ++ JS.decimalZ (gasUsed receipt) ++ ")") ;;
    match extractSuiteAddresses (parseLog h) (logs receipt) with
    | None =>
        throw "Could not find TREXSuiteDeployed event in the transaction receipt."
    | Some suiteAddresses =>
        consoleLog "✅ New property TREX suite deployed successfully!" ;;
        logSuite suiteAddresses
    end.

End DeployPropertyToken.

(** ** What the two suite scripts share *)

Definition liftOption {A} (o : option A) (message : string) : M A :=
  match o with
  | Some a => ret a
  | None => throw message
  end.

(** [await wallet.signMessage(message)]: the signature of the prefixed hash
    of the message under the wallet's key, as a hex string. *)
Definition signMessage (w : signer) (message : Ethers.bytes) : M string :=
  fun h tr =>
    match w with
    | Wallet key _ =>
        (Returned (Ethers.hexlify (signDigest h key (Ethers.hashMessage message))), tr)
    | Account _ => (Thrown "signMessage: not a wallet", tr)
    end.

(** [keccak256(defaultAbiCoder.encode(['address'], [a]))], as a hex string:
    the key under which an address is registered on an identity. *)
Definition keyHash (a : string) : M string :=
  encoded <- liftOption (Ethers.encodeAddress a) "invalid address" ;;
  ret (Ethers.hexlify (Ethers.keccak256 encoded)).

(** The digest of a claim: [keccak256(defaultAbiCoder.encode(['address',
    'uint256', 'bytes'], [identity, topic, data]))]. *)
Definition claimDigest (identity topic data : string) : M Ethers.bytes :=
  encoded <- liftOption (Ethers.encodeClaim identity topic data) "invalid argument" ;;
  ret (Ethers.keccak256 encoded).

(** The table the suite scripts return and print. *)
Record DeploymentResult : Type := mkDeploymentResult {
  accountsTable : list (string * string);
  identitiesTable : list (string * string);
  suiteTable : list (string * string);
  authoritiesTable : list (string * string);
  factoriesTable : list (string * string)
}.

(** [deployIdentityImplementationAuthority], the same in both scripts. *)
Definition deployIdentityImplementationAuthority (signer : option signer)
    : M (string * string * string) :=
  signerAddr <- lift (addressOf signer) ;;
  identityImplementation <-
    deployContract "OnchainID.Identity" [VString signerAddr; VBool true] signer ;;
  deployed identityImplementation ;;
  identityImplementationAuthority <-
    deployContract "OnchainID.ImplementationAuthority"
      [VString identityImplementation] signer ;;
  deployed identityImplementationAuthority ;;
  identityFactory <-
    deployContract "OnchainID.Factory" [VString identityImplementationAuthority] signer ;;
  deployed identityFactory ;;
  ret (identityImplementation, identityImplementationAuthority, identityFactory).

(** [deployTREXImplementationAuthority], the same in both scripts;
    [contracts] lists the six implementations in the order token, ctr, ir,
    irs, tir, mc of the version struct. *)
Definition deployTREXImplementationAuthority (signer : option signer)
    (tokenImpl ctrImpl irImpl irsImpl tirImpl mcImpl : string) : M string :=
  trexImplementationAuthority <-
    deployContract "TREXImplementationAuthority"
      [VBool true; VString Ethers.AddressZero; VString Ethers.AddressZero] signer ;;
  let versionStruct :=
    VObject [("major", VNumber 4); ("minor", VNumber 0); ("patch", VNumber 0)] in
  send "TREXImplementationAuthority" trexImplementationAuthority "addAndUseTREXVersion"
    [versionStruct;
     VObject [("tokenImplementation", VString tokenImpl);
              ("ctrImplementation", VString ctrImpl);
              ("irImplementation", VString irImpl);
              ("irsImplementation", VString irsImpl);
              ("tirImplementation", VString tirImpl);
              ("mcImplementation", VString mcImpl)]] signer ;;
  ret trexImplementationAuthority.

(** [BigNumber.from(raw ?? fallback)] *)
Definition bigNumberOfEnv (raw : option string) (fallback : string) : M Z :=
  liftOption (Ethers.bigNumberFrom (JS.nullish raw fallback)) "invalid BigNumber string".

(** ** scripts/deployTREXSuiteInfrastructure.ts *)

Module DeployTREXSuiteInfrastructure.

Inductive RoleKey : Type := tokenIssuer | tokenAgent | tokenAdmin | claimIssuer.

Definition roleName (role : RoleKey) : string :=
  match role with
  | tokenIssuer => "tokenIssuer"
  | tokenAgent => "tokenAgent"
  | tokenAdmin => "tokenAdmin"
  | claimIssuer => "claimIssuer"
  end.

Definition envKeyName (role : RoleKey) : string :=
  "TREX_" ++ JS.toUpperCase (roleName role) ++ "_PRIVATE_KEY".

Definition fallbackWarning (role : RoleKey) (deployerAddress : string) : string :=
  "⚠️  No dedicated signer configured for " ++ roleName role
  ++ ". Falling back to deployer account (" ++ deployerAddress ++ ").".

Definition resolveRoleSigner (role : RoleKey) (availableSigner : option signer)
    (deployer : signer) : M signer :=
  envKeyValue <- getenv (envKeyName role) ;;
  if JS.truthy (JS.nullish envKeyValue "") then
    newWallet (JS.nullish envKeyValue "")
  else
    match availableSigner with
    | Some s => ret s
    | None =>
        let deployerAddress := signerAddress deployer in
        consoleWarn (fallbackWarning role deployerAddress) ;;
        ret deployer
    end.

Definition deployIdentityProxy (implementationAuthority managementKey : string)
    (signer : option signer) : M string :=
  identity <-
    deployContract "IdentityProxy"
      [VString implementationAuthority; VString managementKey] signer ;;
  deployed identity ;;
  ret identity.

Definition deployTREXSuiteInfrastructure : M DeploymentResult :=
  availableSigners <- getSigners ;;
  match availableSigners with
  | [] => throw "No signer available in the current Hardhat network configuration."
  | deployerSigner :: _ =>
  h <- ask ;;
  if negb (hasProvider h) then
    throw "Unable to resolve a provider from the deployer signer."
  else
  let deployer := Some deployerSigner in
  tokenIssuer <- resolveRoleSigner tokenIssuer (nth_error availableSigners 1) deployerSigner ;;
  tokenAgent <- resolveRoleSigner tokenAgent (nth_error availableSigners 2) deployerSigner ;;
  tokenAdmin <- resolveRoleSigner tokenAdmin (nth_error availableSigners 3) deployerSigner ;;
  claimIssuer <- resolveRoleSigner claimIssuer (nth_error availableSigners 4) deployerSigner ;;
  let deployerAddress := signerAddress deployerSigner in
  let tokenIssuerAddress := signerAddress tokenIssuer in
  let tokenAgentAddress := signerAddress tokenAgent in
  let tokenAdminAddress := signerAddress tokenAdmin in
  let claimIssuerAddress := signerAddress claimIssuer in
  envSigningKey <- getenv "TREX_CLAIM_ISSUER_SIGNING_KEY_PRIVATE_KEY" ;;
  claimIssuerSigningKey <-
    (if JS.truthy (JS.nullish envSigningKey "")
     then newWallet (JS.nullish envSigningKey "")
     else createRandom) ;;
  claimTopicsRegistryImplementation <- deployContract "ClaimTopicsRegistry" [] deployer ;;
  trustedIssuersRegistryImplementation <- deployContract "TrustedIssuersRegistry" [] deployer ;;
  identityRegistryStorageImplementation <- deployContract "IdentityRegistryStorage" [] deployer ;;
  identityRegistryImplementation <- deployContract "IdentityRegistry" [] deployer ;;
  modularComplianceImplementation <- deployContract "ModularCompliance" [] deployer ;;
  tokenImplementation <- deployContract "Token" [] deployer ;;
  ids <- deployIdentityImplementationAuthority deployer ;;
  let '(identityImplementation, identityImplementationAuthority, identityFactory) := ids in
  trexImplementationAuthority <-
    deployTREXImplementationAuthority deployer
      tokenImplementation claimTopicsRegistryImplementation
      identityRegistryImplementation identityRegistryStorageImplementation
      trustedIssuersRegistryImplementation modularComplianceImplementation ;;
  trexFactory <-
    deployContract "TREXFactory"
      [VString trexImplementationAuthority; VString identityFactory] deployer ;;
  send "OnchainID.Factory" identityFactory "addTokenFactory" [VString trexFactory] deployer ;;
  claimTopicsRegistry <-
    deployContract "ClaimTopicsRegistryProxy" [VString trexImplementationAuthority] deployer ;;
  deployed claimTopicsRegistry ;;
  consoleLog ("✅ ClaimTopicsRegistry deployed to: " ++ claimTopicsRegistry) ;;
  trustedIssuersRegistry <-
    deployContract "TrustedIssuersRegistryProxy" [VString trexImplementationAuthority] deployer ;;
  deployed trustedIssuersRegistry ;;
  consoleLog ("✅ TrustedIssuersRegistry deployed to: " ++ trustedIssuersRegistry) ;;
  identityRegistryStorage <-
    deployContract "IdentityRegistryStorageProxy" [VString trexImplementationAuthority] deployer ;;
  deployed identityRegistryStorage ;;
  consoleLog ("✅ IdentityRegistryStorage deployed to: " ++ identityRegistryStorage) ;;
  defaultCompliance <- deployContract "DefaultCompliance" [] deployer ;;
  deployed defaultCompliance ;;
  consoleLog ("✅ DefaultCompliance deployed to: " ++ defaultCompliance) ;;
  identityRegistry <-
    deployContract "IdentityRegistryProxy"
      [VString trexImplementationAuthority; VString trustedIssuersRegistry;
       VString claimTopicsRegistry; VString identityRegistryStorage] deployer ;;
  deployed identityRegistry ;;
  consoleLog ("✅ IdentityRegistry deployed to: " ++ identityRegistry) ;;
  tokenOID <-
    deployIdentityProxy identityImplementationAuthority tokenIssuerAddress deployer ;;
  consoleLog ("✅ Token OnchainID deployed to: " ++ tokenOID) ;;
  envName <- getenv "TREX_TOKEN_NAME" ;;
  let tokenName := JS.nullish envName "TREXDINO" in
  envSymbol <- getenv "TREX_TOKEN_SYMBOL" ;;
  let tokenSymbol := JS.nullish envSymbol "TREX" in
  envDecimals <- getenv "TREX_TOKEN_DECIMALS" ;;
  tokenDecimals <- bigNumberOfEnv envDecimals "0" ;;
  token <-
    deployContract "TokenProxy"
      [VString trexImplementationAuthority; VString identityRegistry;
       VString defaultCompliance; VString tokenName; VString tokenSymbol;
       VNumber tokenDecimals; VString tokenOID] deployer ;;
  deployed token ;;
  consoleLog ("✅ Token deployed to: " ++ token) ;;
  agentManager <- deployContract "AgentManager" [VString token] (Some tokenAgent) ;;
  consoleLog ("✅ AgentManager deployed to: " ++ agentManager) ;;
  send "IdentityRegistryStorage" identityRegistryStorage "bindIdentityRegistry"
    [VString identityRegistry] deployer ;;
  send "Token" token "addAgent" [VString tokenAgentAddress] deployer ;;
  send "IdentityRegistry" identityRegistry "addAgent" [VString tokenAgentAddress] deployer ;;
  send "IdentityRegistry" identityRegistry "addAgent" [VString token] deployer ;;
  let claimTopics := [Ethers.id "CLAIM_TOPIC"] in
  send "ClaimTopicsRegistry" claimTopicsRegistry "addClaimTopic"
    [VString (Ethers.id "CLAIM_TOPIC")] deployer ;;
  claimIssuerContract <-
    deployContract "ClaimIssuer" [VString claimIssuerAddress] (Some claimIssuer) ;;
  signingKeyHash <- keyHash (signerAddress claimIssuerSigningKey) ;;
  send "ClaimIssuer" claimIssuerContract "addKey"
    [VString signingKeyHash; VNumber 3; VNumber 1] (Some claimIssuer) ;;
  send "TrustedIssuersRegistry" trustedIssuersRegistry "addTrustedIssuer"
    [VString claimIssuerContract; VArray (map VString claimTopics)] deployer ;;
  send "AgentManager" agentManager "addAgentAdmin" [VString tokenAdminAddress]
    (Some tokenAgent) ;;
  send "Token" token "addAgent" [VString agentManager] deployer ;;
  send "IdentityRegistry" identityRegistry "addAgent" [VString agentManager] deployer ;;
  (* NOTE: Token remains paused. Unpause it via the tokenAgent when ready to go live. *)
  ret {|
    accountsTable :=
      [("deployer", deployerAddress); ("tokenIssuer", tokenIssuerAddress);
       ("tokenAgent", tokenAgentAddress); ("tokenAdmin", tokenAdminAddress);
       ("claimIssuer", claimIssuerAddress);
       ("claimIssuerSigningKey", signerAddress claimIssuerSigningKey)];
    identitiesTable := [];
    suiteTable :=
      [("claimIssuerContract", claimIssuerContract);
       ("claimTopicsRegistry", claimTopicsRegistry);
       ("trustedIssuersRegistry", trustedIssuersRegistry);
       ("identityRegistryStorage", identityRegistryStorage);
       ("defaultCompliance", defaultCompliance);
       ("identityRegistry", identityRegistry);
       ("tokenOID", tokenOID);
       ("token", token);
       ("agentManager", agentManager)];
    authoritiesTable :=
      [("trexImplementationAuthority", trexImplementationAuthority);
       ("identityImplementationAuthority", identityImplementationAuthority)];
    factoriesTable :=
      [("trexFactory", trexFactory); ("identityFactory", identityFactory)]
  |}
  end.

Definition logDeployment (result : DeploymentResult) : M unit :=
  consoleLog "
--- Accounts ---" ;;
  consoleTable (accountsTable result) ;;
  consoleLog "
--- Core Suite ---" ;;
  consoleTable (suiteTable result) ;;
  consoleLog "
--- Authorities ---" ;;
  consoleTable (authoritiesTable result) ;;
  consoleLog "
--- Factories ---" ;;
  consoleTable (factoriesTable result).

Definition main : M unit :=
  consoleLog "Starting full TREX suite deployment..." ;;
  result <- deployTREXSuiteInfrastructure ;;
  consoleLog "TREX suite deployed successfully!" ;;
  logDeployment result.

End DeployTREXSuiteInfrastructure.

(** ** The full-suite script (the second script of scripts/deployIdentity.ts) *)

Module DeployFullSuite.

Definition deployIdentityProxy (implementationAuthority managementKey : string)
    (signer : option signer) : M string :=
  identity <-
    deployContract "OnchainID.IdentityProxy"
      [VString implementationAuthority; VString managementKey] signer ;;
  deployed identity ;;
  ret identity.

Definition claimData : string :=
  Ethers.hexlify (Ethers.toUtf8Bytes "Some claim public data.").

(** The claim a script signs and adds: [claimForAlice], [claimForBob]. *)
Record Claim : Type := mkClaim {
  data : string;
  issuer : string;
  topic : string;
  scheme : Z;
  identity : string;
  signature : string
}.

(** [claim.signature = await signingKey.signMessage(arrayify(keccak256(
    defaultAbiCoder.encode(['address', 'uint256', 'bytes'],
    [claim.identity, claim.topic, claim.data]))))] *)
Definition signClaim (signingKey : signer) (claim : Claim) : M Claim :=
  digest <- claimDigest (identity claim) (topic claim) (data claim) ;;
  sig <- signMessage signingKey digest ;;
  ret (mkClaim (data claim) (issuer claim) (topic claim) (scheme claim)
         (identity claim) sig).

(** [identity.connect(owner).addClaim(topic, scheme, issuer, signature,
    data, '')] *)
Definition addClaim (claim : Claim) (owner : option signer) : M transaction :=
  send "Identity" (identity claim) "addClaim"
    [VString (topic claim); VNumber (scheme claim); VString (issuer claim);
     VString (signature claim); VString (data claim); VString ""] owner.

Definition deployFullSuite : M DeploymentResult :=
  signers <- getSigners ;;
  let deployer := nth_error signers 0 in
  let tokenIssuer := nth_error signers 1 in
  let tokenAgent := nth_error signers 2 in
  let tokenAdmin := nth_error signers 3 in
  let claimIssuer := nth_error signers 4 in
  let aliceWallet := nth_error signers 5 in
  let bobWallet := nth_error signers 6 in
  let charlieWallet := nth_error signers 7 in
  let davidWallet := nth_error signers 8 in
  let anotherWallet := nth_error signers 9 in
  claimIssuerSigningKey <- createRandom ;;
  aliceActionKey <- createRandom ;;
  claimTopicsRegistryImplementation <- deployContract "ClaimTopicsRegistry" [] deployer ;;
  trustedIssuersRegistryImplementation <- deployContract "TrustedIssuersRegistry" [] deployer ;;
  identityRegistryStorageImplementation <- deployContract "IdentityRegistryStorage" [] deployer ;;
  identityRegistryImplementation <- deployContract "IdentityRegistry" [] deployer ;;
  modularComplianceImplementation <- deployContract "ModularCompliance" [] deployer ;;
  tokenImplementation <- deployContract "Token" [] deployer ;;
  ids <- deployIdentityImplementationAuthority deployer ;;
  let '(identityImplementation, identityImplementationAuthority, identityFactory) := ids in
  trexImplementationAuthority <-
    deployTREXImplementationAuthority deployer
      tokenImplementation claimTopicsRegistryImplementation
      identityRegistryImplementation identityRegistryStorageImplementation
      trustedIssuersRegistryImplementation modularComplianceImplementation ;;
  trexFactory <-
    deployContract "TREXFactory"
      [VString trexImplementationAuthority; VString identityFactory] deployer ;;
  send "OnchainID.Factory" identityFactory "addTokenFactory" [VString trexFactory] deployer ;;
  claimTopicsRegistry <-
    deployContract "ClaimTopicsRegistryProxy" [VString trexImplementationAuthority] deployer ;;
  trustedIssuersRegistry <-
    deployContract "TrustedIssuersRegistryProxy" [VString trexImplementationAuthority] deployer ;;
  identityRegistryStorage <-
    deployContract "IdentityRegistryStorageProxy" [VString trexImplementationAuthority] deployer ;;
  defaultCompliance <- deployContract "DefaultCompliance" [] deployer ;;
  identityRegistry <-
    deployContract "IdentityRegistryProxy"
      [VString trexImplementationAuthority; VString trustedIssuersRegistry;
       VString claimTopicsRegistry; VString identityRegistryStorage] deployer ;;
  tokenIssuerAddress <- lift (addressOf tokenIssuer) ;;
  tokenOID <-
    deployIdentityProxy identityImplementationAuthority tokenIssuerAddress deployer ;;
  envName <- getenv "TREX_TOKEN_NAME" ;;
  let tokenName := JS.nullish envName "TREXDINO" in
  envSymbol <- getenv "TREX_TOKEN_SYMBOL" ;;
  let tokenSymbol := JS.nullish envSymbol "TREX" in
  envDecimals <- getenv "TREX_TOKEN_DECIMALS" ;;
  tokenDecimals <- bigNumberOfEnv envDecimals "0" ;;
  token <-
    deployContract "TokenProxy"
      [VString trexImplementationAuthority; VString identityRegistry;
       VString defaultCompliance; VString tokenName; VString tokenSymbol;
       VNumber tokenDecimals; VString tokenOID] deployer ;;
  agentManager <- deployContract "AgentManager" [VString token] tokenAgent ;;
  send "IdentityRegistryStorage" identityRegistryStorage "bindIdentityRegistry"
    [VString identityRegistry] deployer ;;
  tokenAgentAddress <- lift (addressOf tokenAgent) ;;
  send "Token" token "addAgent" [VString tokenAgentAddress] deployer ;;
  let claimTopics := [Ethers.id "CLAIM_TOPIC"] in
  send "ClaimTopicsRegistry" claimTopicsRegistry "addClaimTopic"
    [VString (Ethers.id "CLAIM_TOPIC")] deployer ;;
  claimIssuerAddress <- lift (addressOf claimIssuer) ;;
  claimIssuerContract <-
    deployContract "ClaimIssuer" [VString claimIssuerAddress] claimIssuer ;;
  signingKeyHash <- keyHash (signerAddress claimIssuerSigningKey) ;;
  send "ClaimIssuer" claimIssuerContract "addKey"
    [VString signingKeyHash; VNumber 3; VNumber 1] claimIssuer ;;
  send "TrustedIssuersRegistry" trustedIssuersRegistry "addTrustedIssuer"
    [VString claimIssuerContract; VArray (map VString claimTopics)] deployer ;;
  aliceWalletAddress <- lift (addressOf aliceWallet) ;;
  aliceIdentity <-
    deployIdentityProxy identityImplementationAuthority aliceWalletAddress deployer ;;
  actionKeyHash <- keyHash (signerAddress aliceActionKey) ;;
  send "Identity" aliceIdentity "addKey"
    [VString actionKeyHash; VNumber 2; VNumber 1] aliceWallet ;;
  bobWalletAddress <- lift (addressOf bobWallet) ;;
  bobIdentity <-
    deployIdentityProxy identityImplementationAuthority bobWalletAddress deployer ;;
  charlieWalletAddress <- lift (addressOf charlieWallet) ;;
  charlieIdentity <-
    deployIdentityProxy identityImplementationAuthority charlieWalletAddress deployer ;;
  send "IdentityRegistry" identityRegistry "addAgent" [VString tokenAgentAddress] deployer ;;
  send "IdentityRegistry" identityRegistry "addAgent" [VString token] deployer ;;
  send "IdentityRegistry" identityRegistry "batchRegisterIdentity"
    [VArray [VString aliceWalletAddress; VString bobWalletAddress];
     VArray [VString aliceIdentity; VString bobIdentity];
     VArray [VNumber 42; VNumber 666]] tokenAgent ;;
  claimForAlice <-
    signClaim claimIssuerSigningKey
      (mkClaim claimData claimIssuerContract (Ethers.id "CLAIM_TOPIC") 1 aliceIdentity "") ;;
  addClaim claimForAlice aliceWallet ;;
  claimForBob <-
    signClaim claimIssuerSigningKey
      (mkClaim claimData claimIssuerContract (Ethers.id "CLAIM_TOPIC") 1 bobIdentity "") ;;
  addClaim claimForBob bobWallet ;;
  envMintAlice <- getenv "TREX_MINT_ALICE" ;;
  aliceMintAmount <- bigNumberOfEnv envMintAlice "1000" ;;
  envMintBob <- getenv "TREX_MINT_BOB" ;;
  bobMintAmount <- bigNumberOfEnv envMintBob "500" ;;
  send "Token" token "mint" [VString aliceWalletAddress; VNumber aliceMintAmount] tokenAgent ;;
  send "Token" token "mint" [VString bobWalletAddress; VNumber bobMintAmount] tokenAgent ;;
  tokenAdminAddress <- lift (addressOf tokenAdmin) ;;
  send "AgentManager" agentManager "addAgentAdmin" [VString tokenAdminAddress] tokenAgent ;;
  send "Token" token "addAgent" [VString agentManager] deployer ;;
  send "IdentityRegistry" identityRegistry "addAgent" [VString agentManager] deployer ;;
  send "Token" token "unpause" [] tokenAgent ;;
  deployerAddress <- lift (addressOf deployer) ;;
  davidWalletAddress <- lift (addressOf davidWallet) ;;
  anotherWalletAddress <- lift (addressOf anotherWallet) ;;
  ret {|
    accountsTable :=
      [("deployer", deployerAddress); ("tokenIssuer", tokenIssuerAddress);
       ("tokenAgent", tokenAgentAddress); ("tokenAdmin", tokenAdminAddress);
       ("claimIssuer", claimIssuerAddress);
       ("claimIssuerSigningKey", signerAddress claimIssuerSigningKey);
       ("aliceActionKey", signerAddress aliceActionKey);
       ("aliceWallet", aliceWalletAddress); ("bobWallet", bobWalletAddress);
       ("charlieWallet", charlieWalletAddress); ("davidWallet", davidWalletAddress);
       ("anotherWallet", anotherWalletAddress)];
    identitiesTable :=
      [("aliceIdentity", aliceIdentity); ("bobIdentity", bobIdentity);
       ("charlieIdentity", charlieIdentity)];
    suiteTable :=
      [("claimIssuerContract", claimIssuerContract);
       ("claimTopicsRegistry", claimTopicsRegistry);
       ("trustedIssuersRegistry", trustedIssuersRegistry);
       ("identityRegistryStorage", identityRegistryStorage);
       ("defaultCompliance", defaultCompliance);
       ("identityRegistry", identityRegistry);
       ("tokenOID", tokenOID);
       ("token", token);
       ("agentManager", agentManager)];
    authoritiesTable :=
      [("trexImplementationAuthority", trexImplementationAuthority);
       ("identityImplementationAuthority", identityImplementationAuthority)];
    factoriesTable :=
      [("trexFactory", trexFactory); ("identityFactory", identityFactory)]
  |}.

Definition logDeployment (result : DeploymentResult) : M unit :=
  consoleLog "
--- Accounts ---" ;;
  consoleTable (accountsTable result) ;;
  consoleLog "
--- Identities ---" ;;
  consoleTable (identitiesTable result) ;;
  consoleLog "
--- Core Suite ---" ;;
  consoleTable (suiteTable result) ;;
  consoleLog "
--- Authorities ---" ;;
  consoleTable (authoritiesTable result) ;;
  consoleLog "
--- Factories ---" ;;
  consoleTable (factoriesTable result).

Definition main : M unit :=
  consoleLog "Starting full TREX suite deployment..." ;;
  result <- deployFullSuite ;;
  consoleLog "TREX suite deployed successfully!" ;;
  logDeployment result.

End DeployFullSuite.

(** ** scripts/registerIdentity.ts *)

Module RegisterIdentity.

Definition requireAddress (label value : string) : outcome string :=
  if negb (Ethers.isAddress value) then
    Thrown (label ++ " must be a valid Ethereum address")
  else
    match Ethers.getAddress value with
    | Some a => Returned a
    | None => Thrown "invalid address"
    end.

Definition parseUserWallet : M string :=
  envWallet <- getenv "USER_WALLET" ;;
  if JS.truthy (JS.nullish envWallet "") then
    lift (requireAddress "User wallet address (from USER_WALLET env)"
            (JS.nullish envWallet ""))
  else
    throw "User wallet address is required. Provide it as an environment variable:
  USER_WALLET=<address> npx hardhat run scripts/registerIdentity.ts --network <network>
  or add USER_WALLET=<address> to your .env file".

Definition identityRegistryAbi : string :=
  "function batchRegisterIdentity(address[], address[], uint16[]) external".

Definition main : M unit :=
  envRegistry <- getenv "IDENTITY_REGISTRY_ADDRESS" ;;
  let IDENTITY_REGISTRY_ADDRESS :=
    JS.nullish envRegistry "0x51991f45EA1475C4C0eD37a9f615041a3b0bCc6C" in
  envAgentKey <- getenv "AGENT_PRIVATE_KEY" ;;
  envKey <- getenv "PRIVATE_KEY" ;;
  let agentPrivateKey :=
    match envAgentKey with
    | Some k => Some k
    | None => envKey
    end in
  if negb (JS.truthy (JS.nullish agentPrivateKey "")) then
    throw "Missing AGENT_PRIVATE_KEY (preferred) or PRIVATE_KEY in environment."
  else
  USER_WALLET <- parseUserWallet ;;
  envIdentity <- getenv "USER_IDENTITY_ADDRESS" ;;
  let USER_IDENTITY_ADDRESS := JS.nullish envIdentity "" in
  if negb (JS.truthy USER_IDENTITY_ADDRESS) then
    throw "Missing USER_IDENTITY_ADDRESS in environment. Provide the new Identity Contract Address from the first script."
  else
  if negb (Ethers.isAddress USER_IDENTITY_ADDRESS) then
    throw "Please paste the new Identity Contract Address from the first script."
  else
  agent <- newWallet (JS.nullish agentPrivateKey "") ;;
  consoleLog ("Registering identity for user: " ++ USER_WALLET) ;;
  consoleLog ("   OnchainID: " ++ USER_IDENTITY_ADDRESS) ;;
  tx <- send identityRegistryAbi IDENTITY_REGISTRY_ADDRESS "batchRegisterIdentity"
          [VArray [VString USER_WALLET]; VArray [VString USER_IDENTITY_ADDRESS];
           VArray [VNumber 42]] (Some agent) ;;
  wait tx ;;
  consoleLog ("Transaction successful: " ++ hash tx) ;;
  consoleLog "✅ User has been successfully registered and whitelisted!".

End RegisterIdentity.

(** ** Predicates of the statements below *)

(** A string that does not start, or end, with white space. *)
Definition startsClean (s : string) : Prop :=
  match JS.firstChar s with Some c => JS.isWhiteSpace c = false | None => True end.

Definition endsClean (s : string) : Prop :=
  match JS.lastChar s with Some c => JS.isWhiteSpace c = false | None => True end.


(** A lower-case hexadecimal digit. *)
Definition lowerHexChar (c : ascii) : bool := Ethers.isDigit c || Ethers.isLowerHex c.

(** The effects that reach the ledger or the node. *)
Definition ledgerEffect (e : event) : bool :=
  match e with
  | Deploy _ _ _ _ | Deployed _ _ | Send _ _ _ _ _ _ | Wait _ _
  | Query _ _ _ _ _ | GetCode _ _ => true
  | _ => false
  end.

(** The effects that submit a transaction: a deployment or a call. *)
Definition submission (e : event) : bool :=
  match e with
  | Deploy _ _ _ _ | Send _ _ _ _ _ _ => true
  | _ => false
  end.

Definition outcomeOf {A} (r : outcome A * trace) : outcome A := fst r.
(** The trace of a run, in the order of the effects. *)
Definition traceOf {A} (r : outcome A * trace) : trace := rev (snd r).

(** [wp h m tr Q]: from the trace [tr], on the host [h], the script [m]
    ends in an outcome and a trace that satisfy [Q]. *)
Definition wp {A} (h : host) (m : M A) (tr : trace)
    (Q : outcome A -> trace -> Prop) : Prop :=
  Q (fst (m h tr)) (snd (m h tr)).

(** *** Statements about the single-property deployment *)

Definition propertyTokenName (h : host) : string :=
  JS.orElse (option_map JS.trim (env h "PROPERTY_TOKEN_NAME")) "Luxury Villa A4".

(** The salt the script is given: PROPERTY_TOKEN_SALT, else the token name. *)
Definition saltInput (h : host) : string :=
  JS.nullish (env h "PROPERTY_TOKEN_SALT") (propertyTokenName h).

Definition existingSuiteMessage (salt found : string) : string :=
  "⚠️  Detected existing TREX suite for salt " ++ quote ++ salt ++ quote ++ ": "
  ++ found ++ ". " ++ "Aborting to avoid duplicate deployment.".

Definition skippedCheckMessage (message : string) : string :=
  "⚠️  Skipping duplicate deployment check because factory.getToken reverted: "
  ++ message ++ ". " ++ "Continuing with deployment.".

(** The two directions of the duplicate check, on the outcome and the trace
    of a run. *)
Definition duplicateCheck (h : host) (o : outcome unit) (tr : trace) : Prop :=
  (forall art addr arguments found,
      In (Query art addr "getToken" arguments (Returned found)) tr ->
      found <> "" -> found <> Ethers.AddressZero ->
      o = Returned tt
      /\ existsb submission tr = false
      /\ arguments = [VString (JS.trim (saltInput h))]
      /\ In (ConsoleLog (existingSuiteMessage (JS.trim (saltInput h)) found)) tr)
  /\
  (forall art addr arguments from res,
      In (Send art addr "deployTREXSuite" arguments from res) tr ->
      exists art' addr' arguments' r,
        In (Query art' addr' "getToken" arguments' r) tr
        /\ (r = Returned Ethers.AddressZero \/ r = Returned ""
            \/ exists message, r = Thrown message)).

(** The run of the single-property script goes on after a failed query. *)
Definition queryFailure (h : host) (o : outcome unit) (tr : trace) : Prop :=
  forall art addr arguments message,
    In (Query art addr "getToken" arguments (Thrown message)) tr ->
    In (ConsoleWarn (skippedCheckMessage message)) tr
    /\ (accounts h <> [] ->
        exists details from res,
          In (Send art addr "deployTREXSuite"
                (VString (JS.trim (saltInput h)) :: details) from res) tr).

(** The salt of every factory request is the trimmed input, and an input
    that trims to nothing stops the run before the ledger is reached. *)
Definition saltRule (h : host) (o : outcome unit) (tr : trace) : Prop :=
  (forall art addr arguments r,
      In (Query art addr "getToken" arguments r) tr ->
      arguments = [VString (JS.trim (saltInput h))])
  /\ (forall art addr arguments from res,
         In (Send art addr "deployTREXSuite" arguments from res) tr ->
         exists details, arguments = VString (JS.trim (saltInput h)) :: details)
  /\ (JS.trim (saltInput h) = "" ->
      (exists message, o = Thrown message) /\ existsb ledgerEffect tr = false).

(** A number [parseDecimals] accepts: an integer from 0 to 18. *)
Definition validDecimals (x : JS.number) : bool :=
  JS.isInteger x && (0 <=? JS.toZ x)%Z && (JS.toZ x <=? 18)%Z.

(** What [Number] makes of PROPERTY_TOKEN_DECIMALS, "0" when it is unset. *)
Definition decimalsInput (h : host) : JS.number :=
  toNumber h (JS.nullish (env h "PROPERTY_TOKEN_DECIMALS") "0").

Definition decimalsRule (h : host) (o : outcome unit) (tr : trace) : Prop :=
  (validDecimals (decimalsInput h) = false ->
   (exists message, o = Thrown message) /\ existsb ledgerEffect tr = false)
  /\ (forall art addr arguments from res,
         In (Send art addr "deployTREXSuite" arguments from res) tr ->
         validDecimals (decimalsInput h) = true
         /\ exists salt fields claims,
             arguments = [VString salt; VObject fields; claims]
             /\ In ("decimals", VNumber (JS.toZ (decimalsInput h))) fields).

(** The rows [logSuite] prints. *)
Definition suiteRows (table : DeployPropertyToken.SuiteAddresses)
    : list (string * string) :=
  [("Token", DeployPropertyToken.token table);
   ("IdentityRegistry", DeployPropertyToken.identityRegistry table);
   ("IdentityRegistryStorage", DeployPropertyToken.identityRegistryStorage table);
   ("TrustedIssuersRegistry", DeployPropertyToken.trustedIssuersRegistry table);
   ("ClaimTopicsRegistry", DeployPropertyToken.claimTopicsRegistry table);
   ("ModularCompliance", DeployPropertyToken.modularCompliance table)].

Definition notFoundMessage : string :=
  "Could not find TREXSuiteDeployed event in the transaction receipt.".

(** Once the receipt is there, the run ends as the extraction does. *)
Definition eventDecoding (h : host) (o : outcome unit) (tr : trace) : Prop :=
  forall tx rc,
    In (Wait tx (Returned rc)) tr ->
    match DeployPropertyToken.extractSuiteAddresses (parseLog h) (logs rc) with
    | Some suite => o = Returned tt /\ In (ConsoleTable (suiteRows suite)) tr
    | None => o = Thrown notFoundMessage
    end.

(** *** Statements about the event decoder *)

(** The six fields of the TREXSuiteDeployed event, by name and position. *)
Definition suiteFields : list (string * nat) :=
  [("_token", 0%nat); ("_ir", 1%nat); ("_irs", 2%nat);
   ("_tir", 3%nat); ("_ctr", 4%nat); ("_mc", 5%nat)].

(** An entry of the decoded arguments that is there. *)
Definition present (v : jsval) : bool :=
  match v with
  | JUndefined | JNull => false
  | _ => true
  end.

(** The text of a field: by name first, by position second. *)
Definition fieldText (args : EventArgs) (key : string) (index : nat)
    : option string :=
  DeployPropertyToken.textOf
    (if present (byKey args key) then byKey args key else byIndex args index).

(** A field the decoder cannot use: missing, empty, "0x", the zero address,
    or no address at all. *)
Definition unreadable (args : EventArgs) (key : string) (index : nat) : Prop :=
  match fieldText args key index with
  | None => True
  | Some v =>
      v = "" \/ v = "0x" \/ v = Ethers.AddressZero \/ Ethers.getAddress v = None
  end.

(** A field the decoder reads as the address [a]. *)
Definition readsAs (args : EventArgs) (key : string) (index : nat) (a : string)
    : Prop :=
  exists v, fieldText args key index = Some v
            /\ v <> "" /\ v <> "0x" /\ v <> Ethers.AddressZero
            /\ Ethers.getAddress v = Some a.

Definition prefixed0x (v : string) : bool :=
  match v with
  | String "0" (String "x" _) => true
  | _ => false
  end.

(** The decoded texts are hex strings: an ABI decoder prints an address
    with its "0x" prefix. *)
Definition hexTexts (args : EventArgs) : Prop :=
  forall key index v,
    In (key, index) suiteFields ->
    fieldText args key index = Some v -> v = "" \/ prefixed0x v = true.

(** A log that is no TREXSuiteDeployed event of the factory: it does not
    parse, or it parses to another event. *)
Definition otherLog (parse : log -> option parsedLog) (l : log) : Prop :=
  match parse l with
  | None => True
  | Some parsed => name parsed <> "TREXSuiteDeployed"
  end.

(** The logs hold exactly one TREXSuiteDeployed event, [parsed]. *)
Definition soleSuiteEvent (parse : log -> option parsedLog) (ls : list log)
    (parsed : parsedLog) : Prop :=
  exists before l after,
    ls = (before ++ l :: after)%list
    /\ parse l = Some parsed
    /\ name parsed = "TREXSuiteDeployed"
    /\ Forall (otherLog parse) before
    /\ Forall (otherLog parse) after.

(** The six addresses of a suite, in the order of [suiteFields]. *)
Definition suiteList (s : DeployPropertyToken.SuiteAddresses) : list string :=
  [DeployPropertyToken.token s; DeployPropertyToken.identityRegistry s;
   DeployPropertyToken.identityRegistryStorage s;
   DeployPropertyToken.trustedIssuersRegistry s;
   DeployPropertyToken.claimTopicsRegistry s;
   DeployPropertyToken.modularCompliance s].

(** A checksummed, non-zero address. *)
Definition checksummedNonZero (a : string) : Prop :=
  Ethers.getAddress a = Some a /\ a <> Ethers.AddressZero.

(** *** Sample hosts, to run the scripts on *)

Definition sampleAddress (n : nat) : string :=
  "0x" ++ Ethers.hexOfBytes (Ethers.bigEndian 20 (N.of_nat n)).

Fixpoint lookup (key : string) (l : list (string * string)) : option string :=
  match l with
  | [] => None
  | (k, v) :: rest => if (k =? key)%string then Some v else lookup key rest
  end.

(** [Number] on strings of decimal digits; the empty string reads as 0. *)
Definition decimalNumber (s : string) : JS.number :=
  if Ethers.forallChar Ethers.isDigit s
  then JS.Finite (Z.of_N (Ethers.decimalValue s) # 1)
  else JS.NaN.

(** A toy signature scheme: the signature is the key, as one word, followed
    by the digest; the address of a key is its number. *)
Definition toyKeyWord (key : string) : Ethers.bytes :=
  Ethers.word (Ethers.valueBE (Ethers.toUtf8Bytes key)).

Definition toyAddressOf (keyWord : Ethers.bytes) : string :=
  "0x" ++ Ethers.hexOfBytes (skipn 12 keyWord).

Definition toySign (key : string) (digest : Ethers.bytes) : Ethers.bytes :=
  (toyKeyWord key ++ digest)%list.

Definition bytesEqb (a b : Ethers.bytes) : bool :=
  (Ethers.hexOfBytes a =? Ethers.hexOfBytes b)%string.

Definition toyRecover (digest sig : Ethers.bytes) : string :=
  if bytesEqb (skipn 32 sig) digest then toyAddressOf (firstn 32 sig)
  else Ethers.AddressZero.

Definition sampleSuiteArgs : EventArgs :=
  {| byKey := fun key =>
       if (key =? "_token")%string then JString (sampleAddress 161)
       else if (key =? "_ir")%string then JString (sampleAddress 162)
       else if (key =? "_irs")%string then JString (sampleAddress 163)
       else JUndefined;
     byIndex := fun index =>
       match index with
       | 3%nat => JString (sampleAddress 164)
       | 4%nat => JString (sampleAddress 165)
       | 5%nat => JObject (Some (sampleAddress 166))
       | _ => JUndefined
       end |}.

(** The same event with the zero address as its compliance. *)
Definition brokenSuiteArgs : EventArgs :=
  {| byKey := byKey sampleSuiteArgs;
     byIndex := fun index =>
       match index with
       | 5%nat => JString Ethers.AddressZero
       | _ => byIndex sampleSuiteArgs index
       end |}.

(** A factory interface for the sample receipts: the log with data "0x01"
    is the TREXSuiteDeployed event, the one with "0x03" the same event with
    a zero address in it, the one with "0x02" another event of the factory,
    any other log belongs to another contract. *)
Definition sampleParseLog (l : log) : option parsedLog :=
  if (logData l =? "0x01")%string
  then Some {| name := "TREXSuiteDeployed"; args := sampleSuiteArgs |}
  else if (logData l =? "0x03")%string
  then Some {| name := "TREXSuiteDeployed"; args := brokenSuiteArgs |}
  else if (logData l =? "0x02")%string
  then Some {| name := "Deployed";
               args := {| byKey := fun _ => JUndefined;
                          byIndex := fun _ => JUndefined |} |}
  else None.

Definition sampleReceipt : receipt :=
  {| blockNumber := 12; gasUsed := 2100000;
     logs := [ mkLog (sampleAddress 9) [] "0x";
               mkLog (sampleAddress 8) [] "0x02";
               mkLog (sampleAddress 8) [] "0x01";
               mkLog (sampleAddress 9) [] "0x" ] |}.

Definition brokenReceipt : receipt :=
  {| blockNumber := 12; gasUsed := 2100000;
     logs := [ mkLog (sampleAddress 9) [] "0x";
               mkLog (sampleAddress 8) [] "0x03";
               mkLog (sampleAddress 8) [] "0x02" ] |}.

Definition foreignReceipt : receipt :=
  {| blockNumber := 12; gasUsed := 2100000;
     logs := [ mkLog (sampleAddress 9) [] "0x";
               mkLog (sampleAddress 8) [] "0x02" ] |}.

(** A host with ten accounts and a ledger that accepts everything; the
    environment, the answer of the factory's [getToken] and the receipt of
    a transaction are given. *)
Definition hostWith (variables : list (string * string))
    (getToken : outcome string) (rc : receipt) : host :=
  {| env := fun key => lookup key variables;
     toNumber := decimalNumber;
     networkName := Some "localhost";
     accounts := map (fun n => Account (sampleAddress n)) (seq 1 10);
     hasProvider := true;
     parseLog := sampleParseLog;
     computeAddress := fun key =>
       if (String.length key =? 0)%nat then None
       else Some (toyAddressOf (toyKeyWord key));
     randomWallet := fun n =>
       let key := "key" ++ JS.decimalN (N.of_nat n) in
       (key, toyAddressOf (toyKeyWord key));
     signDigest := toySign;
     recoverAddress := toyRecover;
     onDeploy := fun n _ _ _ => Returned (sampleAddress (1000 + n));
     onDeployed := fun _ _ => Returned tt;
     onSend := fun n _ _ _ _ _ =>
       Returned (mkTransaction
                   ("0x" ++ Ethers.hexOfBytes (Ethers.word (N.of_nat n))));
     onWait := fun _ _ => Returned rc;
     onQuery := fun _ _ _ _ _ => getToken;
     onGetCode := fun _ _ => Returned "0x6080" |}.

Definition sampleHost (variables : list (string * string))
    (getToken : outcome string) : host :=
  hostWith variables getToken sampleReceipt.

(** *** Statements about the identity registration *)

(** [process.env.AGENT_PRIVATE_KEY ?? process.env.PRIVATE_KEY] *)
Definition agentKey (h : host) : option string :=
  match env h "AGENT_PRIVATE_KEY" with
  | Some k => Some k
  | None => env h "PRIVATE_KEY"
  end.

(** Inputs the registration script accepts: a usable agent key, a wallet
    address and an identity address. *)
Definition registrationInputsValid (h : host) : Prop :=
  JS.truthy (JS.nullish (agentKey h) "") = true
  /\ computeAddress h (JS.nullish (agentKey h) "") <> None
  /\ Ethers.isAddress (JS.nullish (env h "USER_WALLET") "") = true
  /\ Ethers.isAddress (JS.nullish (env h "USER_IDENTITY_ADDRESS") "") = true.

Definition registrationRule (h : host) (o : outcome unit) (tr : trace) : Prop :=
  (forall art addr method arguments from res,
      In (Send art addr method arguments from res) tr ->
      method = "batchRegisterIdentity"
      /\ exists wallet identity,
          arguments = [VArray [VString wallet]; VArray [VString identity];
                       VArray [VNumber 42]]
          /\ Ethers.getAddress (JS.nullish (env h "USER_WALLET") "") = Some wallet
          /\ env h "USER_IDENTITY_ADDRESS" = Some identity)
  /\ (registrationInputsValid h ->
      exists art addr wallet identity from res,
        In (Send art addr "batchRegisterIdentity"
              [VArray [VString wallet]; VArray [VString identity];
               VArray [VNumber 42]] from res) tr).

(** *** Statements about the two suite scripts *)

(** A call of the token's [unpause], whatever its result. *)
Definition isUnpause (e : event) : bool :=
  match e with
  | Send art _ method _ _ _ => (art =? "Token")%string && (method =? "unpause")%string
  | _ => false
  end.

(** A call of [method] on a contract of kind [art] that went through. *)
Definition completed (art method : string) (e : event) : bool :=
  match e with
  | Send art' _ method' _ _ (Returned _) =>
      (art' =? art)%string && (method' =? method)%string
  | _ => false
  end.

Definition countCompleted (art method : string) (tr : trace) : nat :=
  List.length (filter (completed art method) tr).

(** The wiring of a suite: the storage is bound to the registry, the agent
    role is granted on the token and (to the agent and to the token) on the
    identity registry, the claim topic and the trusted issuer are
    registered. *)
Definition wiringCompleted (tr : trace) : bool :=
  (1 <=? countCompleted "IdentityRegistryStorage" "bindIdentityRegistry" tr)%nat
  && (1 <=? countCompleted "Token" "addAgent" tr)%nat
  && (2 <=? countCompleted "IdentityRegistry" "addAgent" tr)%nat
  && (1 <=? countCompleted "ClaimTopicsRegistry" "addClaimTopic" tr)%nat
  && (1 <=? countCompleted "TrustedIssuersRegistry" "addTrustedIssuer" tr)%nat.


Definition roleIndex (role : DeployTREXSuiteInfrastructure.RoleKey) : nat :=
  match role with
  | DeployTREXSuiteInfrastructure.tokenIssuer => 1
  | DeployTREXSuiteInfrastructure.tokenAgent => 2
  | DeployTREXSuiteInfrastructure.tokenAdmin => 3
  | DeployTREXSuiteInfrastructure.claimIssuer => 4
  end.

(** The environment holds a key for the role. *)
Definition hasEnvKey (h : host) (role : DeployTREXSuiteInfrastructure.RoleKey)
    : bool :=
  JS.truthy (JS.nullish (env h (DeployTREXSuiteInfrastructure.envKeyName role)) "").

(** Neither a key nor a pooled signer: the role falls back to the deployer. *)
Definition fallsBack (h : host) (role : DeployTREXSuiteInfrastructure.RoleKey)
    : bool :=
  negb (hasEnvKey h role)
  && match nth_error (accounts h) (roleIndex role) with
     | None => true
     | Some _ => false
     end.

Fixpoint startsWith (p s : string) : bool :=
  match p, s with
  | EmptyString, _ => true
  | String a p', String b s' => (a =? b)%char && startsWith p' s'
  | _, EmptyString => false
  end.

(** The fallback warning of a role, whatever the deployer's address. *)
Definition isFallbackWarning (role : DeployTREXSuiteInfrastructure.RoleKey)
    (e : event) : bool :=
  match e with
  | ConsoleWarn line =>
      startsWith ("⚠️  No dedicated signer configured for "
                  ++ DeployTREXSuiteInfrastructure.roleName role
                  ++ ". Falling back to deployer account (") line
  | _ => false
  end.

Definition warningsFor (role : DeployTREXSuiteInfrastructure.RoleKey)
    (tr : trace) : nat :=
  List.length (filter (isFallbackWarning role) tr).

Definition isReturned {A} (o : outcome A) : bool :=
  match o with Returned _ => true | Thrown _ => false end.

(** What every run of the infrastructure script satisfies: the token is
    never unpaused, and each role is warned about at most once, only when it
    falls back, and exactly once in a run that gets through. *)
Definition infrastructureRule (h : host) (o : outcome unit) (tr : trace) : Prop :=
  existsb isUnpause tr = false
  /\ forall role,
      (warningsFor role tr <= if fallsBack h role then 1 else 0)%nat
      /\ (isReturned o = true ->
          warningsFor role tr = if fallsBack h role then 1%nat else 0%nat).

Definition roleEqb (a b : DeployTREXSuiteInfrastructure.RoleKey) : bool :=
  (roleIndex a =? roleIndex b)%nat.

Definition isNone {A} (o : option A) : bool :=
  match o with None => true | Some _ => false end.

(** What the ordering check reads off an event. *)
Inductive label : Type :=
| LSend (art method : string) (ok : bool)
| LDeploy
| LOther.

Definition labelOf (e : event) : label :=
  match e with
  | Send art _ method _ _ res => LSend art method (isReturned res)
  | Deploy _ _ _ _ => LDeploy
  | _ => LOther
  end.

Definition isUnpauseL (l : label) : bool :=
  match l with
  | LSend art method _ => (art =? "Token")%string && (method =? "unpause")%string
  | _ => false
  end.

Definition completedL (art method : string) (l : label) : bool :=
  match l with
  | LSend art' method' true => (art' =? art)%string && (method' =? method)%string
  | _ => false
  end.


Definition countCompletedL (art method : string) (ls : list label) : nat :=
  List.length (filter (completedL art method) ls).

Definition wiringCompletedL (ls : list label) : bool :=
  (1 <=? countCompletedL "IdentityRegistryStorage" "bindIdentityRegistry" ls)%nat
  && (1 <=? countCompletedL "Token" "addAgent" ls)%nat
  && (2 <=? countCompletedL "IdentityRegistry" "addAgent" ls)%nat
  && (1 <=? countCompletedL "ClaimTopicsRegistry" "addClaimTopic" ls)%nat
  && (1 <=? countCompletedL "TrustedIssuersRegistry" "addTrustedIssuer" ls)%nat.






(** A decoded (identity, topic, data) triple the ABI coder accepts. *)
Definition wellFormedClaim (i t : N) (d : Ethers.bytes) : Prop :=
  (i < 2 ^ 160 /\ t < 2 ^ 256 /\ N.of_nat (List.length d) < 2 ^ 256)%N.

(** A host with other accounts. *)
Definition withAccounts (h : host) (signers : list signer) : host :=
  {| env := env h;
     toNumber := toNumber h;
     networkName := networkName h;
     accounts := signers;
     hasProvider := hasProvider h;
     parseLog := parseLog h;
     computeAddress := computeAddress h;
     randomWallet := randomWallet h;
     signDigest := signDigest h;
     recoverAddress := recoverAddress h;
     onDeploy := onDeploy h;
     onDeployed := onDeployed h;
     onSend := onSend h;
     onWait := onWait h;
     onQuery := onQuery h;
     onGetCode := onGetCode h |}.

(** ** Further predicates: what the scripts submit and when they stop *)

(** *** The single-property deployment *)

(** [process.env.TREX_FACTORY_ADDRESS ?? DEFAULT_FACTORY_PLACEHOLDER] *)
Definition factoryInput (h : host) : string :=
  JS.nullish (env h "TREX_FACTORY_ADDRESS")
    DeployPropertyToken.DEFAULT_FACTORY_PLACEHOLDER.

Definition propertyTokenSymbol (h : host) : string :=
  JS.orElse (option_map JS.trim (env h "PROPERTY_TOKEN_SYMBOL")) "LVA1".

(** Where the owner of the property is read from: PROPERTY_OWNER_ADDRESS,
    else the second signer, else the deployer. *)
Definition ownerInput (h : host) : option string :=
  match env h "PROPERTY_OWNER_ADDRESS" with
  | Some v => Some v
  | None =>
      match nth_error (accounts h) 1 with
      | Some s => Some (signerAddress s)
      | None => option_map signerAddress (nth_error (accounts h) 0)
      end
  end.

(** The owner as the script uses it: the checksummed form of the input. *)
Definition ownerAddress (h : host) : option string :=
  match ownerInput h with
  | Some v => Ethers.getAddress v
  | None => None
  end.

(** The value of a field of an object literal. *)
Fixpoint field (name : string) (fields : list (string * value)) : option value :=
  match fields with
  | [] => None
  | (k, v) :: rest => if (k =? name)%string then Some v else field name rest
  end.

(** What the single-property script does with each effect of a run. *)
Definition propertyEvent (h : host) (e : event) : Prop :=
  match e with
  | GetCode addr _ => Ethers.getAddress (factoryInput h) = Some addr
  | Query art addr method arguments _ =>
      art = "ITREXFactory" /\ Ethers.getAddress (factoryInput h) = Some addr
      /\ method = "getToken" /\ arguments = [VString (JS.trim (saltInput h))]
  | Send art addr method arguments from _ =>
      art = "ITREXFactory" /\ Ethers.getAddress (factoryInput h) = Some addr
      /\ method = "deployTREXSuite"
      /\ exists deployer owner,
          nth_error (accounts h) 0 = Some deployer
          /\ from = Some deployer
          /\ ownerAddress h = Some owner
          /\ arguments =
             [VString (JS.trim (saltInput h));
              VObject
                [("owner", VString owner);
                 ("name", VString (propertyTokenName h));
                 ("symbol", VString (propertyTokenSymbol h));
                 ("decimals", VNumber (JS.toZ (decimalsInput h)));
                 ("irs", VString Ethers.AddressZero);
                 ("ONCHAINID", VString Ethers.AddressZero);
                 ("irAgents",
                  VArray (map VString
                            (DeployPropertyToken.uniquePair
                               (signerAddress deployer) owner)));
                 ("tokenAgents",
                  VArray (map VString
                            (DeployPropertyToken.uniquePair
                               (signerAddress deployer) owner)));
                 ("complianceModules", VArray []);
                 ("complianceSettings", VArray [])];
              VObject [("claimTopics", VArray []); ("issuers", VArray []);
                       ("issuerClaims", VArray [])]]
  | Deploy _ _ _ _ => False
  | Deployed _ _ => False
  | _ => True
  end.

(** The four inputs the single-property script validates. *)
Definition propertyInputsValid (h : host) : Prop :=
  Ethers.getAddress (factoryInput h) <> None
  /\ validDecimals (decimalsInput h) = true
  /\ ownerAddress h <> None
  /\ JS.trim (saltInput h) <> "".

Definition networkLabel (h : host) : string := JS.nullish (networkName h) "unknown".

(** The error of a factory address without bytecode. *)
Definition noBytecodeMessage (h : host) (address : string) : string :=
  "TREX factory address (" ++ address ++ ") has no contract bytecode on network "
  ++ quote ++ networkLabel h ++ quote ++ ". "
  ++ (if (networkLabel h =? "hardhat")%string
      then "Start `npx hardhat node` in another terminal and rerun with `--network localhost`, or deploy the factory within this script before using it."
      else "Make sure the contract is deployed on the " ++ quote ++ networkLabel h
           ++ quote ++ " network.").

Definition isQuery (e : event) : bool :=
  match e with Query _ _ _ _ _ => true | _ => false end.

(** The validation of the inputs comes before the ledger, and a factory
    address without bytecode stops the run before the factory is asked
    anything. *)
Definition validationRule (h : host) (o : outcome unit) (tr : trace) : Prop :=
  (Ethers.getAddress (factoryInput h) = None ->
   o = Thrown "TREX factory address must be a valid Ethereum address"
   /\ existsb ledgerEffect tr = false)
  /\ (existsb ledgerEffect tr = true -> propertyInputsValid h)
  /\ (forall addr,
         In (GetCode addr (Returned "0x")) tr ->
         o = Thrown (noBytecodeMessage h addr)
         /\ existsb isQuery tr = false /\ existsb submission tr = false).

(** The kinds of effects on the ledger. *)
Inductive kind : Type := KGetCode | KQuery | KSend | KWait | KDeploy | KDeployed.

Definition kindOf (e : event) : option kind :=
  match e with
  | GetCode _ _ => Some KGetCode
  | Query _ _ _ _ _ => Some KQuery
  | Send _ _ _ _ _ _ => Some KSend
  | Wait _ _ => Some KWait
  | Deploy _ _ _ _ => Some KDeploy
  | Deployed _ _ => Some KDeployed
  | _ => None
  end.

Fixpoint kindsOf (tr : trace) : list kind :=
  match tr with
  | [] => []
  | e :: rest =>
      match kindOf e with
      | Some k => k :: kindsOf rest
      | None => kindsOf rest
      end
  end.

Definition kindEqb (a b : kind) : bool :=
  match a, b with
  | KGetCode, KGetCode | KQuery, KQuery | KSend, KSend | KWait, KWait
  | KDeploy, KDeploy | KDeployed, KDeployed => true
  | _, _ => false
  end.

Fixpoint isPrefixOf (l full : list kind) : bool :=
  match l, full with
  | [], _ => true
  | a :: l', b :: full' => kindEqb a b && isPrefixOf l' full'
  | _ :: _, [] => false
  end.

(** A log the event decoder can use: it parses to a TREXSuiteDeployed event
    whose six fields can be read. *)
Definition decodes (parse : log -> option parsedLog) (l : log)
    : option DeployPropertyToken.SuiteAddresses :=
  match parse l with
  | Some parsed =>
      if (name parsed =? "TREXSuiteDeployed")%string then
        match DeployPropertyToken.suiteOfArgs (args parsed) with
        | Returned suite => Some suite
        | Thrown _ => None
        end
      else None
  | None => None
  end.

(** *** Sample hosts for the statements below *)

(** A host whose node answers [getCode] with [code] and whose network has
    the given name. *)
Definition withNode (h : host) (network : option string) (code : outcome string)
    : host :=
  {| env := env h;
     toNumber := toNumber h;
     networkName := network;
     accounts := accounts h;
     hasProvider := hasProvider h;
     parseLog := parseLog h;
     computeAddress := computeAddress h;
     randomWallet := randomWallet h;
     signDigest := signDigest h;
     recoverAddress := recoverAddress h;
     onDeploy := onDeploy h;
     onDeployed := onDeployed h;
     onSend := onSend h;
     onWait := onWait h;
     onQuery := onQuery h;
     onGetCode := fun _ _ => code |}.

(** A call of [method], whatever the contract. *)
Definition sends (method : string) (e : event) : bool :=
  match e with
  | Send _ _ method' _ _ _ => (method' =? method)%string
  | _ => false
  end.

(** *** The identity registration *)

(** The registry the registration is sent to: IDENTITY_REGISTRY_ADDRESS as
    it is given, else the registry of the deployment on Arbitrum Sepolia. *)
Definition registryAddress (h : host) : string :=
  JS.nullish (env h "IDENTITY_REGISTRY_ADDRESS")
    "0x51991f45EA1475C4C0eD37a9f615041a3b0bCc6C".

Definition missingKeyMessage : string :=
  "Missing AGENT_PRIVATE_KEY (preferred) or PRIVATE_KEY in environment.".

Definition walletRequiredMessage : string :=
  "User wallet address is required. Provide it as an environment variable:
  USER_WALLET=<address> npx hardhat run scripts/registerIdentity.ts --network <network>
  or add USER_WALLET=<address> to your .env file".

(** What the registration script does with each effect of a run. *)
Definition registrationEvent (h : host) (e : event) : Prop :=
  match e with
  | Send art addr method arguments from _ =>
      art = RegisterIdentity.identityRegistryAbi
      /\ addr = registryAddress h
      /\ exists key a,
          agentKey h = Some key /\ computeAddress h key = Some a
          /\ from = Some (Wallet key a)
  | Wait _ _ | ConsoleLog _ => True
  | _ => False
  end.

(** The checks of the registration script, in their order, each with its
    error; a run that fails one of them has done nothing at all. *)
Definition registrationChecks (h : host) (o : outcome unit) (tr : trace) : Prop :=
  let key := JS.nullish (agentKey h) "" in
  let wallet := JS.nullish (env h "USER_WALLET") "" in
  let identity := JS.nullish (env h "USER_IDENTITY_ADDRESS") "" in
  (key = "" -> o = Thrown missingKeyMessage)
  /\ (key <> "" -> wallet = "" -> o = Thrown walletRequiredMessage)
  /\ (key <> "" -> wallet <> "" -> Ethers.isAddress wallet = false ->
      o = Thrown
            "User wallet address (from USER_WALLET env) must be a valid Ethereum address")
  /\ (key <> "" -> Ethers.isAddress wallet = true -> identity = "" ->
      o = Thrown "Missing USER_IDENTITY_ADDRESS in environment. Provide the new Identity Contract Address from the first script.")
  /\ (key <> "" -> Ethers.isAddress wallet = true -> identity <> "" ->
      Ethers.isAddress identity = false ->
      o = Thrown "Please paste the new Identity Contract Address from the first script.")
  /\ (~ registrationInputsValid h -> tr = [] /\ exists message, o = Thrown message).

(** How a run of the registration script ends once its transaction is
    submitted. *)
Definition registrationReport (o : outcome unit) (tr : trace) : Prop :=
  isPrefixOf (kindsOf tr) [KSend; KWait] = true
  /\ (forall art addr method arguments from res,
         In (Send art addr method arguments from res) tr ->
         match res with
         | Thrown e => o = Thrown e /\ kindsOf tr = [KSend]
         | Returned tx =>
             exists r, In (Wait tx r) tr
                       /\ match r with
                          | Thrown e => o = Thrown e
                          | Returned _ =>
                              o = Returned tt
                              /\ In (ConsoleLog ("Transaction successful: " ++ hash tx)) tr
                          end
         end)
  /\ (o = Returned tt -> kindsOf tr = [KSend; KWait]).

(** ** scripts/deployIdentity.ts (the first script of the file of that
    name): a new OnchainID for one user *)

Module DeployIdentity.

Definition requireAddress (label value : string) : outcome string :=
  if negb (Ethers.isAddress value) then
    Thrown (label ++ " must be a valid Ethereum address")
  else
    match Ethers.getAddress value with
    | Some a => Returned a
    | None => Thrown "invalid address"
    end.

Definition parseUserWallet : M string :=
  envWallet <- getenv "USER_WALLET" ;;
  if JS.truthy (JS.nullish envWallet "") then
    lift (requireAddress "User wallet address (from USER_WALLET env)"
            (JS.nullish envWallet ""))
  else
    throw "User wallet address is required. Provide it as an environment variable:
  USER_WALLET=0x14dC79964da2C08b23698B3D3cc7Ca32193d9955 npx hardhat run scripts/deployIdentity.ts --network <network>
  or add USER_WALLET=0x14dC79964da2C08b23698B3D3cc7Ca32193d9955 to your .env file".

Definition main : M unit :=
  envAuthority <- getenv "IDENTITY_IMPLEMENTATION_AUTHORITY" ;;
  let IDENTITY_IMPLEMENTATION_AUTHORITY :=
    JS.nullish envAuthority "0xd436Ac872F300c2b163D2d8ecBB1498AbEEe1DdC" in
  envAgentKey <- getenv "AGENT_PRIVATE_KEY" ;;
  envKey <- getenv "PRIVATE_KEY" ;;
  let agentPrivateKey :=
    match envAgentKey with
    | Some k => Some k
    | None => envKey
    end in
  if negb (JS.truthy (JS.nullish agentPrivateKey "")) then
    throw "Missing AGENT_PRIVATE_KEY (preferred) or PRIVATE_KEY in environment."
  else
  NEW_USER_WALLET <- parseUserWallet ;;
  agent <- newWallet (JS.nullish agentPrivateKey "") ;;
  consoleLog ("Deploying a new OnchainID for user: " ++ NEW_USER_WALLET ++ "...") ;;
  identity <-
    deployContract "OnchainID.IdentityProxy"
      [VString IDENTITY_IMPLEMENTATION_AUTHORITY; VString NEW_USER_WALLET]
      (Some agent) ;;
  deployed identity ;;
  let newUserIdentityAddress := identity in
  consoleLog "✅ New OnchainID deployed successfully!" ;;
  consoleLog ("   User Wallet: " ++ NEW_USER_WALLET) ;;
  consoleLog ("   New Identity Contract Address: " ++ newUserIdentityAddress) ;;
  consoleLog "
Copy the new identity address for the next script.".

End DeployIdentity.

(** *** Statements about the deployment of one identity *)

(** What the identity script does with each effect of a run. *)
Definition identityEvent (h : host) (e : event) : Prop :=
  match e with
  | Deploy art arguments from _ =>
      art = "OnchainID.IdentityProxy"
      /\ exists wallet key a,
          arguments =
          [VString (JS.nullish (env h "IDENTITY_IMPLEMENTATION_AUTHORITY")
                      "0xd436Ac872F300c2b163D2d8ecBB1498AbEEe1DdC");
           VString wallet]
          /\ Ethers.getAddress (JS.nullish (env h "USER_WALLET") "") = Some wallet
          /\ agentKey h = Some key /\ computeAddress h key = Some a
          /\ from = Some (Wallet key a)
  | Deployed _ _ | ConsoleLog _ => True
  | _ => False
  end.

(** How a run of the identity script ends. *)
Definition identityReport (h : host) (o : outcome unit) (tr : trace) : Prop :=
  let key := JS.nullish (agentKey h) "" in
  let wallet := JS.nullish (env h "USER_WALLET") "" in
  isPrefixOf (kindsOf tr) [KDeploy; KDeployed] = true
  /\ (key = "" -> o = Thrown missingKeyMessage /\ tr = [])
  /\ (key <> "" -> Ethers.isAddress wallet = false ->
      (exists message, o = Thrown message) /\ tr = [])
  /\ (forall art arguments from res,
         In (Deploy art arguments from res) tr ->
         match res with
         | Thrown e => o = Thrown e
         | Returned identity =>
             exists r,
               In (Deployed identity r) tr
               /\ match r with
                  | Thrown e => o = Thrown e
                  | Returned _ =>
                      o = Returned tt
                      /\ In (ConsoleLog ("   New Identity Contract Address: "
                                         ++ identity)) tr
                  end
         end)
  /\ (o = Returned tt -> kindsOf tr = [KDeploy; KDeployed]).

(** *** The infrastructure script: the roles and what they sign *)

(** The signer a role resolves to: the wallet of the role's key, else the
    pooled signer, else the deployer. *)
Definition roleSigner (h : host) (role : DeployTREXSuiteInfrastructure.RoleKey)
    (available : option signer) (deployer : signer) : option signer :=
  let key := JS.nullish (env h (DeployTREXSuiteInfrastructure.envKeyName role)) "" in
  if JS.truthy key then option_map (Wallet key) (computeAddress h key)
  else match available with
       | Some s => Some s
       | None => Some deployer
       end.

Record Roles : Type := mkRoles {
  deployerOf : signer;
  tokenIssuerOf : signer;
  tokenAgentOf : signer;
  tokenAdminOf : signer;
  claimIssuerOf : signer
}.

(** The roles of a run of the infrastructure script on a host: the deployer
    is the first signer, the others are resolved against the signers 1 to
    4. *)
Definition resolved (h : host) (r : Roles) : Prop :=
  nth_error (accounts h) 0 = Some (deployerOf r)
  /\ roleSigner h DeployTREXSuiteInfrastructure.tokenIssuer
       (nth_error (accounts h) 1) (deployerOf r) = Some (tokenIssuerOf r)
  /\ roleSigner h DeployTREXSuiteInfrastructure.tokenAgent
       (nth_error (accounts h) 2) (deployerOf r) = Some (tokenAgentOf r)
  /\ roleSigner h DeployTREXSuiteInfrastructure.tokenAdmin
       (nth_error (accounts h) 3) (deployerOf r) = Some (tokenAdminOf r)
  /\ roleSigner h DeployTREXSuiteInfrastructure.claimIssuer
       (nth_error (accounts h) 4) (deployerOf r) = Some (claimIssuerOf r).

(** TREX_CLAIM_ISSUER_SIGNING_KEY_PRIVATE_KEY, when it is set and not
    empty. *)
Definition signingKeyInput (h : host) : option string :=
  match env h "TREX_CLAIM_ISSUER_SIGNING_KEY_PRIVATE_KEY" with
  | Some k => if JS.truthy k then Some k else None
  | None => None
  end.

(** Who signs what in the infrastructure script, and which addresses the
    roles are given by. *)
Definition infrastructureEvent (h : host) (r : Roles) (e : event) : Prop :=
  match e with
  | Deploy art arguments from _ =>
      if (art =? "AgentManager")%string then from = Some (tokenAgentOf r)
      else if (art =? "ClaimIssuer")%string then
        from = Some (claimIssuerOf r)
        /\ arguments = [VString (signerAddress (claimIssuerOf r))]
      else if (art =? "IdentityProxy")%string then
        from = Some (deployerOf r)
        /\ exists authority,
            arguments = [VString authority;
                         VString (signerAddress (tokenIssuerOf r))]
      else from = Some (deployerOf r)
  | Send art _ method arguments from _ =>
      if (art =? "ClaimIssuer")%string then
        from = Some (claimIssuerOf r) /\ method = "addKey"
      else if (art =? "AgentManager")%string then
        from = Some (tokenAgentOf r) /\ method = "addAgentAdmin"
        /\ arguments = [VString (signerAddress (tokenAdminOf r))]
      else from = Some (deployerOf r)
  | _ => True
  end.

(** The parameters of the token and the key of the claim issuer, as the
    infrastructure script takes them from the environment. *)
Definition infrastructureParameter (h : host) (e : event) : Prop :=
  match e with
  | Deploy art arguments _ _ =>
      if (art =? "TokenProxy")%string then
        exists authority registry compliance decimals identity,
          arguments =
          [VString authority; VString registry; VString compliance;
           VString (JS.nullish (env h "TREX_TOKEN_NAME") "TREXDINO");
           VString (JS.nullish (env h "TREX_TOKEN_SYMBOL") "TREX");
           VNumber decimals; VString identity]
          /\ Ethers.bigNumberFrom (JS.nullish (env h "TREX_TOKEN_DECIMALS") "0")
             = Some decimals
      else True
  | Send art _ method arguments _ _ =>
      if (art =? "ClaimIssuer")%string then
        exists key addr encoded,
          arguments = [VString (Ethers.hexlify (Ethers.keccak256 encoded));
                       VNumber 3; VNumber 1]
          /\ Ethers.encodeAddress addr = Some encoded
          /\ match signingKeyInput h with
             | Some k => key = k /\ computeAddress h k = Some addr
             | None => exists n, randomWallet h n = (key, addr)
             end
      else True
  | _ => True
  end.

Definition isTable (e : event) : bool :=
  match e with ConsoleTable _ => true | _ => false end.

(** How a run of the infrastructure script ends (on the trace, newest
    first: the counts do not depend on the order). *)
Definition infrastructureOutcome (h : host) (o : outcome unit) (tr : trace) : Prop :=
  (accounts h = [] ->
   o = Thrown "No signer available in the current Hardhat network configuration."
   /\ existsb ledgerEffect tr = false)
  /\ (accounts h <> [] -> hasProvider h = false ->
      o = Thrown "Unable to resolve a provider from the deployer signer."
      /\ existsb ledgerEffect tr = false)
  /\ (Ethers.bigNumberFrom (JS.nullish (env h "TREX_TOKEN_DECIMALS") "0") = None ->
      exists message, o = Thrown message)
  /\ (isReturned o = true ->
      wiringCompleted tr = true
      /\ countCompleted "Token" "addAgent" tr = 2%nat
      /\ countCompleted "IdentityRegistry" "addAgent" tr = 3%nat
      /\ countCompleted "AgentManager" "addAgentAdmin" tr = 1%nat
      /\ countCompleted "ClaimIssuer" "addKey" tr = 1%nat
      /\ List.length (filter isTable tr) = 4%nat).

(** *** The full-suite script: the signers and what they sign *)

(** The address of the signer at a position of [ethers.getSigners()]. *)
Definition signerAt (h : host) (index : nat) : option string :=
  option_map signerAddress (nth_error (accounts h) index).

(** Who signs what in the full-suite script: the signers are taken by
    position -- 0 the deployer, 2 the token agent, 4 the claim issuer, 5
    Alice, 6 Bob. *)
Definition fullSuiteEvent (h : host) (e : event) : Prop :=
  match e with
  | Deploy art arguments from _ =>
      if (art =? "AgentManager")%string then from = nth_error (accounts h) 2
      else if (art =? "ClaimIssuer")%string then
        from = nth_error (accounts h) 4
        /\ exists a, signerAt h 4 = Some a /\ arguments = [VString a]
      else from = nth_error (accounts h) 0
  | Send art _ method arguments from _ =>
      if (art =? "ClaimIssuer")%string then
        from = nth_error (accounts h) 4 /\ method = "addKey"
      else if (art =? "AgentManager")%string then
        from = nth_error (accounts h) 2 /\ method = "addAgentAdmin"
        /\ exists a, signerAt h 3 = Some a /\ arguments = [VString a]
      else if (art =? "Identity")%string then
        (method = "addKey" /\ from = nth_error (accounts h) 5)
        \/ (method = "addClaim"
            /\ (from = nth_error (accounts h) 5 \/ from = nth_error (accounts h) 6))
      else if (art =? "Token")%string
              && ((method =? "mint")%string || (method =? "unpause")%string) then
        from = nth_error (accounts h) 2
      else if (art =? "IdentityRegistry")%string
              && (method =? "batchRegisterIdentity")%string then
        from = nth_error (accounts h) 2
      else from = nth_error (accounts h) 0
  | _ => True
  end.

(** Whom the full-suite script registers and what it mints. *)
Definition fullSuiteParameter (h : host) (e : event) : Prop :=
  match e with
  | Deploy art arguments _ _ =>
      if (art =? "OnchainID.IdentityProxy")%string then
        exists authority key,
          arguments = [VString authority; VString key]
          /\ (signerAt h 1 = Some key \/ signerAt h 5 = Some key
              \/ signerAt h 6 = Some key \/ signerAt h 7 = Some key)
      else True
  | Send art _ method arguments _ _ =>
      if (art =? "IdentityRegistry")%string
         && (method =? "batchRegisterIdentity")%string then
        exists alice bob aliceIdentity bobIdentity,
          signerAt h 5 = Some alice /\ signerAt h 6 = Some bob
          /\ arguments = [VArray [VString alice; VString bob];
                          VArray [VString aliceIdentity; VString bobIdentity];
                          VArray [VNumber 42; VNumber 666]]
      else if (art =? "Token")%string && (method =? "mint")%string then
        exists holder amount,
          arguments = [VString holder; VNumber amount]
          /\ ((signerAt h 5 = Some holder
               /\ Ethers.bigNumberFrom (JS.nullish (env h "TREX_MINT_ALICE") "1000")
                  = Some amount)
              \/ (signerAt h 6 = Some holder
                  /\ Ethers.bigNumberFrom (JS.nullish (env h "TREX_MINT_BOB") "500")
                     = Some amount))
      else True
  | _ => True
  end.

Definition undefinedAddress : string :=
  "TypeError: Cannot read properties of undefined (reading 'address')".

(** No call of [method] on a contract of kind [art] has gone through. *)
Definition notYet (art method : string) (e : event) : Prop :=
  completed art method e = false.

(** A run of the full-suite script returns only with ten signers, and once
    the token is unpaused it can only fail on a missing signer. *)
Definition fullSuiteEnd (h : host) (o : outcome unit) (tr : trace) : Prop :=
  (isReturned o = true -> (10 <= List.length (accounts h))%nat)
  /\ (existsb (completed "Token" "unpause") tr = true ->
      o = Returned tt \/ o = Thrown undefinedAddress).

(** Every effect of [rest] that [target] selects comes after effects that
    make [ready] true; [before] is what precedes [rest]. *)
Fixpoint eachAfter (target : label -> bool) (ready : list label -> bool)
    (before rest : list label) : bool :=
  match rest with
  | [] => true
  | l :: after =>
      (if target l then ready before else true)
      && eachAfter target ready (before ++ [l])%list after
  end.

Definition isMintL (l : label) : bool :=
  match l with
  | LSend art method _ => (art =? "Token")%string && (method =? "mint")%string
  | _ => false
  end.

(** What has gone through before a mint: the wiring of the suite, the
    registration of the holders and their two claims; and no unpause has
    been submitted. *)
Definition readyToMintL (ls : list label) : bool :=
  wiringCompletedL ls
  && (1 <=? countCompletedL "IdentityRegistry" "batchRegisterIdentity" ls)%nat
  && (2 <=? countCompletedL "Identity" "addClaim" ls)%nat
  && negb (existsb isUnpauseL ls).

(** A call of the token's [mint], whatever its result. *)
Definition isMint (e : event) : bool :=
  match e with
  | Send art _ method _ _ _ => (art =? "Token")%string && (method =? "mint")%string
  | _ => false
  end.

(** ** scripts/deployTREXSuiteInfrastructure.ts, the second copy in the
    file: the roles are the signers 1 to 4, taken by position, and the
    signing key of the claim issuer is always generated *)

Module DeployTREXSuiteInfrastructure2.

Definition deployIdentityProxy (implementationAuthority managementKey : string)
    (signer : option signer) : M string :=
  identity <-
    deployContract "OnchainID.IdentityProxy"
      [VString implementationAuthority; VString managementKey] signer ;;
  deployed identity ;;
  ret identity.

Definition deployTREXSuiteInfrastructure : M DeploymentResult :=
  signers <- getSigners ;;
  let deployer := nth_error signers 0 in
  let tokenIssuer := nth_error signers 1 in
  let tokenAgent := nth_error signers 2 in
  let tokenAdmin := nth_error signers 3 in
  let claimIssuer := nth_error signers 4 in
  claimIssuerSigningKey <- createRandom ;;
  claimTopicsRegistryImplementation <- deployContract "ClaimTopicsRegistry" [] deployer ;;
  trustedIssuersRegistryImplementation <- deployContract "TrustedIssuersRegistry" [] deployer ;;
  identityRegistryStorageImplementation <- deployContract "IdentityRegistryStorage" [] deployer ;;
  identityRegistryImplementation <- deployContract "IdentityRegistry" [] deployer ;;
  modularComplianceImplementation <- deployContract "ModularCompliance" [] deployer ;;
  tokenImplementation <- deployContract "Token" [] deployer ;;
  ids <- deployIdentityImplementationAuthority deployer ;;
  let '(identityImplementation, identityImplementationAuthority, identityFactory) := ids in
  trexImplementationAuthority <-
    deployTREXImplementationAuthority deployer
      tokenImplementation claimTopicsRegistryImplementation
      identityRegistryImplementation identityRegistryStorageImplementation
      trustedIssuersRegistryImplementation modularComplianceImplementation ;;
  trexFactory <-
    deployContract "TREXFactory"
      [VString trexImplementationAuthority; VString identityFactory] deployer ;;
  send "OnchainID.Factory" identityFactory "addTokenFactory" [VString trexFactory] deployer ;;
  claimTopicsRegistry <-
    deployContract "ClaimTopicsRegistryProxy" [VString trexImplementationAuthority] deployer ;;
  trustedIssuersRegistry <-
    deployContract "TrustedIssuersRegistryProxy" [VString trexImplementationAuthority] deployer ;;
  identityRegistryStorage <-
    deployContract "IdentityRegistryStorageProxy" [VString trexImplementationAuthority] deployer ;;
  defaultCompliance <- deployContract "DefaultCompliance" [] deployer ;;
  identityRegistry <-
    deployContract "IdentityRegistryProxy"
      [VString trexImplementationAuthority; VString trustedIssuersRegistry;
       VString claimTopicsRegistry; VString identityRegistryStorage] deployer ;;
  tokenIssuerAddress <- lift (addressOf tokenIssuer) ;;
  tokenOID <-
    deployIdentityProxy identityImplementationAuthority tokenIssuerAddress deployer ;;
  envName <- getenv "TREX_TOKEN_NAME" ;;
  let tokenName := JS.nullish envName "TREXDINO" in
  envSymbol <- getenv "TREX_TOKEN_SYMBOL" ;;
  let tokenSymbol := JS.nullish envSymbol "TREX" in
  envDecimals <- getenv "TREX_TOKEN_DECIMALS" ;;
  tokenDecimals <- bigNumberOfEnv envDecimals "0" ;;
  token <-
    deployContract "TokenProxy"
      [VString trexImplementationAuthority; VString identityRegistry;
       VString defaultCompliance; VString tokenName; VString tokenSymbol;
       VNumber tokenDecimals; VString tokenOID] deployer ;;
  agentManager <- deployContract "AgentManager" [VString token] tokenAgent ;;
  send "IdentityRegistryStorage" identityRegistryStorage "bindIdentityRegistry"
    [VString identityRegistry] deployer ;;
  tokenAgentAddress <- lift (addressOf tokenAgent) ;;
  send "Token" token "addAgent" [VString tokenAgentAddress] deployer ;;
  send "IdentityRegistry" identityRegistry "addAgent" [VString tokenAgentAddress] deployer ;;
  send "IdentityRegistry" identityRegistry "addAgent" [VString token] deployer ;;
  let claimTopics := [Ethers.id "CLAIM_TOPIC"] in
  send "ClaimTopicsRegistry" claimTopicsRegistry "addClaimTopic"
    [VString (Ethers.id "CLAIM_TOPIC")] deployer ;;
  claimIssuerAddress <- lift (addressOf claimIssuer) ;;
  claimIssuerContract <-
    deployContract "ClaimIssuer" [VString claimIssuerAddress] claimIssuer ;;
  signingKeyHash <- keyHash (signerAddress claimIssuerSigningKey) ;;
  send "ClaimIssuer" claimIssuerContract "addKey"
    [VString signingKeyHash; VNumber 3; VNumber 1] claimIssuer ;;
  send "TrustedIssuersRegistry" trustedIssuersRegistry "addTrustedIssuer"
    [VString claimIssuerContract; VArray (map VString claimTopics)] deployer ;;
  tokenAdminAddress <- lift (addressOf tokenAdmin) ;;
  send "AgentManager" agentManager "addAgentAdmin" [VString tokenAdminAddress]
    tokenAgent ;;
  send "Token" token "addAgent" [VString agentManager] deployer ;;
  send "IdentityRegistry" identityRegistry "addAgent" [VString agentManager] deployer ;;
  (* NOTE: Token remains paused. Unpause it via the tokenAgent when ready to go live. *)
  deployerAddress <- lift (addressOf deployer) ;;
  ret {|
    accountsTable :=
      [("deployer", deployerAddress); ("tokenIssuer", tokenIssuerAddress);
       ("tokenAgent", tokenAgentAddress); ("tokenAdmin", tokenAdminAddress);
       ("claimIssuer", claimIssuerAddress);
       ("claimIssuerSigningKey", signerAddress claimIssuerSigningKey)];
    identitiesTable := [];
    suiteTable :=
      [("claimIssuerContract", claimIssuerContract);
       ("claimTopicsRegistry", claimTopicsRegistry);
       ("trustedIssuersRegistry", trustedIssuersRegistry);
       ("identityRegistryStorage", identityRegistryStorage);
       ("defaultCompliance", defaultCompliance);
       ("identityRegistry", identityRegistry);
       ("tokenOID", tokenOID);
       ("token", token);
       ("agentManager", agentManager)];
    authoritiesTable :=
      [("trexImplementationAuthority", trexImplementationAuthority);
       ("identityImplementationAuthority", identityImplementationAuthority)];
    factoriesTable :=
      [("trexFactory", trexFactory); ("identityFactory", identityFactory)]
  |}.

Definition logDeployment (result : DeploymentResult) : M unit :=
  consoleLog "
--- Accounts ---" ;;
  consoleTable (accountsTable result) ;;
  consoleLog "
--- Core Suite ---" ;;
  consoleTable (suiteTable result) ;;
  consoleLog "
--- Authorities ---" ;;
  consoleTable (authoritiesTable result) ;;
  consoleLog "
--- Factories ---" ;;
  consoleTable (factoriesTable result).

Definition main : M unit :=
  consoleLog "Starting full TREX suite deployment..." ;;
  result <- deployTREXSuiteInfrastructure ;;
  consoleLog "TREX suite deployed successfully!" ;;
  logDeployment result.

End DeployTREXSuiteInfrastructure2.

(** *** Statements about the two copies of the infrastructure script *)

(** How a run of the second copy ends (the counts do not depend on the
    order of the trace). *)
Definition infrastructure2Outcome (h : host) (o : outcome unit) (tr : trace) : Prop :=
  existsb isUnpause tr = false
  /\ (isReturned o = true ->
      (5 <= List.length (accounts h))%nat
      /\ wiringCompleted tr = true
      /\ countCompleted "Token" "addAgent" tr = 2%nat
      /\ countCompleted "IdentityRegistry" "addAgent" tr = 3%nat
      /\ countCompleted "AgentManager" "addAgentAdmin" tr = 1%nat
      /\ countCompleted "ClaimIssuer" "addKey" tr = 1%nat
      /\ List.length (filter isTable tr) = 4%nat).

(** Who signs what in the second copy, by position. *)
Definition infrastructure2Event (h : host) (e : event) : Prop :=
  match e with
  | Deploy art arguments from _ =>
      if (art =? "AgentManager")%string then from = nth_error (accounts h) 2
      else if (art =? "ClaimIssuer")%string then
        from = nth_error (accounts h) 4
        /\ exists a, signerAt h 4 = Some a /\ arguments = [VString a]
      else if (art =? "OnchainID.IdentityProxy")%string then
        from = nth_error (accounts h) 0
        /\ exists authority a,
            signerAt h 1 = Some a
            /\ arguments = [VString authority; VString a]
      else from = nth_error (accounts h) 0
  | Send art _ method arguments from _ =>
      if (art =? "ClaimIssuer")%string then
        from = nth_error (accounts h) 4 /\ method = "addKey"
        /\ exists n key wallet encoded,
            randomWallet h n = (key, wallet)
            /\ Ethers.encodeAddress wallet = Some encoded
            /\ arguments = [VString (Ethers.hexlify (Ethers.keccak256 encoded));
                            VNumber 3; VNumber 1]
      else if (art =? "AgentManager")%string then
        from = nth_error (accounts h) 2 /\ method = "addAgentAdmin"
        /\ exists a, signerAt h 3 = Some a /\ arguments = [VString a]
      else from = nth_error (accounts h) 0
  | _ => True
  end.

(** ** scripts/checkVerification.ts: is a wallet verified?

    The script only reads: it prints to the two console streams, asks the
    registry one question and ends the process with an exit code. *)

Module CheckVerification.

Inductive output : Type :=
| Log (line : string)
| Error (line : string).

(** How [main()] ends: its promise resolves, or rejects with an error, or
    the script has ended the process itself. *)
Inductive ending : Type :=
| Resolved
| Rejected (message : string)
| Exited (code : Z).

(** A question to the registry: the contract, the user asked about, the
    wallet the contract is connected to. *)
Record question : Type := mkQuestion {
  registry : string;
  user : string;
  agent : signer
}.

Record report : Type := mkReport {
  printed : list output;
  asked : list question;
  ended : ending
}.

Definition identityRegistryAddress : string :=
  "0x51991f45EA1475C4C0eD37a9f615041a3b0bCc6C".

(** A boolean in a template literal. *)
Definition boolText (b : bool) : string := if b then "true" else "false".

(** [main()]; [isVerified] is the answer of the registry. *)
Definition main (h : host) (isVerified : question -> outcome bool) : report :=
  let userWalletAddress := JS.nullish (env h "USER_WALLET") "" in
  let agentPrivateKey := JS.nullish (env h "PRIVATE_KEY") "" in
  if negb (JS.truthy userWalletAddress) || negb (JS.truthy agentPrivateKey) then
    mkReport [] [] (Rejected "Missing USER_WALLET or PRIVATE_KEY in environment.")
  else
    match computeAddress h agentPrivateKey with
    | None => mkReport [] [] (Rejected "invalid private key")
    | Some address =>
        let agentWallet := Wallet agentPrivateKey address in
        let q := mkQuestion identityRegistryAddress userWalletAddress agentWallet in
        let start :=
          [Log ("Checking verification status for: " ++ userWalletAddress);
           Log ("Using Identity Registry: " ++ identityRegistryAddress);
           Log "
Querying isVerified()..."] in
        match isVerified q with
        | Returned verified =>
            mkReport
              (start
               ++ [Log ("
✅ Verification check returned: " ++ boolText verified);
                   if verified
                   then Log "Identity is verified. Minting should now succeed."
                   else Error "❌ Identity is NOT verified. This confirms the root cause of the minting failure. The issue lies within the on-chain compliance logic, likely a misconfigured Claim Issuer."])%list
              [q] Resolved
        | Thrown message =>
            mkReport
              (start
               ++ [Error ("❌ The isVerified() call failed with an error: " ++ message);
                   Error "This indicates a problem within the IdentityRegistry's verification logic itself."])%list
              [q] (Exited 1)
        end
    end.

(** [main().then(() => process.exit(0)).catch((error) => {
    console.error(error); process.exit(1); })]: what is printed, what is
    asked, and the exit code. *)
Definition program (h : host) (isVerified : question -> outcome bool)
    : list output * list question * Z :=
  let r := main h isVerified in
  match ended r with
  | Resolved => (printed r, asked r, 0%Z)
  | Rejected message => ((printed r ++ [Error message])%list, asked r, 1%Z)
  | Exited code => (printed r, asked r, code)
  end.

Definition exitCode (h : host) (isVerified : question -> outcome bool) : Z :=
  snd (program h isVerified).

Definition questions (h : host) (isVerified : question -> outcome bool)
    : list question :=
  snd (fst (program h isVerified)).

Definition lines (h : host) (isVerified : question -> outcome bool) : list output :=
  fst (fst (program h isVerified)).

Definition isError (o : output) : bool :=
  match o with Error _ => true | Log _ => false end.

End CheckVerification.

(** *** The addresses the suite scripts pass on *)

(** [address] is what a deployment of a contract of kind [art] returned, in
    the effects [tr]. *)
Definition deployedAs (tr : trace) (art address : string) : Prop :=
  exists arguments from, In (Deploy art arguments from (Returned address)) tr.

(** Every effect of a trace (the latest first) has the property [P] of the
    effect and of what came before it. *)
Fixpoint linked (P : event -> trace -> Prop) (tr : trace) : Prop :=
  match tr with
  | [] => True
  | e :: before => P e before /\ linked P before
  end.
(** *** The wiring of a suite and the addresses it is made of *)

(** A call of [method] with [arguments] on the contract of kind [art] at
    [address] was submitted in [tr] and went through: the awaited call
    returned its transaction. *)
Definition sent (tr : trace) (art address method : string)
    (arguments : list value) : Prop :=
  exists from tx, In (Send art address method arguments from (Returned tx)) tr.

(** The wait for a transaction, [tx.wait()], whatever its result. *)
Definition isWait (e : event) : bool :=
  match e with
  | Wait _ _ => true
  | _ => false
  end.

(** A call of [method] on a contract of kind [art] was submitted in [tr]
    and its transaction was waited for, with a receipt. *)
Definition confirmed (tr : trace) (art method : string) : Prop :=
  exists address arguments from tx rc,
    In (Send art address method arguments from (Returned tx)) tr
    /\ In (Wait tx (Returned rc)) tr.

(** The wiring of a suite, in the effects [tr].  The six contracts are
    those the run deployed: the identity registry on the trusted issuers
    registry, the claim topics registry and the storage, the token on the
    identity registry, the agent manager on the token.  The storage is
    bound to the identity registry; the agent role is granted on the token
    to [agent] and to the agent manager, on the identity registry to
    [agent], to the token and to the agent manager; the claim topic is
    registered, and the claim issuer contract is trusted for it. *)
Definition wired (storage registry token topics issuers issuer manager agent : string)
    (tr : trace) : Prop :=
  deployedAs tr "IdentityRegistryStorageProxy" storage
  /\ deployedAs tr "ClaimTopicsRegistryProxy" topics
  /\ deployedAs tr "TrustedIssuersRegistryProxy" issuers
  /\ deployedAs tr "ClaimIssuer" issuer
  /\ (exists authority from,
         In (Deploy "IdentityRegistryProxy"
               [VString authority; VString issuers; VString topics; VString storage]
               from (Returned registry)) tr)
  /\ (exists authority compliance name symbol decimals identity from,
         In (Deploy "TokenProxy"
               [VString authority; VString registry; VString compliance;
                name; symbol; decimals; VString identity]
               from (Returned token)) tr)
  /\ (exists from, In (Deploy "AgentManager" [VString token] from (Returned manager)) tr)
  /\ sent tr "IdentityRegistryStorage" storage "bindIdentityRegistry" [VString registry]
  /\ sent tr "Token" token "addAgent" [VString agent]
  /\ sent tr "Token" token "addAgent" [VString manager]
  /\ sent tr "IdentityRegistry" registry "addAgent" [VString agent]
  /\ sent tr "IdentityRegistry" registry "addAgent" [VString token]
  /\ sent tr "IdentityRegistry" registry "addAgent" [VString manager]
  /\ sent tr "ClaimTopicsRegistry" topics "addClaimTopic"
       [VString (Ethers.id "CLAIM_TOPIC")]
  /\ sent tr "TrustedIssuersRegistry" issuers "addTrustedIssuer"
       [VString issuer; VArray [VString (Ethers.id "CLAIM_TOPIC")]].


(** The identity a call is made on was deployed for the one who signs the
    call: its management key is the signer's address. *)
Definition ownIdentity (before : trace) (e : event) : Prop :=
  match e with
  | Send art address _ _ from _ =>
      if (art =? "Identity")%string then
        exists authority owner deployer,
          In (Deploy "OnchainID.IdentityProxy" [VString authority; VString owner]
                deployer (Returned address)) before
          /\ option_map signerAddress from = Some owner
      else True
  | _ => True
  end.

(** The address of the token agent of the infrastructure script: that of
    the signer the role resolves to. *)
Definition infrastructureAgent (h : host) : option string :=
  match accounts h with
  | deployer :: _ =>
      option_map signerAddress
        (roleSigner h DeployTREXSuiteInfrastructure.tokenAgent
           (nth_error (accounts h) 2) deployer)
  | [] => None
  end.

(** What a run of the infrastructure script that returns has done, for
    the roles [r]: the suite is wired for the token agent, the token admin
    is the agent admin of the agent manager, and a signing key is
    registered on the claim issuer contract. *)
Definition infrastructureWired (r : Roles) (tr : trace) : Prop :=
  exists storage registry token topics issuers issuer manager,
    wired storage registry token topics issuers issuer manager
      (signerAddress (tokenAgentOf r)) tr
    /\ sent tr "AgentManager" manager "addAgentAdmin"
         [VString (signerAddress (tokenAdminOf r))]
    /\ exists keyHash,
        sent tr "ClaimIssuer" issuer "addKey" [VString keyHash; VNumber 3; VNumber 1].
(** The addresses of a deployment or a call are those of the contracts the
    script deployed for that purpose, in the effects [before]; [agent] is
    the address of the token agent (when there is one), the one account
    the agent role is granted to.  The identities registered are those
    deployed for the wallets they are registered for.  The calls that are
    not listed with their arguments pass no address of a contract on
    ([addClaimTopic], [addKey], [addAgentAdmin], [mint], [unpause]). *)
Definition plumbed (agent : option string) (before : trace) (e : event) : Prop :=
  let known := deployedAs before in
  match e with
  | Deploy art arguments _ _ =>
      if (art =? "OnchainID.ImplementationAuthority")%string then
        exists implementation,
          arguments = [VString implementation]
          /\ known "OnchainID.Identity" implementation
      else if (art =? "OnchainID.Factory")%string then
        exists authority,
          arguments = [VString authority]
          /\ known "OnchainID.ImplementationAuthority" authority
      else if (art =? "TREXFactory")%string then
        exists authority factory,
          arguments = [VString authority; VString factory]
          /\ known "TREXImplementationAuthority" authority
          /\ known "OnchainID.Factory" factory
      else if (art =? "ClaimTopicsRegistryProxy")%string
              || (art =? "TrustedIssuersRegistryProxy")%string
              || (art =? "IdentityRegistryStorageProxy")%string then
        exists authority,
          arguments = [VString authority]
          /\ known "TREXImplementationAuthority" authority
      else if (art =? "IdentityRegistryProxy")%string then
        exists authority issuers topics storage,
          arguments = [VString authority; VString issuers; VString topics;
                       VString storage]
          /\ known "TREXImplementationAuthority" authority
          /\ known "TrustedIssuersRegistryProxy" issuers
          /\ known "ClaimTopicsRegistryProxy" topics
          /\ known "IdentityRegistryStorageProxy" storage
      else if (art =? "OnchainID.IdentityProxy")%string
              || (art =? "IdentityProxy")%string then
        exists authority key,
          arguments = [VString authority; VString key]
          /\ known "OnchainID.ImplementationAuthority" authority
      else if (art =? "TokenProxy")%string then
        exists authority registry compliance name symbol decimals identity,
          arguments = [VString authority; VString registry; VString compliance;
                       name; symbol; decimals; VString identity]
          /\ known "TREXImplementationAuthority" authority
          /\ known "IdentityRegistryProxy" registry
          /\ known "DefaultCompliance" compliance
          /\ (known "OnchainID.IdentityProxy" identity
              \/ known "IdentityProxy" identity)
      else if (art =? "AgentManager")%string then
        exists token, arguments = [VString token] /\ known "TokenProxy" token
      else True
  | Send art address method arguments _ _ =>
      if (art =? "TREXImplementationAuthority")%string then
        known "TREXImplementationAuthority" address
        /\ method = "addAndUseTREXVersion"
        /\ exists token ctr ir irs tir mc,
            arguments =
            [VObject [("major", VNumber 4); ("minor", VNumber 0);
                      ("patch", VNumber 0)];
             VObject [("tokenImplementation", VString token);
                      ("ctrImplementation", VString ctr);
                      ("irImplementation", VString ir);
                      ("irsImplementation", VString irs);
                      ("tirImplementation", VString tir);
                      ("mcImplementation", VString mc)]]
            /\ known "Token" token /\ known "ClaimTopicsRegistry" ctr
            /\ known "IdentityRegistry" ir /\ known "IdentityRegistryStorage" irs
            /\ known "TrustedIssuersRegistry" tir /\ known "ModularCompliance" mc
      else if (art =? "OnchainID.Factory")%string then
        known "OnchainID.Factory" address
        /\ method = "addTokenFactory"
        /\ exists factory,
            arguments = [VString factory] /\ known "TREXFactory" factory
      else if (art =? "IdentityRegistryStorage")%string then
        known "IdentityRegistryStorageProxy" address
        /\ method = "bindIdentityRegistry"
        /\ exists registry,
            arguments = [VString registry] /\ known "IdentityRegistryProxy" registry
      else if (art =? "Token")%string then
        known "TokenProxy" address
        /\ if (method =? "addAgent")%string then
             exists grantee,
               arguments = [VString grantee]
               /\ (Some grantee = agent \/ known "AgentManager" grantee)
           else method = "mint" \/ method = "unpause"
      else if (art =? "IdentityRegistry")%string then
        known "IdentityRegistryProxy" address
        /\ if (method =? "addAgent")%string then
             exists grantee,
               arguments = [VString grantee]
               /\ (Some grantee = agent \/ known "TokenProxy" grantee
                   \/ known "AgentManager" grantee)
           else
             method = "batchRegisterIdentity"
             /\ exists holder holder' identity identity' countries,
                 arguments = [VArray [VString holder; VString holder'];
                              VArray [VString identity; VString identity'];
                              countries]
                 /\ (exists authority from,
                        In (Deploy "OnchainID.IdentityProxy"
                              [VString authority; VString holder] from
                              (Returned identity)) before)
                 /\ (exists authority from,
                        In (Deploy "OnchainID.IdentityProxy"
                              [VString authority; VString holder'] from
                              (Returned identity')) before)
      else if (art =? "ClaimTopicsRegistry")%string then
        known "ClaimTopicsRegistryProxy" address /\ method = "addClaimTopic"
      else if (art =? "TrustedIssuersRegistry")%string then
        known "TrustedIssuersRegistryProxy" address
        /\ method = "addTrustedIssuer"
        /\ exists issuer topics,
            arguments = [VString issuer; topics] /\ known "ClaimIssuer" issuer
      else if (art =? "ClaimIssuer")%string then
        known "ClaimIssuer" address /\ method = "addKey"
      else if (art =? "AgentManager")%string then
        known "AgentManager" address /\ method = "addAgentAdmin"
      else if (art =? "Identity")%string then
        known "OnchainID.IdentityProxy" address
        /\ if (method =? "addClaim")%string then
             exists topic scheme issuer sig data uri,
               arguments = [topic; scheme; VString issuer; sig; data; uri]
               /\ known "ClaimIssuer" issuer
           else method = "addKey"
      else False
  | Deployed address _ =>
      exists art, known art address
  | _ => True
  end.

(** *** Statements about claims *)




(** * Properties *)

(** ** Sanity checks of the built-ins *)

Example trim_example : JS.trim "  villa A4 " = "villa A4".
Proof. reflexivity. Qed.

Example decimal_example : JS.decimalZ 1088 = "1088" /\ JS.decimalZ 0 = "0".
Proof. split; reflexivity. Qed.

Example upper_example : JS.toUpperCase "tokenIssuer" = "TOKENISSUER".
Proof. reflexivity. Qed.

Example keccak256_empty :
  Ethers.hexOfBytes (Ethers.keccak256 []) =
  "c5d2460186f7233c927e7db2dcc703c0e500b653ca82273b7bfad8045d85a470".
Proof. vm_compute. reflexivity. Qed.

Example keccak256_abc :
  Ethers.hexOfBytes (Ethers.keccak256 (Ethers.toUtf8Bytes "abc")) =
  "4e03657aea45a94fc7d47ba826c8d667c0d1e6e33a64a036ec44f58fa12d6c45".
Proof. vm_compute. reflexivity. Qed.

Example getAddress_lower :
  Ethers.getAddress "0x5aaeb6053f3e94c9b9a09f33669435e7ef1beaed"
  = Some "0x5aAeb6053F3E94C9b9A09f33669435E7Ef1BeAed".
Proof. vm_compute. reflexivity. Qed.

Example getAddress_mixed_case :
  Ethers.getAddress "0xfB6916095ca1df60bB79Ce92cE3Ea74c37c5d359"
  = Some "0xfB6916095ca1df60bB79Ce92cE3Ea74c37c5d359".
Proof. vm_compute. reflexivity. Qed.

Example getAddress_bad_checksum :
  Ethers.getAddress "0xfb6916095ca1df60bB79Ce92cE3Ea74c37c5d359" = None.
Proof. vm_compute. reflexivity. Qed.

Example getAddress_no_prefix :
  Ethers.getAddress "8ba1f109551bd432803012645ac136ddd64dba72"
  = Some "0x8ba1f109551bD432803012645Ac136ddd64DBA72".
Proof. vm_compute. reflexivity. Qed.

Example getAddress_icap :
  Ethers.getAddress "XE65GB6LDNXYOFTX0NSV3FUWKOWIXAMJK36"
  = Some "0x8ba1f109551bD432803012645Ac136ddd64DBA72".
Proof. vm_compute. reflexivity. Qed.

Example getAddress_ill_formed :
  Ethers.getAddress "0x1234" = None /\ Ethers.getAddress "" = None.
Proof. vm_compute. split; reflexivity. Qed.

Example getAddress_zero : Ethers.getAddress Ethers.AddressZero = Some Ethers.AddressZero.
Proof. vm_compute. reflexivity. Qed.

Example bigNumberFrom_examples :
  Ethers.bigNumberFrom "19" = Some 19%Z /\ Ethers.bigNumberFrom "0x10" = Some 16%Z
  /\ Ethers.bigNumberFrom "-1" = Some (-1)%Z /\ Ethers.bigNumberFrom "1.5" = None
  /\ Ethers.bigNumberFrom "" = None.
Proof. vm_compute. repeat split; reflexivity. Qed.

Example messagePrefix_length : String.length Ethers.messagePrefix = 26%nat.
Proof. reflexivity. Qed.

Example encodeClaim_length :
  option_map (@List.length byte)
    (Ethers.encodeClaim "0x5aaeb6053f3e94c9b9a09f33669435e7ef1beaed"
       (Ethers.id "CLAIM_TOPIC")
       (Ethers.hexlify (Ethers.toUtf8Bytes "Some claim public data.")))
  = Some 160%nat.
Proof. vm_compute. reflexivity. Qed.

(** ** Trimming *)

Section Trim.

Import JS.

Lemma trimStart_split (s : string) :
  exists l, s = l ++ trimStart s /\ allWhiteSpace l = true.
Proof.
  induction s as [|c r IH]; simpl.
  - exists EmptyString. split; reflexivity.
  - destruct (isWhiteSpace c) eqn:Hc.
    + destruct IH as (l & Hl & Hw). exists (String c l). simpl.
      rewrite Hc, Hw. split; [congruence | reflexivity].
    + exists EmptyString. split; reflexivity.
Qed.

Lemma trimStart_clean (s : string) : startsClean (trimStart s).
Proof.
  induction s as [|c r IH]; simpl.
  - exact I.
  - destruct (isWhiteSpace c) eqn:Hc; [exact IH | unfold startsClean; simpl; exact Hc].
Qed.

Lemma trimEnd_split (s : string) :
  exists r, s = trimEnd s ++ r /\ allWhiteSpace r = true.
Proof.
  induction s as [|c t IH]; simpl.
  - exists EmptyString. split; reflexivity.
  - destruct IH as (r & Hr & Hw).
    destruct (trimEnd t) as [|d t'] eqn:Ht.
    + destruct (isWhiteSpace c) eqn:Hc.
      * exists (String c r). simpl in *. rewrite Hc, Hw. split; [congruence | reflexivity].
      * exists r. simpl in *. split; [congruence | assumption].
    + exists r. simpl in *. split; [congruence | assumption].
Qed.

Lemma trimEnd_clean (s : string) : endsClean (trimEnd s).
Proof.
  induction s as [|c t IH]; simpl.
  - exact I.
  - destruct (trimEnd t) as [|d t'] eqn:Ht.
    + destruct (isWhiteSpace c) eqn:Hc; unfold endsClean; simpl; auto.
    + unfold endsClean in *. simpl in *. exact IH.
Qed.

Lemma trimEnd_first (s : string) :
  trimEnd s <> EmptyString -> firstChar (trimEnd s) = firstChar s.
Proof.
  destruct s as [|c t]; simpl; [reflexivity|].
  destruct (trimEnd t); [destruct (isWhiteSpace c)|]; simpl; congruence.
Qed.

Lemma trim_clean (s : string) : startsClean (trim s) /\ endsClean (trim s).
Proof.
  unfold trim. split; [|apply trimEnd_clean].
  destruct (trimEnd (trimStart s)) eqn:E.
  - exact I.
  - rewrite <- E. unfold startsClean. rewrite trimEnd_first by congruence.
    apply trimStart_clean.
Qed.

Lemma append_assoc (a b c : string) : (a ++ b) ++ c = a ++ (b ++ c).
Proof. induction a; simpl; congruence. Qed.

(** [trim] removes a prefix and a suffix of white space, and nothing else. *)
Lemma trim_split (s : string) :
  exists l r, s = l ++ trim s ++ r
              /\ allWhiteSpace l = true /\ allWhiteSpace r = true.
Proof.
  destruct (trimStart_split s) as (l & Hl & Hwl).
  destruct (trimEnd_split (trimStart s)) as (r & Hr & Hwr).
  exists l, r. unfold trim. repeat split; try assumption.
  rewrite <- Hr. exact Hl.
Qed.

Lemma truthy_false (s : string) : truthy s = false <-> s = EmptyString.
Proof. destruct s; simpl; split; congruence. Qed.

End Trim.

(** ** Addresses *)

Section Addresses.

Import Ethers.

Ltac by_cases_on c :=
  destruct c as [[] [] [] [] [] [] [] []]; vm_compute; intuition congruence.

Lemma lowerChar_hex (c : ascii) :
  isHexChar c = true -> lowerHexChar (JS.lowerChar c) = true.
Proof. by_cases_on c. Qed.

Lemma lowerHexChar_fixed (c : ascii) :
  lowerHexChar c = true ->
  JS.lowerChar c = c /\ JS.lowerChar (JS.upperChar c) = c
  /\ isHexChar c = true /\ isHexChar (JS.upperChar c) = true.
Proof. by_cases_on c. Qed.

Lemma zero_char_only (c : ascii) :
  isHexChar c = true ->
  JS.lowerChar c = "0"%char \/ JS.upperChar (JS.lowerChar c) = "0"%char ->
  c = "0"%char.
Proof. by_cases_on c. Qed.

Lemma toLowerCase_hex (s : string) :
  allHex s = true -> forallChar lowerHexChar (JS.toLowerCase s) = true.
Proof.
  unfold JS.toLowerCase.
  induction s as [|c r IH]; simpl; [reflexivity|].
  intros H. apply andb_true_iff in H. destruct H as [Hc Hr].
  rewrite lowerChar_hex, IH by assumption. reflexivity.
Qed.

Lemma toLowerCase_length (s : string) :
  String.length (JS.toLowerCase s) = String.length s.
Proof. unfold JS.toLowerCase. induction s; simpl; congruence. Qed.

Lemma checksumCase_length (hashed : list N) (chars : string) :
  String.length (checksumCase hashed chars) = String.length chars.
Proof.
  revert hashed. induction chars as [|c r IH]; intros [|h t]; simpl; auto.
Qed.

Lemma forallChar_lowerHex_allHex (s : string) :
  forallChar lowerHexChar s = true -> allHex s = true.
Proof.
  induction s as [|c r IH]; simpl; [reflexivity|].
  intros H. apply andb_true_iff in H. destruct H as [Hc Hr].
  destruct (lowerHexChar_fixed c Hc) as (_ & _ & Hh & _).
  rewrite Hh, IH by assumption. reflexivity.
Qed.

Lemma checksumCase_hex (hashed : list N) (chars : string) :
  forallChar lowerHexChar chars = true -> allHex (checksumCase hashed chars) = true.
Proof.
  revert hashed. induction chars as [|c r IH]; intros [|h t]; simpl; auto.
  - intros H. apply andb_true_iff in H. destruct H as [Hc Hr].
    destruct (lowerHexChar_fixed c Hc) as (_ & _ & Hh & _).
    rewrite Hh. simpl. apply forallChar_lowerHex_allHex. exact Hr.
  - intros H. apply andb_true_iff in H. destruct H as [Hc Hr].
    destruct (lowerHexChar_fixed c Hc) as (_ & _ & Hh & Hu).
    rewrite IH by assumption.
    destruct (8 <=? h)%N; rewrite ?Hh, ?Hu; reflexivity.
Qed.

Lemma toLowerCase_fixed (s : string) :
  forallChar lowerHexChar s = true -> JS.toLowerCase s = s.
Proof.
  unfold JS.toLowerCase.
  induction s as [|c r IH]; simpl; [reflexivity|].
  intros H. apply andb_true_iff in H. destruct H as [Hc Hr].
  destruct (lowerHexChar_fixed c Hc) as (Hl & _).
  rewrite Hl, IH by assumption. reflexivity.
Qed.

Lemma checksumCase_lower (hashed : list N) (chars : string) :
  forallChar lowerHexChar chars = true ->
  JS.toLowerCase (checksumCase hashed chars) = chars.
Proof.
  revert hashed. induction chars as [|c r IH]; intros [|h t]; auto.
  - intros H. apply (toLowerCase_fixed (String c r)). exact H.
  - intros H. simpl in H. apply andb_true_iff in H. destruct H as [Hc Hr].
    destruct (lowerHexChar_fixed c Hc) as (Hl & Hlu & _).
    specialize (IH t Hr). unfold JS.toLowerCase in *. simpl.
    rewrite IH.
    destruct (8 <=? h)%N; rewrite ?Hl, ?Hlu; reflexivity.
Qed.

Lemma hexAddressDigits_inv (value digits : string) :
  hexAddressDigits value = Some digits ->
  value = "0x" ++ digits /\ allHex digits = true /\ String.length digits = 40%nat.
Proof.
  unfold hexAddressDigits.
  destruct value as [|a [|b r]]; try discriminate.
  - destruct a as [[] [] [] [] [] [] [] []]; discriminate.
  - destruct a as [[] [] [] [] [] [] [] []]; try discriminate.
    destruct b as [[] [] [] [] [] [] [] []]; try discriminate.
    destruct (allHex r) eqn:Hh; simpl; try discriminate.
    destruct (String.length r =? 40)%nat eqn:Hl; try discriminate.
    intros E. inversion E; subst. apply Nat.eqb_eq in Hl. auto.
Qed.

Lemma hexAddressDigits_intro (digits : string) :
  allHex digits = true -> String.length digits = 40%nat ->
  hexAddressDigits (String "0" (String "x" digits)) = Some digits.
Proof.
  intros Hh Hl. simpl. rewrite Hh, Hl. reflexivity.
Qed.

(** The shape of a checksummed address. *)
Lemma getChecksumAddress_shape (q a : string) :
  getChecksumAddress q = Some a ->
  exists digits, a = "0x" ++ digits /\ allHex digits = true
                 /\ String.length digits = 40%nat
                 /\ getChecksumAddress a = Some a.
Proof.
  unfold getChecksumAddress at 1.
  destruct (hexAddressDigits q) as [d|] eqn:Hq; [|discriminate].
  apply hexAddressDigits_inv in Hq. destruct Hq as (_ & Hh & Hl).
  intros E. inversion E as [Ea]. clear E.
  set (c := JS.toLowerCase d) in *.
  assert (Hc : forallChar lowerHexChar c = true) by (apply toLowerCase_hex; exact Hh).
  set (H := nibbles (keccak256 (toUtf8Bytes c))) in *.
  exists (checksumCase H c).
  assert (Hx : allHex (checksumCase H c) = true) by (apply checksumCase_hex; exact Hc).
  assert (Hn : String.length (checksumCase H c) = 40%nat).
  { rewrite checksumCase_length. unfold c. rewrite toLowerCase_length. exact Hl. }
  repeat split; try assumption.
  unfold getChecksumAddress.
  rewrite (hexAddressDigits_intro _ Hx Hn).
  rewrite (checksumCase_lower H c Hc). reflexivity.
Qed.

Lemma getAddress_inv (v a : string) :
  getAddress v = Some a -> exists q, getChecksumAddress q = Some a.
Proof.
  unfold getAddress.
  destruct (matchHexAddress v) as [p|].
  - destruct (getChecksumAddress p) as [r|] eqn:E; [|discriminate].
    destruct (mixedCase p && negb (r =? p)); [discriminate|].
    intros E'. inversion E'; subst. eauto.
  - destruct (matchIcap v); [|discriminate].
    destruct (negb _); [discriminate|]. eauto.
Qed.

(** The result of [getAddress] is "0x" and forty hexadecimal digits, and is
    its own checksummed form. *)
Lemma getAddress_checksummed (v a : string) :
  getAddress v = Some a ->
  (exists digits, a = "0x" ++ digits /\ allHex digits = true
                  /\ String.length digits = 40%nat)
  /\ getAddress a = Some a.
Proof.
  intros Hv. destruct (getAddress_inv _ _ Hv) as (q & Hq).
  destruct (getChecksumAddress_shape _ _ Hq) as (d & Ha & Hh & Hl & Hfix).
  split; [eauto|].
  unfold getAddress, matchHexAddress.
  assert (Hd : hexAddressDigits a = Some d)
    by (rewrite Ha; apply hexAddressDigits_intro; assumption).
  rewrite Hd, Hfix, String.eqb_refl, andb_false_r. reflexivity.
Qed.

Lemma checksumCase_zeros (r : string) :
  forall (hashed : list N) (n : nat),
    allHex r = true ->
    checksumCase hashed (JS.toLowerCase r) = zeros n -> r = zeros n.
Proof.
  unfold JS.toLowerCase.
  induction r as [|c r IH]; intros hashed n Hh E.
  - destruct hashed; exact E.
  - simpl in Hh. apply andb_true_iff in Hh. destruct Hh as [Hc Hr].
    destruct n as [|n]; [destruct hashed; discriminate|].
    destruct hashed as [|h t]; simpl in E; inversion E as [[Ec Er]].
    + simpl. f_equal.
      * apply (zero_char_only c Hc). left; exact Ec.
      * apply (IH [] n Hr).
        destruct (JS.mapString JS.lowerChar r); exact Er.
    + simpl. f_equal.
      * apply (zero_char_only c Hc).
        destruct (8 <=? h)%N; [right | left]; exact Ec.
      * apply (IH t n Hr Er).
Qed.

(** A "0x"-prefixed string normalises to the zero address only when it is
    the zero address. *)
Lemma getAddress_zero_prefixed (r : string) :
  getAddress (String "0" (String "x" r)) = Some AddressZero ->
  String "0" (String "x" r) = AddressZero.
Proof.
  unfold getAddress, matchHexAddress.
  destruct (hexAddressDigits (String "0" (String "x" r))) as [d|] eqn:Hd.
  - apply hexAddressDigits_inv in Hd. destruct Hd as (Hv & Hh & Hl).
    inversion Hv; subst d.
    unfold getChecksumAddress.
    rewrite (hexAddressDigits_intro _ Hh Hl).
    destruct (mixedCase _ && negb _); [discriminate|].
    intros E. inversion E as [Ez].
    change (String "0" (String "x" r) = String "0" (String "x" (zeros 40))).
    f_equal. f_equal.
    eapply checksumCase_zeros; [exact Hh | exact Ez].
  - simpl. discriminate.
Qed.

End Addresses.

(** ** A program logic for the script monad

    [wp h m tr Q]: run from the trace [tr] on the host [h], the script [m]
    ends in an outcome and a trace that satisfy [Q].  The rules below follow
    the structure of a script, one per construct. *)

Section ProgramLogic.

Context {A B : Type} (h : host).

Lemma wp_ret (a : A) tr (Q : outcome A -> trace -> Prop) :
  Q (Returned a) tr -> wp h (ret a) tr Q.
Proof. exact (fun H => H). Qed.

Lemma wp_throw (message : string) tr (Q : outcome A -> trace -> Prop) :
  Q (Thrown message) tr -> wp h (throw message) tr Q.
Proof. exact (fun H => H). Qed.

Lemma wp_lift (o : outcome A) tr (Q : outcome A -> trace -> Prop) :
  Q o tr -> wp h (lift o) tr Q.
Proof. exact (fun H => H). Qed.

Lemma wp_bind (m : M A) (k : A -> M B) tr (Q : outcome B -> trace -> Prop) :
  wp h m tr (fun o tr' =>
               match o with
               | Returned a => wp h (k a) tr' Q
               | Thrown e => Q (Thrown e) tr'
               end) ->
  wp h (bind m k) tr Q.
Proof.
  unfold wp, bind. destruct (m h tr) as [[a|e] tr']; simpl; auto.
Qed.

Lemma wp_tryCatch (m : M A) (handler : string -> M A) tr
    (Q : outcome A -> trace -> Prop) :
  wp h m tr (fun o tr' =>
               match o with
               | Returned a => Q (Returned a) tr'
               | Thrown e => wp h (handler e) tr' Q
               end) ->
  wp h (tryCatch m handler) tr Q.
Proof.
  unfold wp, tryCatch. destruct (m h tr) as [[a|e] tr']; simpl; auto.
Qed.

Lemma wp_perform (answer : host -> nat -> outcome A) (record : outcome A -> event)
    tr (Q : outcome A -> trace -> Prop) :
  (forall r, Q r (record r :: tr)) -> wp h (perform answer record) tr Q.
Proof. intros H. apply H. Qed.

End ProgramLogic.

Section ProgramLogicEffects.

Context (h : host).

Lemma wp_ask tr (Q : outcome host -> trace -> Prop) :
  Q (Returned h) tr -> wp h ask tr Q.
Proof. exact (fun H => H). Qed.

Lemma wp_getenv key tr (Q : outcome (option string) -> trace -> Prop) :
  Q (Returned (env h key)) tr -> wp h (getenv key) tr Q.
Proof. exact (fun H => H). Qed.

Lemma wp_emit e tr (Q : outcome unit -> trace -> Prop) :
  Q (Returned tt) (e :: tr) -> wp h (emit e) tr Q.
Proof. exact (fun H => H). Qed.

Lemma wp_getSigners tr (Q : outcome (list signer) -> trace -> Prop) :
  Q (Returned (accounts h)) (GetSigners (accounts h) :: tr) ->
  wp h getSigners tr Q.
Proof. exact (fun H => H). Qed.

Lemma wp_createRandom tr (Q : outcome signer -> trace -> Prop) :
  (forall key address,
      Q (Returned (Wallet key address)) (CreateRandom (Wallet key address) :: tr)) ->
  wp h createRandom tr Q.
Proof. intros H. apply H. Qed.

Lemma wp_newWallet key tr (Q : outcome signer -> trace -> Prop) :
  (forall a, computeAddress h key = Some a -> Q (Returned (Wallet key a)) tr) ->
  (computeAddress h key = None -> Q (Thrown "invalid private key") tr) ->
  wp h (newWallet key) tr Q.
Proof.
  intros H1 H2. unfold wp, newWallet.
  destruct (computeAddress h key); simpl; auto.
Qed.

Lemma wp_signMessage w message tr (Q : outcome string -> trace -> Prop) :
  Q (match w with
     | Wallet key _ =>
         Returned (Ethers.hexlify (signDigest h key (Ethers.hashMessage message)))
     | Account _ => Thrown "signMessage: not a wallet"
     end) tr ->
  wp h (signMessage w message) tr Q.
Proof. unfold wp, signMessage. destruct w; exact (fun H => H). Qed.

End ProgramLogicEffects.

Ltac app_head t :=
  lazymatch t with
  | ?f _ => app_head f
  | _ => t
  end.

(** One step of symbolic execution: the rule of the script's head
    construct, or a case split on what the head inspects. *)
(** Scripts with a summary of their own (none by default). *)
Ltac wp_summary m := fail.

Ltac wp_head m :=
  lazymatch m with
  | bind _ _ => apply wp_bind
  | ret _ => apply wp_ret
  | throw _ => apply wp_throw
  | lift _ => apply wp_lift
  | ask => apply wp_ask
  | getenv _ => apply wp_getenv
  | emit _ => apply wp_emit
  | perform _ _ => apply wp_perform; intros ?r
  | tryCatch _ _ => apply wp_tryCatch
  | getSigners => apply wp_getSigners
  | createRandom => apply wp_createRandom; intros ?key ?address
  | newWallet _ => apply wp_newWallet; [intros ?a ?Hkey | intros ?Hkey]
  | signMessage _ _ => apply wp_signMessage
  | consoleLog _ => unfold consoleLog
  | consoleWarn _ => unfold consoleWarn
  | consoleTable _ => unfold consoleTable
  | deployContract _ _ _ => unfold deployContract
  | deployed _ => unfold deployed
  | send _ _ _ _ _ => unfold send
  | wait _ => unfold wait
  | query _ _ _ _ => unfold query
  | getCode _ => unfold getCode
  | liftOption _ _ => unfold liftOption
  | bigNumberOfEnv _ _ => unfold bigNumberOfEnv
  | keyHash _ => unfold keyHash
  | claimDigest _ _ _ => unfold claimDigest
  | deployIdentityImplementationAuthority _ =>
      unfold deployIdentityImplementationAuthority
  | deployTREXImplementationAuthority _ _ _ _ _ _ _ =>
      unfold deployTREXImplementationAuthority
  | match ?x with _ => _ end => destruct x eqn:?
  | let _ := _ in _ => cbv zeta
  | _ => first [wp_summary m | let hd := app_head m in unfold hd]
  end.

Ltac wp_step :=
  lazymatch goal with
  | |- wp _ ?m _ _ => wp_head m
  | |- match ?o with _ => _ end =>
      tryif is_var o then destruct o else destruct o eqn:?
  | |- (fun _ => _) _ _ => cbv beta
  | |- (fun _ => _) _ => cbv beta
  end;
  cbv beta iota delta
    [DeployFullSuite.data DeployFullSuite.issuer DeployFullSuite.topic
     DeployFullSuite.scheme DeployFullSuite.identity DeployFullSuite.signature].


(** Membership in a trace that the execution has made explicit. *)
Ltac in_cases H :=
  cbn [List.app List.rev In] in H;
  repeat (destruct H as [H|H]; [try discriminate H|]);
  try contradiction H.

Ltac in_trace :=
  cbn [List.app List.rev In]; solve [repeat (first [left; reflexivity | right])].

Lemma eventless (o : outcome unit) (P : event -> Prop) (R : Prop) :
  (exists e, In e [] /\ P e) -> R.
Proof. intros (e & [] & _). Qed.

(** ** The single-property deployment: the duplicate check *)

Section DuplicateCheck.
Import DeployPropertyToken.

Lemma not_existing (a : string) :
  JS.truthy a && negb (a =? Ethers.AddressZero) = false ->
  a = "" \/ a = Ethers.AddressZero.
Proof.
  destruct a as [|c r]; [left; reflexivity|]. simpl JS.truthy. rewrite andb_true_l.
  intros H. apply negb_false_iff, String.eqb_eq in H. right. exact H.
Qed.

Lemma existing (a : string) :
  a <> "" -> a <> Ethers.AddressZero ->
  JS.truthy a && negb (a =? Ethers.AddressZero) = true.
Proof.
  intros H1 H2. destruct a as [|c r]; [congruence|]. simpl JS.truthy.
  rewrite andb_true_l. apply negb_true_iff, String.eqb_neq. exact H2.
Qed.

Lemma requireSalt_inv (input salt : string) :
  requireSalt input = Returned salt -> salt = JS.trim input /\ salt <> "".
Proof.
  unfold requireSalt. destruct (JS.trim input); simpl; intros E;
    inversion E; split; congruence.
Qed.

Ltac salt_known :=
  match goal with
  | H : requireSalt _ = Returned _ |- _ =>
      apply requireSalt_inv in H; destruct H as [-> _]
  end.

Lemma main_duplicate_check (h : host) : wp h main [] (fun o tr => duplicateCheck h o (rev tr)).
Proof.
  unfold main, ensureContractDeployed, logSuite.
  repeat wp_step.
  all: cbv beta; unfold duplicateCheck; split;
    [ intros art addr arguments found HIn Hne Hnz
    | intros art addr arguments from res HIn ];
    in_cases HIn.
  all: try salt_known.
  all: try (injection HIn as <- <- <- <-;
            try (match goal with
                 | H : JS.truthy _ && _ = false |- _ =>
                     rewrite (existing _ Hne Hnz) in H; discriminate H
                 end);
            repeat split; solve [reflexivity | in_trace]).
  all: injection HIn as <- <- <- <- <-; do 4 eexists; (split; [in_trace|]).
  all: try (match goal with
            | H : JS.truthy _ && _ = false |- _ =>
                destruct (not_existing _ H) as [-> | ->];
                [right; left | left]; reflexivity
            end).
  all: right; right; eexists; reflexivity.
Qed.

Lemma main_query_failure (h : host) : wp h main [] (fun o tr => queryFailure h o (rev tr)).
Proof.
  unfold main, ensureContractDeployed, logSuite.
  repeat wp_step.
  all: cbv beta; unfold queryFailure; intros art addr arguments msg HIn; in_cases HIn.
  all: try salt_known.
  all: try (match goal with
            | H : JS.truthy Ethers.AddressZero && _ = true |- _ =>
                vm_compute in H; discriminate H
            end).
  all: injection HIn as <- <- <- <-; (split; [in_trace|]); intros Hacc.
  all: try (do 3 eexists; in_trace).
  all: match goal with
       | H : addressOf (nth_error (accounts ?x) 0) = Thrown _ |- _ =>
           destruct (accounts x); [congruence | discriminate H]
       end.
Qed.

Lemma main_salt_rule (h : host) : wp h main [] (fun o tr => saltRule h o (rev tr)).
Proof.
  unfold main, ensureContractDeployed, logSuite.
  repeat wp_step.
  all: cbv beta; unfold saltRule; split; [|split];
    [ intros art addr arguments r HIn; in_cases HIn
    | intros art addr arguments from res HIn; in_cases HIn
    | intros Hempty ].
  all: try (split; [eexists; reflexivity | reflexivity]).
  all: match goal with
       | H : requireSalt _ = Returned _ |- _ =>
           apply requireSalt_inv in H; destruct H as [-> Hsalt]
       end.
  all: try (exfalso; apply Hsalt; exact Hempty).
  all: try (injection HIn as <- <- <- <-; reflexivity).
  all: injection HIn as <- <- <- <- <-; eexists; reflexivity.
Qed.

Lemma rejects_iff_invalid (x : JS.number) :
  negb (JS.isInteger x) || JS.ltZ x 0 || JS.gtZ x 18 = negb (validDecimals x).
Proof.
  unfold validDecimals. destruct x as [|neg|[n d]]; try reflexivity.
  unfold JS.isInteger, JS.ltZ, JS.gtZ, JS.toZ. simpl Qnum. simpl Qden.
  destruct (n mod Z.pos d =? 0)%Z eqn:Hm; [|reflexivity].
  apply Z.eqb_eq in Hm.
  pose proof (Z.div_mod n (Z.pos d) ltac:(lia)) as Hd.
  rewrite Hm, Z.add_0_r in Hd. set (k := (n / Z.pos d)%Z) in *.
  simpl negb. rewrite orb_false_l.
  destruct (n <? 0 * Z.pos d)%Z eqn:H1; destruct (18 * Z.pos d <? n)%Z eqn:H2;
    destruct (0 <=? k)%Z eqn:H3; destruct (k <=? 18)%Z eqn:H4; try reflexivity;
    exfalso;
    repeat match goal with
           | H : (_ <? _)%Z = true |- _ => apply Z.ltb_lt in H
           | H : (_ <? _)%Z = false |- _ => apply Z.ltb_ge in H
           | H : (_ <=? _)%Z = true |- _ => apply Z.leb_le in H
           | H : (_ <=? _)%Z = false |- _ => apply Z.leb_gt in H
           end; nia.
Qed.

(** [parseDecimals] returns the number when it is an integer from 0 to 18
    and throws otherwise. *)
Lemma parseDecimals_spec (number : string -> JS.number) (raw : option string)
    (fallback : Z) :
  parseDecimals number raw fallback =
  let parsed := number (JS.nullish raw (JS.decimalZ fallback)) in
  if validDecimals parsed then Returned parsed
  else Thrown "Token decimals must be an integer between 0 and 18".
Proof.
  unfold parseDecimals. cbv zeta. rewrite rejects_iff_invalid.
  destruct (validDecimals _); reflexivity.
Qed.

Lemma main_decimals_rule (h : host) : wp h main [] (fun o tr => decimalsRule h o (rev tr)).
Proof.
  unfold main, ensureContractDeployed, logSuite.
  repeat wp_step.
  all: cbv beta; unfold decimalsRule, decimalsInput; split;
    [ intros Hbad | intros art addr arguments from res HIn; in_cases HIn ].
  all: try (split; [eexists; reflexivity | reflexivity]).
  all: match goal with
       | H : parseDecimals _ _ _ = Returned _ |- _ =>
           rewrite parseDecimals_spec in H; cbv zeta in H;
           change (JS.decimalZ 0) with "0" in H;
           destruct (validDecimals _) eqn:Hvalid in H; [|discriminate H];
           injection H as <-
       end.
  all: try congruence.
  all: injection HIn as <- <- <- <- <-; split; [assumption|].
  all: do 3 eexists; split; [reflexivity|]; cbn [In]; auto 10.
Qed.

Lemma main_event_decoding (h : host) : wp h main [] (fun o tr => eventDecoding h o (rev tr)).
Proof.
  unfold main, ensureContractDeployed, logSuite.
  repeat wp_step.
  all: cbv beta; unfold eventDecoding; intros tx rc HIn; in_cases HIn.
  all: injection HIn as <- <-.
  all: match goal with
       | H : extractSuiteAddresses _ _ = _ |- _ => rewrite H
       end.
  all: try reflexivity.
  all: split; [reflexivity | in_trace].
Qed.

End DuplicateCheck.

(** ** The event decoder *)

Section EventDecoder.
Import DeployPropertyToken.

Lemma candidateOf_present (args : EventArgs) (key : string) (index : nat) :
  candidateOf args key index =
  if present (byKey args key) then byKey args key else byIndex args index.
Proof. unfold candidateOf. destruct (byKey args key); reflexivity. Qed.

Lemma normalizeAddressArg_returned (args : EventArgs) key index a :
  normalizeAddressArg args key index = Returned a <-> readsAs args key index a.
Proof.
  unfold normalizeAddressArg, readsAs, fieldText.
  rewrite candidateOf_present.
  destruct (textOf _) as [v|].
  - destruct v as [|c r].
    + simpl. split; [discriminate|]. intros (v & E & H & _). inversion E; congruence.
    + cbn [JS.truthy negb orb].
      destruct (String c r =? "0x") eqn:E1; cbn [orb].
      * apply String.eqb_eq in E1. split; [discriminate|].
        intros (v & E & _ & H & _). inversion E; congruence.
      * destruct (String c r =? Ethers.AddressZero) eqn:E2.
        -- apply String.eqb_eq in E2. split; [discriminate|].
           intros (v & E & _ & _ & H & _). inversion E; congruence.
        -- apply String.eqb_neq in E1, E2.
           destruct (Ethers.getAddress (String c r)) as [b|] eqn:E3.
           ++ split.
              ** intros E. inversion E; subst. exists (String c r).
                 repeat split; auto; discriminate.
              ** intros (v & E & _ & _ & _ & H). inversion E; subst. congruence.
           ++ split; [discriminate|].
              intros (v & E & _ & _ & _ & H). inversion E; subst. congruence.
  - split; [discriminate|]. intros (v & E & _). discriminate.
Qed.

Lemma normalizeAddressArg_thrown (args : EventArgs) key index :
  (exists e, normalizeAddressArg args key index = Thrown e)
  <-> unreadable args key index.
Proof.
  unfold normalizeAddressArg, unreadable, fieldText.
  rewrite candidateOf_present.
  destruct (textOf _) as [v|]; [|split; eauto].
  destruct v as [|c r].
  - simpl. split; eauto.
  - cbn [JS.truthy negb orb].
    destruct (String c r =? "0x") eqn:E1; cbn [orb].
    + apply String.eqb_eq in E1. split; eauto.
    + destruct (String c r =? Ethers.AddressZero) eqn:E2.
      * apply String.eqb_eq in E2. split; eauto.
      * apply String.eqb_neq in E1, E2.
        destruct (Ethers.getAddress (String c r)) as [b|] eqn:E3.
        -- split; [intros (e & E); discriminate|].
           intros [H|[H|[H|H]]]; congruence.
        -- split; eauto.
Qed.

Lemma prefixed0x_inv (v : string) :
  prefixed0x v = true -> exists r, v = String "0" (String "x" r).
Proof.
  destruct v as [|c0 [|c1 r]]; try discriminate.
  - destruct c0 as [[] [] [] [] [] [] [] []]; discriminate.
  - destruct c0 as [[] [] [] [] [] [] [] []]; try discriminate.
    destruct c1 as [[] [] [] [] [] [] [] []]; try discriminate.
    eauto.
Qed.

Lemma readsAs_checksummed (args : EventArgs) key index a :
  hexTexts args -> In (key, index) suiteFields ->
  readsAs args key index a -> checksummedNonZero a.
Proof.
  intros Hhex Hin (v & Htext & Hne & _ & Hnz & Hget).
  split.
  - apply (proj2 (getAddress_checksummed v a Hget)).
  - intros ->. destruct (Hhex key index v Hin Htext) as [->|Hp]; [congruence|].
    destruct (prefixed0x_inv v Hp) as (r & ->).
    apply Hnz. apply getAddress_zero_prefixed. exact Hget.
Qed.

(** What [suiteOfArgs] returns: all six fields read, or an exception. *)
Lemma suiteOfArgs_returned (args : EventArgs) (s : SuiteAddresses) :
  suiteOfArgs args = Returned s <->
  Forall2 (fun f a => readsAs args (fst f) (snd f) a) suiteFields (suiteList s).
Proof.
  unfold suiteOfArgs, suiteFields, suiteList. split.
  - intros E.
    repeat match type of E with
           | match ?x with _ => _ end = _ =>
               destruct x eqn:?; [|discriminate E]
           end.
    inversion E; subst; simpl.
    repeat (constructor; [apply normalizeAddressArg_returned; assumption|]).
    constructor.
  - intros H.
    repeat match goal with
           | H : Forall2 _ (_ :: _) _ |- _ => inversion H; clear H; subst
           | H : Forall2 _ [] _ |- _ => clear H
           | H : readsAs _ _ _ _ |- _ =>
               apply normalizeAddressArg_returned in H; simpl in H; rewrite H
           end.
    destruct s; reflexivity.
Qed.

Lemma suiteOfArgs_thrown (args : EventArgs) :
  (exists e, suiteOfArgs args = Thrown e) <->
  Exists (fun f => unreadable args (fst f) (snd f)) suiteFields.
Proof.
  unfold suiteOfArgs, suiteFields. split.
  - intros (e & E).
    repeat match type of E with
           | match ?x with _ => _ end = _ =>
               destruct x eqn:?;
               [apply Exists_cons_tl
               |apply Exists_cons_hd; apply normalizeAddressArg_thrown; eauto]
           end.
    discriminate E.
  - intros H.
    repeat match goal with
           | H : Exists _ (_ :: _) |- _ =>
               apply Exists_cons in H; destruct H as [H|H];
               [apply normalizeAddressArg_thrown in H; destruct H as (e & H);
                simpl in H
               |]
           | H : Exists _ [] |- _ => inversion H
           end;
    repeat match goal with
           | |- exists e, match ?x with _ => _ end = _ =>
               first [ match goal with H : x = Thrown _ |- _ => rewrite H; eauto end
                     | destruct x; [|eauto] ]
           end.
Qed.

Lemma extract_other (parse : log -> option parsedLog) (ls : list log) :
  Forall (otherLog parse) ls -> extractSuiteAddresses parse ls = None.
Proof.
  induction 1 as [|l ls Hl _ IH]; simpl; [reflexivity|].
  unfold otherLog in Hl. destruct (parse l) as [p|]; [|exact IH].
  apply String.eqb_neq in Hl. rewrite Hl. exact IH.
Qed.

Lemma extract_skip (parse : log -> option parsedLog) (before rest : list log) :
  Forall (otherLog parse) before ->
  extractSuiteAddresses parse (before ++ rest) = extractSuiteAddresses parse rest.
Proof.
  induction 1 as [|l ls Hl _ IH]; simpl; [reflexivity|].
  unfold otherLog in Hl. destruct (parse l) as [p|]; [|exact IH].
  apply String.eqb_neq in Hl. rewrite Hl. exact IH.
Qed.

(** With one TREXSuiteDeployed event in the logs, the extraction is what
    [suiteOfArgs] makes of that event. *)
Lemma extract_sole (parse : log -> option parsedLog) (ls : list log)
    (parsed : parsedLog) :
  soleSuiteEvent parse ls parsed ->
  extractSuiteAddresses parse ls =
  match suiteOfArgs (args parsed) with
  | Returned suite => Some suite
  | Thrown _ => None
  end.
Proof.
  intros (before & l & after & -> & Hp & Hn & Hb & Ha).
  rewrite (extract_skip _ _ _ Hb). simpl. rewrite Hp.
  apply String.eqb_eq in Hn. rewrite Hn.
  destruct (suiteOfArgs (args parsed)); [reflexivity|].
  apply extract_other. exact Ha.
Qed.

End EventDecoder.

(** ** The claims about the single-property deployment *)

Section PropertyTokenClaims.
Import DeployPropertyToken.

Example sample_run_deploys :
  outcomeOf (run main (sampleHost [] (Returned Ethers.AddressZero))) = Returned tt
  /\ existsb submission
       (traceOf (run main (sampleHost [] (Returned Ethers.AddressZero)))) = true.
Proof. vm_compute. split; reflexivity. Qed.

(** C2.  Idempotency guard.  When the factory answers the [getToken] query
    of a run with an address that is not the zero address, the run submits
    no transaction at all, prints the existing address for the (trimmed)
    salt it asked about and ends normally, not with an exception.
    Conversely, a run that submits [deployTREXSuite] has seen [getToken]
    answer the zero address (or nothing), or fail. *)
Theorem existing_suite_aborts_deployment (h : host) :
  (forall art addr arguments found,
      In (Query art addr "getToken" arguments (Returned found))
         (traceOf (run main h)) ->
      found <> "" -> found <> Ethers.AddressZero ->
      outcomeOf (run main h) = Returned tt
      /\ existsb submission (traceOf (run main h)) = false
      /\ arguments = [VString (JS.trim (saltInput h))]
      /\ In (ConsoleLog (existingSuiteMessage (JS.trim (saltInput h)) found))
            (traceOf (run main h)))
  /\
  (forall art addr arguments from res,
      In (Send art addr "deployTREXSuite" arguments from res)
         (traceOf (run main h)) ->
      exists art' addr' arguments' r,
        In (Query art' addr' "getToken" arguments' r) (traceOf (run main h))
        /\ (r = Returned Ethers.AddressZero \/ r = Returned ""
            \/ exists message, r = Thrown message)).
Proof. exact (main_duplicate_check h). Qed.

Lemma existing_suite_aborts_deployment_witness :
  let h := sampleHost [("PROPERTY_TOKEN_SALT", " villa-1 ")]
             (Returned (sampleAddress 77)) in
  outcomeOf (run main h) = Returned tt
  /\ existsb submission (traceOf (run main h)) = false
  /\ [VString "villa-1"] = [VString (JS.trim (saltInput h))]
  /\ In (ConsoleLog (existingSuiteMessage (JS.trim (saltInput h)) (sampleAddress 77)))
        (traceOf (run main h)).
Proof.
  intros h.
  apply (proj1 (existing_suite_aborts_deployment h)
           "ITREXFactory" DEFAULT_FACTORY_PLACEHOLDER [VString "villa-1"]
           (sampleAddress 77)).
  - vm_compute. do 3 right. left. reflexivity.
  - vm_compute. discriminate.
  - vm_compute. discriminate.
Defined.

(** C6.  When the [getToken] query itself fails, the run prints a warning
    that carries the failure and goes on: with a deployer account at hand it
    submits [deployTREXSuite] to the same factory for the same salt. *)
Theorem failed_query_continues (h : host) :
  forall art addr arguments message,
    In (Query art addr "getToken" arguments (Thrown message))
       (traceOf (run main h)) ->
    In (ConsoleWarn (skippedCheckMessage message)) (traceOf (run main h))
    /\ (accounts h <> [] ->
        exists details from res,
          In (Send art addr "deployTREXSuite"
                (VString (JS.trim (saltInput h)) :: details) from res)
             (traceOf (run main h))).
Proof. exact (main_query_failure h). Qed.

Lemma failed_query_continues_witness :
  let h := sampleHost [] (Thrown "call revert exception") in
  In (ConsoleWarn (skippedCheckMessage "call revert exception"))
     (traceOf (run main h))
  /\ (accounts h <> [] ->
      exists details from res,
        In (Send "ITREXFactory" DEFAULT_FACTORY_PLACEHOLDER "deployTREXSuite"
              (VString (JS.trim (saltInput h)) :: details) from res)
           (traceOf (run main h))).
Proof.
  intros h.
  apply (failed_query_continues h "ITREXFactory" DEFAULT_FACTORY_PLACEHOLDER
           [VString "Luxury Villa A4"] "call revert exception").
  vm_compute. do 3 right. left. reflexivity.
Defined.

(** C9.  The salt is the input with the white space around it removed:
    the input is white space, the salt, white space, and the salt neither
    starts nor ends with white space.  [requireSalt] returns that salt, or
    throws when nothing is left.  In a run, every [getToken] query and every
    [deployTREXSuite] submission carries the trimmed salt, and an input that
    trims to nothing ends the run with an exception before anything is sent
    to the ledger. *)
Theorem salt_is_trimmed_and_required (h : host) :
  (forall input,
      (exists l r, input = l ++ JS.trim input ++ r
                   /\ JS.allWhiteSpace l = true /\ JS.allWhiteSpace r = true)
      /\ startsClean (JS.trim input) /\ endsClean (JS.trim input)
      /\ requireSalt input =
         if JS.truthy (JS.trim input) then Returned (JS.trim input)
         else Thrown "Deployment salt cannot be empty")
  /\ (forall art addr arguments r,
         In (Query art addr "getToken" arguments r) (traceOf (run main h)) ->
         arguments = [VString (JS.trim (saltInput h))])
  /\ (forall art addr arguments from res,
         In (Send art addr "deployTREXSuite" arguments from res)
            (traceOf (run main h)) ->
         exists details, arguments = VString (JS.trim (saltInput h)) :: details)
  /\ (JS.trim (saltInput h) = "" ->
      (exists message, outcomeOf (run main h) = Thrown message)
      /\ existsb ledgerEffect (traceOf (run main h)) = false).
Proof.
  split; [|exact (main_salt_rule h)].
  intros input. split; [apply trim_split|].
  destruct (trim_clean input) as [Hs He]. repeat split; try assumption.
  unfold requireSalt. destruct (JS.truthy (JS.trim input)); reflexivity.
Qed.

Lemma salt_is_trimmed_and_required_witness :
  let h := sampleHost [("PROPERTY_TOKEN_SALT", "   ")]
             (Returned Ethers.AddressZero) in
  (exists message, outcomeOf (run main h) = Thrown message)
  /\ existsb ledgerEffect (traceOf (run main h)) = false.
Proof.
  intros h.
  apply (proj2 (proj2 (proj2 (salt_is_trimmed_and_required h)))).
  vm_compute. reflexivity.
Defined.

Lemma readsAs_not_unreadable (args : EventArgs) key index a :
  readsAs args key index a -> ~ unreadable args key index.
Proof.
  unfold readsAs, unreadable. intros (v & -> & H1 & H2 & H3 & H4).
  intros [H|[H|[H|H]]]; congruence.
Qed.

Lemma suiteOfArgs_total (args : EventArgs) :
  Forall (fun f => exists a, readsAs args (fst f) (snd f) a) suiteFields ->
  exists suite, suiteOfArgs args = Returned suite.
Proof.
  intros Hall. destruct (suiteOfArgs args) as [s|e] eqn:E; [eauto|].
  exfalso.
  assert (Hex : Exists (fun f => unreadable args (fst f) (snd f)) suiteFields)
    by (apply suiteOfArgs_thrown; eauto).
  apply Exists_exists in Hex. destruct Hex as (f & Hin & Hun).
  rewrite Forall_forall in Hall. destruct (Hall f Hin) as (a & Ha).
  exact (readsAs_not_unreadable _ _ _ _ Ha Hun).
Qed.

Lemma readsAs_all_checksummed (args : EventArgs) (suite : SuiteAddresses) :
  hexTexts args ->
  Forall2 (fun f a => readsAs args (fst f) (snd f) a) suiteFields (suiteList suite) ->
  Forall2 (fun f a => readsAs args (fst f) (snd f) a /\ checksummedNonZero a)
    suiteFields (suiteList suite).
Proof.
  intros Hhex H.
  assert (G : forall fs l,
             (forall f, In f fs -> In f suiteFields) ->
             Forall2 (fun f a => readsAs args (fst f) (snd f) a) fs l ->
             Forall2 (fun f a => readsAs args (fst f) (snd f) a
                                 /\ checksummedNonZero a) fs l).
  { induction 2 as [|f a fs l Hr _ IH]; constructor.
    - split; [exact Hr|].
      destruct f as [key index].
      apply (readsAs_checksummed args key index a Hhex); [|exact Hr].
      apply H0. left. reflexivity.
    - apply IH. intros g Hg. apply H0. right. exact Hg. }
  apply G; auto.
Qed.

(** C5.  Event decoding.  Once the receipt of the deployment is there:
    when its logs hold exactly one TREXSuiteDeployed event of the factory
    among other logs, whose address texts carry the "0x" prefix, an
    extraction that yields a suite yields the six addresses, each read by
    field name first and position second, each the checksummed form of the
    field and none the zero address, and the run prints them and ends
    normally; it does yield a suite when all six fields can be read; when
    one field is missing, empty, "0x", the zero address or no address, no
    suite is yielded and the run ends with the not-found error.  A receipt
    without a TREXSuiteDeployed event ends the run with the same error. *)
Theorem suite_event_decoding (h : host) (tx : transaction) (rc : receipt) :
  In (Wait tx (Returned rc)) (traceOf (run main h)) ->
  (forall parsed,
      soleSuiteEvent (parseLog h) (logs rc) parsed ->
      hexTexts (args parsed) ->
      (forall suite,
          extractSuiteAddresses (parseLog h) (logs rc) = Some suite ->
          Forall2 (fun f a => readsAs (args parsed) (fst f) (snd f) a
                              /\ checksummedNonZero a)
            suiteFields (suiteList suite)
          /\ outcomeOf (run main h) = Returned tt
          /\ In (ConsoleTable (suiteRows suite)) (traceOf (run main h)))
      /\ (Forall (fun f => exists a, readsAs (args parsed) (fst f) (snd f) a)
            suiteFields ->
          exists suite, extractSuiteAddresses (parseLog h) (logs rc) = Some suite)
      /\ (Exists (fun f => unreadable (args parsed) (fst f) (snd f)) suiteFields ->
          extractSuiteAddresses (parseLog h) (logs rc) = None
          /\ outcomeOf (run main h) = Thrown notFoundMessage))
  /\ (Forall (otherLog (parseLog h)) (logs rc) ->
      extractSuiteAddresses (parseLog h) (logs rc) = None
      /\ outcomeOf (run main h) = Thrown notFoundMessage).
Proof.
  intros HIn.
  pose proof (main_event_decoding h tx rc HIn) as Hrun.
  change (fst (main h [])) with (outcomeOf (run main h)) in Hrun.
  change (rev (snd (main h []))) with (traceOf (run main h)) in Hrun.
  split.
  - intros parsed Hsole Hhex.
    pose proof (extract_sole _ _ _ Hsole) as Hex.
    repeat split.
    + rewrite H in Hex. destruct (suiteOfArgs (args parsed)) eqn:E; [|discriminate].
      inversion Hex; subst. apply readsAs_all_checksummed; [exact Hhex|].
      apply suiteOfArgs_returned. exact E.
    + rewrite H in Hrun. apply Hrun.
    + rewrite H in Hrun. apply Hrun.
    + intros Hall. destruct (suiteOfArgs_total _ Hall) as (suite & E).
      rewrite E in Hex. eauto.
    + apply suiteOfArgs_thrown in H. destruct H as (e & E).
      rewrite E in Hex. exact Hex.
    + apply suiteOfArgs_thrown in H. destruct H as (e & E).
      rewrite E in Hex. rewrite Hex in Hrun. exact Hrun.
  - intros Hother. pose proof (extract_other _ _ Hother) as Hex.
    rewrite Hex in Hrun. split; [exact Hex | exact Hrun].
Qed.

Lemma Forall2_exists {X Y} (P : X -> Y -> Prop) (l : list X) (l' : list Y) :
  Forall2 P l l' -> Forall (fun x => exists y, P x y) l.
Proof. induction 1; constructor; eauto. Qed.

Lemma sample_hexTexts : hexTexts sampleSuiteArgs /\ hexTexts brokenSuiteArgs.
Proof.
  split; intros key index v Hin Htext; right;
    cbn [In suiteFields] in Hin;
    repeat (destruct Hin as [Hin|Hin]; [injection Hin as <- <-|]);
    try contradiction Hin;
    vm_compute in Htext; injection Htext as <-; reflexivity.
Qed.

Lemma suite_event_decoding_witness :
  (let h := sampleHost [] (Returned Ethers.AddressZero) in
   let suite :=
     {| token := "0x00000000000000000000000000000000000000A1";
        identityRegistry := "0x00000000000000000000000000000000000000A2";
        identityRegistryStorage := "0x00000000000000000000000000000000000000A3";
        trustedIssuersRegistry := "0x00000000000000000000000000000000000000a4";
        claimTopicsRegistry := "0x00000000000000000000000000000000000000A5";
        modularCompliance := "0x00000000000000000000000000000000000000a6" |} in
   (Forall2 (fun f a => readsAs sampleSuiteArgs (fst f) (snd f) a
                        /\ checksummedNonZero a)
      suiteFields (suiteList suite)
    /\ outcomeOf (run main h) = Returned tt
    /\ In (ConsoleTable (suiteRows suite)) (traceOf (run main h)))
   /\ exists found,
       extractSuiteAddresses (parseLog h) (logs sampleReceipt) = Some found)
  /\ (let h := hostWith [] (Returned Ethers.AddressZero) brokenReceipt in
      extractSuiteAddresses (parseLog h) (logs brokenReceipt) = None
      /\ outcomeOf (run main h) = Thrown notFoundMessage)
  /\ (let h := hostWith [] (Returned Ethers.AddressZero) foreignReceipt in
      extractSuiteAddresses (parseLog h) (logs foreignReceipt) = None
      /\ outcomeOf (run main h) = Thrown notFoundMessage).
Proof.
  pose (tx := {| hash := "0x" ++ Ethers.hexOfBytes (Ethers.word 9) |}).
  assert (Hwait1 : In (Wait tx (Returned sampleReceipt))
                     (traceOf (run main (sampleHost [] (Returned Ethers.AddressZero)))))
    by (vm_compute; do 11 right; left; reflexivity).
  assert (Hwait2 : In (Wait tx (Returned brokenReceipt))
                     (traceOf (run main (hostWith [] (Returned Ethers.AddressZero)
                                           brokenReceipt))))
    by (vm_compute; do 11 right; left; reflexivity).
  assert (Hwait3 : In (Wait tx (Returned foreignReceipt))
                     (traceOf (run main (hostWith [] (Returned Ethers.AddressZero)
                                           foreignReceipt))))
    by (vm_compute; do 11 right; left; reflexivity).
  split; [|split].
  - intros h suite.
    destruct (suite_event_decoding h _ sampleReceipt Hwait1) as [Hone _].
    destruct (Hone {| name := "TREXSuiteDeployed"; args := sampleSuiteArgs |})
      as (Hyield & Hall & _).
    + exists [mkLog (sampleAddress 9) [] "0x"; mkLog (sampleAddress 8) [] "0x02"],
        (mkLog (sampleAddress 8) [] "0x01"), [mkLog (sampleAddress 9) [] "0x"].
      repeat split; try reflexivity.
      * repeat constructor. vm_compute. discriminate.
      * repeat constructor.
    + exact (proj1 sample_hexTexts).
    + split.
      * apply Hyield. vm_compute. reflexivity.
      * apply Hall. apply (Forall2_exists _ _ (suiteList suite)).
        apply suiteOfArgs_returned. vm_compute. reflexivity.
  - intros h.
    destruct (suite_event_decoding h _ brokenReceipt Hwait2) as [Hone _].
    destruct (Hone {| name := "TREXSuiteDeployed"; args := brokenSuiteArgs |})
      as (_ & _ & Hbroken).
    + exists [mkLog (sampleAddress 9) [] "0x"],
        (mkLog (sampleAddress 8) [] "0x03"), [mkLog (sampleAddress 8) [] "0x02"].
      repeat split; try reflexivity.
      * repeat constructor.
      * repeat constructor. vm_compute. discriminate.
    + exact (proj2 sample_hexTexts).
    + apply Hbroken. do 5 apply Exists_cons_tl. apply Exists_cons_hd.
      vm_compute. right. right. left. reflexivity.
  - intros h.
    destruct (suite_event_decoding h _ foreignReceipt Hwait3) as [_ Hnone].
    apply Hnone. repeat constructor. vm_compute. discriminate.
Defined.

(** C8 (as amended).  In the single-property script, [parseDecimals]
    returns the number [Number] makes of its input when that number is an
    integer from 0 to 18 and throws otherwise; a run whose decimals input is
    out of range ends with an exception before anything is sent to the
    ledger, and a run that submits [deployTREXSuite] passes the parsed
    integer as the decimals of the token. *)
Theorem decimals_validated_before_deployment (h : host) :
  (forall number raw fallback,
      parseDecimals number raw fallback =
      if validDecimals (number (JS.nullish raw (JS.decimalZ fallback)))
      then Returned (number (JS.nullish raw (JS.decimalZ fallback)))
      else Thrown "Token decimals must be an integer between 0 and 18")
  /\ (validDecimals (decimalsInput h) = false ->
      (exists message, outcomeOf (run main h) = Thrown message)
      /\ existsb ledgerEffect (traceOf (run main h)) = false)
  /\ (forall art addr arguments from res,
         In (Send art addr "deployTREXSuite" arguments from res)
            (traceOf (run main h)) ->
         validDecimals (decimalsInput h) = true
         /\ exists salt fields claims,
             arguments = [VString salt; VObject fields; claims]
             /\ In ("decimals", VNumber (JS.toZ (decimalsInput h))) fields).
Proof.
  split; [|exact (main_decimals_rule h)].
  intros number raw fallback. apply parseDecimals_spec.
Qed.

Lemma decimals_validated_before_deployment_witness :
  (let h := sampleHost [("PROPERTY_TOKEN_DECIMALS", "19")]
              (Returned Ethers.AddressZero) in
   (exists message, outcomeOf (run main h) = Thrown message)
   /\ existsb ledgerEffect (traceOf (run main h)) = false)
  /\ (let h := sampleHost [("PROPERTY_TOKEN_DECIMALS", "6")]
                 (Returned Ethers.AddressZero) in
      validDecimals (decimalsInput h) = true
      /\ exists salt fields claims,
          [VString "Luxury Villa A4";
           VObject [("owner", VString (sampleAddress 2));
                    ("name", VString "Luxury Villa A4");
                    ("symbol", VString "LVA1");
                    ("decimals", VNumber 6);
                    ("irs", VString Ethers.AddressZero);
                    ("ONCHAINID", VString Ethers.AddressZero);
                    ("irAgents", VArray [VString (sampleAddress 1);
                                          VString (sampleAddress 2)]);
                    ("tokenAgents", VArray [VString (sampleAddress 1);
                                             VString (sampleAddress 2)]);
                    ("complianceModules", VArray []);
                    ("complianceSettings", VArray [])];
           buildClaimDetails]
          = [VString salt; VObject fields; claims]
          /\ In ("decimals", VNumber (JS.toZ (decimalsInput h))) fields).
Proof.
  split; intros h.
  - apply (proj1 (proj2 (decimals_validated_before_deployment h))).
    vm_compute. reflexivity.
  - apply (proj2 (proj2 (decimals_validated_before_deployment h))
             "ITREXFactory" DEFAULT_FACTORY_PLACEHOLDER _
             (Some (Account (sampleAddress 1)))
             (Returned {| hash := "0x" ++ Ethers.hexOfBytes (Ethers.word 9) |})).
    vm_compute. do 9 right. left. reflexivity.
Defined.

End PropertyTokenClaims.

(** ** Address validation *)

(** C7 (as amended).  [requireAddress], in both scripts that define it,
    returns the checksummed form of every string [getAddress] can normalise
    -- "0x" and forty hexadecimal digits, itself a fixed point of the
    normalisation -- and throws the validation error, with the label, for
    every other string.  The zero address is normalisable and is returned
    like any other address. *)
Theorem requireAddress_normalises (label value : string) :
  match Ethers.getAddress value with
  | Some a =>
      DeployPropertyToken.requireAddress label value = Returned a
      /\ RegisterIdentity.requireAddress label value = Returned a
      /\ Ethers.getAddress a = Some a
      /\ exists digits, a = "0x" ++ digits /\ Ethers.allHex digits = true
                        /\ String.length digits = 40%nat
  | None =>
      DeployPropertyToken.requireAddress label value
      = Thrown (label ++ " must be a valid Ethereum address")
      /\ RegisterIdentity.requireAddress label value
         = Thrown (label ++ " must be a valid Ethereum address")
  end
  /\ DeployPropertyToken.requireAddress label Ethers.AddressZero
     = Returned Ethers.AddressZero.
Proof.
  split.
  - unfold DeployPropertyToken.requireAddress, RegisterIdentity.requireAddress,
      Ethers.isAddress.
    destruct (Ethers.getAddress value) as [a|] eqn:E; simpl; [|split; reflexivity].
    destruct (getAddress_checksummed value a E) as [Hshape Hfix].
    repeat split; assumption.
  - vm_compute. reflexivity.
Qed.

(** C7, the claim as stated fails on the zero address: [requireAddress]
    returns it and raises no validation error. *)
Lemma requireAddress_accepts_zero_address :
  DeployPropertyToken.requireAddress "TREX factory address" Ethers.AddressZero
  = Returned Ethers.AddressZero
  /\ RegisterIdentity.requireAddress "User wallet address (from USER_WALLET env)"
       Ethers.AddressZero
     = Returned Ethers.AddressZero
  /\ ~ (exists message,
           DeployPropertyToken.requireAddress "TREX factory address"
             Ethers.AddressZero = Thrown message).
Proof.
  assert (H : forall label,
             DeployPropertyToken.requireAddress label Ethers.AddressZero
             = Returned Ethers.AddressZero)
    by (intros label; vm_compute; reflexivity).
  split; [apply H|]. split; [vm_compute; reflexivity|].
  intros (message & E). rewrite H in E. discriminate E.
Qed.

(** ** The identity registration *)

Section Registration.
Import RegisterIdentity.

Lemma requireAddress_inv (label value a : string) :
  requireAddress label value = Returned a -> Ethers.getAddress value = Some a.
Proof.
  unfold requireAddress, Ethers.isAddress.
  destruct (Ethers.getAddress value); simpl; congruence.
Qed.

Lemma requireAddress_isAddress (label value message : string) :
  requireAddress label value = Thrown message -> Ethers.isAddress value = false.
Proof.
  unfold requireAddress, Ethers.isAddress.
  destruct (Ethers.getAddress value); simpl; congruence.
Qed.

Lemma truthy_nullish (o : option string) :
  JS.truthy (JS.nullish o "") = true -> o = Some (JS.nullish o "").
Proof. destruct o as [s|]; simpl; [reflexivity | discriminate]. Qed.

Lemma isAddress_truthy (s : string) :
  Ethers.isAddress s = true -> JS.truthy s = true.
Proof. destruct s; [vm_compute; discriminate | reflexivity]. Qed.

Lemma main_registration (h : host) : wp h main [] (fun o tr => registrationRule h o (rev tr)).
Proof.
  unfold main.
  repeat wp_step.
  all: cbv beta; unfold registrationRule; split;
    [ intros art addr method arguments from res HIn; in_cases HIn
    | intros (Hagent & Hwallet & Huser & Hid) ].
  all: fold (agentKey h) in *.
  all: repeat match goal with
         | H : negb _ = true |- _ => apply negb_true_iff in H
         | H : negb _ = false |- _ => apply negb_false_iff in H
         end.
  all: try congruence.
  all: try (apply isAddress_truthy in Huser; congruence).
  all: try (apply isAddress_truthy in Hid; congruence).
  all: try (match goal with
            | H : requireAddress _ _ = Thrown _ |- _ =>
                apply requireAddress_isAddress in H; congruence
            end).
  all: try (do 6 eexists; in_trace).
  all: injection HIn as <- <- <- <- <- <-; split; [reflexivity|].
  all: do 2 eexists; split; [reflexivity|]; split.
  all: try (eapply requireAddress_inv; eassumption).
  all: apply truthy_nullish; assumption.
Qed.

(** C10.  Every transaction the registration script submits is a
    [batchRegisterIdentity] for the single pair of the (checksummed) user
    wallet and the user identity, with the one country code 42 -- whatever
    the environment holds; and with a usable agent key, a wallet address and
    an identity address in the environment, the script does submit it. *)
Theorem registration_uses_country_42 (h : host) :
  (forall art addr method arguments from res,
      In (Send art addr method arguments from res) (traceOf (run main h)) ->
      method = "batchRegisterIdentity"
      /\ exists wallet identity,
          arguments = [VArray [VString wallet]; VArray [VString identity];
                       VArray [VNumber 42]]
          /\ Ethers.getAddress (JS.nullish (env h "USER_WALLET") "") = Some wallet
          /\ env h "USER_IDENTITY_ADDRESS" = Some identity)
  /\ (registrationInputsValid h ->
      exists art addr wallet identity from res,
        In (Send art addr "batchRegisterIdentity"
              [VArray [VString wallet]; VArray [VString identity];
               VArray [VNumber 42]] from res) (traceOf (run main h))).
Proof. exact (main_registration h). Qed.

End Registration.

(** ** The infrastructure script *)

Section Infrastructure.
Import DeployTREXSuiteInfrastructure.

(** C4, on the function.  With a key for the role in the environment, the
    signer is the wallet of that key (or the exception of a string that is no
    key): neither the pooled signer nor the deployer matter and nothing is
    printed.  Without a key, the pooled signer is the signer when there is
    one; otherwise the deployer is the signer and one warning, the role's,
    is added to the trace. *)
Lemma resolveRoleSigner_cases (h : host) (role : RoleKey)
    (available : option signer) (deployer : signer) (tr : trace) :
  resolveRoleSigner role available deployer h tr =
  if hasEnvKey h role then
    match computeAddress h (JS.nullish (env h (envKeyName role)) "") with
    | Some a => (Returned (Wallet (JS.nullish (env h (envKeyName role)) "") a), tr)
    | None => (Thrown "invalid private key", tr)
    end
  else
    match available with
    | Some s => (Returned s, tr)
    | None =>
        (Returned deployer,
         ConsoleWarn (fallbackWarning role (signerAddress deployer)) :: tr)
    end.
Proof.
  unfold resolveRoleSigner, hasEnvKey, bind, getenv, newWallet, ret, consoleWarn, emit.
  destruct (JS.truthy _).
  - destruct (computeAddress h _); reflexivity.
  - destruct available; reflexivity.
Qed.

Lemma fallbackWarning_is (role r : RoleKey) (address : string) :
  isFallbackWarning r (ConsoleWarn (fallbackWarning role address)) = roleEqb r role.
Proof. destruct role, r; reflexivity. Qed.

(** What a role resolution does to the trace, whatever branch it takes. *)
Lemma wp_resolveRoleSigner (h : host) (role : RoleKey)
    (available : option signer) (deployer : signer) (tr : trace)
    (Q : outcome signer -> trace -> Prop) :
  Q (Thrown "invalid private key") tr ->
  (forall s tr',
      existsb isUnpause tr' = existsb isUnpause tr ->
      (forall r, warningsFor r tr' =
                 (warningsFor r tr
                  + if roleEqb r role && negb (hasEnvKey h role) && isNone available
                    then 1 else 0)%nat) ->
      Q (Returned s) tr') ->
  wp h (resolveRoleSigner role available deployer) tr Q.
Proof.
  intros Hthrown Hreturned. unfold wp. rewrite resolveRoleSigner_cases.
  destruct (hasEnvKey h role) eqn:Hkey.
  - destruct (computeAddress h _); cbn [fst snd]; [|exact Hthrown].
    apply Hreturned; [reflexivity|].
    intros r. rewrite andb_false_r. cbn. lia.
  - destruct available as [s|]; cbn [fst snd].
    + apply Hreturned; [reflexivity|].
      intros r. rewrite andb_false_r. lia.
    + apply Hreturned; [reflexivity|].
      intros r. unfold warningsFor. cbn [filter]. rewrite fallbackWarning_is.
      cbn [negb isNone]. rewrite !andb_true_r.
      destruct (roleEqb r role); cbn [List.length]; lia.
Qed.

Ltac wp_summary m ::=
  lazymatch m with
  | resolveRoleSigner _ _ _ =>
      apply wp_resolveRoleSigner; [|intros ?signer ?tr ?Hunpause ?Hwarnings]
  end.

Ltac no_unpause :=
  cbn [existsb isUnpause orb andb String.eqb Ascii.eqb Bool.eqb];
  repeat match goal with
         | H : existsb isUnpause ?t = _ |- context [existsb isUnpause ?t] =>
             rewrite H;
             cbn [existsb isUnpause orb andb String.eqb Ascii.eqb Bool.eqb]
         end;
  reflexivity.

Ltac count_warnings :=
  unfold warningsFor in *;
  cbn [filter isFallbackWarning];
  repeat match goal with
         | H : forall r, List.length (filter (isFallbackWarning r) ?t) = _
           |- context [List.length (filter (isFallbackWarning _) ?t)] =>
             rewrite H; cbn [filter isFallbackWarning]
         end;
  cbn [List.length roleEqb roleIndex Nat.eqb andb];
  unfold fallsBack;
  repeat match goal with
         | H : accounts _ = _ |- _ => rewrite H
         end;
  cbn [roleIndex];
  repeat match goal with
         | |- context [hasEnvKey ?h ?r] => destruct (hasEnvKey h r)
         | |- context [nth_error ?l ?k] => destruct (nth_error l k)
         end;
  cbn [negb andb isNone Nat.add]; solve [reflexivity | lia].

Lemma main_infrastructure (h : host) : wp h main [] (infrastructureRule h).
Proof.
  unfold main.
  repeat wp_step.
  all: unfold infrastructureRule; split; [no_unpause|].
  all: intros role; split; [|cbn [isReturned]; intros Hreturned].
  all: try discriminate Hreturned.
  all: destruct role.
  all: count_warnings.
Qed.

End Infrastructure.

(** ** The full-suite script *)

Section FullSuite.
Import DeployFullSuite.





End FullSuite.

(** ** The ABI encoding of a claim *)

Section AbiCoder.
Import Ethers.

Lemma byteOfN_value (v : N) : Byte.to_N (byteOfN v) = (v mod 256)%N.
Proof.
  unfold byteOfN. destruct (Byte.of_N (v mod 256)) as [b|] eqn:E.
  - apply Byte.to_of_N. exact E.
  - apply Byte.of_N_None_iff in E.
    pose proof (N.mod_lt v 256 ltac:(discriminate)). lia.
Qed.

Lemma valueBE_snoc (l : bytes) (x : byte) :
  valueBE (l ++ [x])%list = (256 * valueBE l + Byte.to_N x)%N.
Proof. unfold valueBE. rewrite fold_left_app. reflexivity. Qed.

Lemma valueBE_bigEndian (n : nat) :
  forall v, valueBE (bigEndian n v) = (v mod 256 ^ N.of_nat n)%N.
Proof.
  induction n as [|n IH]; intros v.
  - cbn. rewrite N.mod_1_r. reflexivity.
  - cbn [bigEndian]. rewrite valueBE_snoc, IH, byteOfN_value.
    rewrite Nat2N.inj_succ, N.pow_succ_r'.
    rewrite (N.Div0.mod_mul_r v 256 (256 ^ N.of_nat n)). lia.
Qed.

Lemma length_bigEndian (n : nat) : forall v, List.length (bigEndian n v) = n.
Proof.
  induction n as [|n IH]; intros v; [reflexivity|].
  cbn [bigEndian]. rewrite length_app, IH. cbn. lia.
Qed.

Lemma word_inj (v v' : N) :
  (v < 2 ^ 256)%N -> (v' < 2 ^ 256)%N -> word v = word v' -> v = v'.
Proof.
  intros Hv Hv' E. apply (f_equal valueBE) in E. unfold word in E.
  rewrite !valueBE_bigEndian in E.
  change (256 ^ N.of_nat 32)%N with (2 ^ 256)%N in E.
  rewrite !N.mod_small in E by assumption. exact E.
Qed.

Lemma app_inj_length {X} (a a' b b' : list X) :
  List.length a = List.length a' -> (a ++ b = a' ++ b')%list -> a = a' /\ b = b'.
Proof.
  revert a'. induction a as [|x a IH]; intros [|x' a'] Hl E;
    try discriminate Hl.
  - split; [reflexivity | exact E].
  - cbn in E. injection E as -> E. cbn in Hl. injection Hl as Hl.
    destruct (IH a' Hl E) as [-> ->]. split; reflexivity.
Qed.

(** The encoding determines the triple. *)
Lemma abiEncodeClaim_inj (i t i' t' : N) (d d' : bytes) :
  wellFormedClaim i t d -> wellFormedClaim i' t' d' ->
  abiEncodeClaim i t d = abiEncodeClaim i' t' d' ->
  i = i' /\ t = t' /\ d = d'.
Proof.
  intros (Hi & Ht & Hd) (Hi' & Ht' & Hd') E. unfold abiEncodeClaim in E.
  assert (Hw : forall v v', List.length (word v) = List.length (word v'))
    by (intros; unfold word; rewrite !length_bigEndian; reflexivity).
  destruct (app_inj_length _ _ _ _ (Hw i i') E) as [Ei E1].
  destruct (app_inj_length _ _ _ _ (Hw t t') E1) as [Et E2].
  destruct (app_inj_length _ _ _ _ (Hw 96%N 96%N) E2) as [_ E3].
  destruct (app_inj_length _ _ _ _ (Hw _ _) E3) as [El E4].
  assert (Hi2 : (2 ^ 160 < 2 ^ 256)%N) by (vm_compute; reflexivity).
  apply word_inj in Ei; [|lia|lia]. apply word_inj in Et; [|lia|lia].
  apply word_inj in El; [|lia|lia]. apply Nat2N.inj in El.
  unfold zeroPadRight in E4.
  destruct (app_inj_length _ _ _ _ El E4) as [Ed _].
  repeat split; assumption.
Qed.





End AbiCoder.

(** ** The ordering of the suite wiring *)


Lemma existsb_rev {X} (f : X -> bool) (l : list X) :
  existsb f (rev l) = existsb f l.
Proof.
  induction l as [|x l IH]; [reflexivity|].
  cbn [rev existsb]. rewrite existsb_app, IH. cbn. rewrite orb_false_r.
  apply orb_comm.
Qed.

Lemma warningsFor_rev role (tr : trace) : warningsFor role (rev tr) = warningsFor role tr.
Proof. unfold warningsFor. rewrite filter_rev, length_rev. reflexivity. Qed.


(** C4.  Role resolution.  For every role the key is looked up under
    TREX_<ROLE>_PRIVATE_KEY.  With a key in the environment the signer is the
    wallet of that key (or the exception of a string that is no key),
    whatever the pooled signer and the deployer are, and nothing is printed;
    without one the pooled signer is the signer when there is one; otherwise
    the deployer is the signer and the role's warning is printed.  In a run
    of the infrastructure script, which resolves the four roles against the
    pooled signers 1 to 4, the warning of a role is printed at most once,
    only when the role falls back, and exactly once when it does and the run
    gets through. *)
Theorem role_signer_precedence (h : host)
    (role : DeployTREXSuiteInfrastructure.RoleKey) :
  map DeployTREXSuiteInfrastructure.envKeyName
    [DeployTREXSuiteInfrastructure.tokenIssuer;
     DeployTREXSuiteInfrastructure.tokenAgent;
     DeployTREXSuiteInfrastructure.tokenAdmin;
     DeployTREXSuiteInfrastructure.claimIssuer]
  = ["TREX_TOKENISSUER_PRIVATE_KEY"; "TREX_TOKENAGENT_PRIVATE_KEY";
     "TREX_TOKENADMIN_PRIVATE_KEY"; "TREX_CLAIMISSUER_PRIVATE_KEY"]
  /\ (forall available deployer tr,
         DeployTREXSuiteInfrastructure.resolveRoleSigner role available deployer h tr =
         let key :=
           JS.nullish (env h (DeployTREXSuiteInfrastructure.envKeyName role)) "" in
         if JS.truthy key then
           match computeAddress h key with
           | Some a => (Returned (Wallet key a), tr)
           | None => (Thrown "invalid private key", tr)
           end
         else
           match available with
           | Some s => (Returned s, tr)
           | None =>
               (Returned deployer,
                ConsoleWarn
                  (DeployTREXSuiteInfrastructure.fallbackWarning role
                     (signerAddress deployer)) :: tr)
           end)
  /\ (warningsFor role (traceOf (run DeployTREXSuiteInfrastructure.main h))
      <= if fallsBack h role then 1 else 0)%nat
  /\ (isReturned (outcomeOf (run DeployTREXSuiteInfrastructure.main h)) = true ->
      warningsFor role (traceOf (run DeployTREXSuiteInfrastructure.main h))
      = if fallsBack h role then 1%nat else 0%nat).
Proof.
  split; [reflexivity|]. split; [intros; apply resolveRoleSigner_cases|].
  unfold traceOf. rewrite warningsFor_rev.
  exact (proj2 (main_infrastructure h) role).
Qed.

(** ** The sample hosts and the witnesses of the statements above *)

Section ToySignatures.
Import Ethers.




End ToySignatures.


Lemma role_signer_precedence_witness :
  let h := withAccounts
             (sampleHost [("TREX_TOKENAGENT_PRIVATE_KEY", "0xabc")]
                (Returned Ethers.AddressZero))
             [Account (sampleAddress 1); Account (sampleAddress 2);
              Account (sampleAddress 3)] in
  fallsBack h DeployTREXSuiteInfrastructure.tokenAdmin = true
  /\ warningsFor DeployTREXSuiteInfrastructure.tokenAdmin
       (traceOf (run DeployTREXSuiteInfrastructure.main h))
     = if fallsBack h DeployTREXSuiteInfrastructure.tokenAdmin then 1%nat else 0%nat.
Proof.
  intros h. split; [vm_compute; reflexivity|].
  apply (proj2 (proj2 (proj2
           (role_signer_precedence h DeployTREXSuiteInfrastructure.tokenAdmin)))).
  vm_compute. reflexivity.
Defined.

Lemma registration_uses_country_42_witness :
  let h := sampleHost [("AGENT_PRIVATE_KEY", "0xa11ce");
                       ("USER_WALLET", sampleAddress 7);
                       ("USER_IDENTITY_ADDRESS", sampleAddress 1045)]
             (Returned Ethers.AddressZero) in
  ("batchRegisterIdentity" = "batchRegisterIdentity"
   /\ exists wallet identity,
       [VArray [VString (sampleAddress 7)]; VArray [VString (sampleAddress 1045)];
        VArray [VNumber 42]]
       = [VArray [VString wallet]; VArray [VString identity]; VArray [VNumber 42]]
       /\ Ethers.getAddress (JS.nullish (env h "USER_WALLET") "") = Some wallet
       /\ env h "USER_IDENTITY_ADDRESS" = Some identity)
  /\ exists art addr wallet identity from res,
      In (Send art addr "batchRegisterIdentity"
            [VArray [VString wallet]; VArray [VString identity];
             VArray [VNumber 42]] from res)
         (traceOf (run RegisterIdentity.main h)).
Proof.
  intros h. split.
  - apply (proj1 (registration_uses_country_42 h)
             RegisterIdentity.identityRegistryAbi
             "0x51991f45EA1475C4C0eD37a9f615041a3b0bCc6C"
             "batchRegisterIdentity" _
             (Some (Wallet "0xa11ce" (toyAddressOf (toyKeyWord "0xa11ce"))))
             (Returned {| hash := "0x" ++ Ethers.hexOfBytes (Ethers.word 2) |})).
    vm_compute. do 2 right. left. reflexivity.
  - apply (proj2 (registration_uses_country_42 h)).
    unfold registrationInputsValid.
    split; [vm_compute; reflexivity|].
    split; [vm_compute; discriminate|].
    split; vm_compute; reflexivity.
Defined.

(** C8, the claim as stated fails on the full-suite script: with
    TREX_TOKEN_DECIMALS set to 19, which is out of range, the run raises no
    validation error; it deploys the token proxy with 19 decimals, after
    earlier deployments have reached the ledger, and gets through. *)
Lemma full_suite_accepts_19_decimals :
  let h := sampleHost [("TREX_TOKEN_DECIMALS", "19")] (Returned Ethers.AddressZero) in
  let tr := traceOf (run DeployFullSuite.main h) in
  validDecimals (toNumber h "19") = false
  /\ outcomeOf (run DeployFullSuite.main h) = Returned tt
  /\ exists arguments from address,
      nth 27 tr (ConsoleLog "") = Deploy "TokenProxy" arguments from (Returned address)
      /\ nth 5 arguments (VBool false) = VNumber 19
      /\ existsb ledgerEffect (firstn 27 tr) = true.
Proof.
  intros h tr. split; [vm_compute; reflexivity|].
  split; [vm_compute; reflexivity|].
  let e := eval vm_compute in (nth 27 tr (ConsoleLog "")) in
  assert (E : nth 27 tr (ConsoleLog "") = e) by (vm_compute; reflexivity).
  rewrite E. do 3 eexists. split; [reflexivity|].
  split; [reflexivity|]. vm_compute. reflexivity.
Defined.



(** ** Further properties of the single-property deployment *)

Section TrimTwice.
Import JS.

Lemma trimStart_fixed (s : string) : startsClean s -> trimStart s = s.
Proof.
  destruct s as [|c r]; [reflexivity|]. unfold startsClean. simpl.
  intros ->. reflexivity.
Qed.

Lemma trimEnd_fixed (s : string) : endsClean s -> trimEnd s = s.
Proof.
  induction s as [|c t IH]; [reflexivity|].
  unfold endsClean. destruct t as [|d t'].
  - simpl. intros ->. reflexivity.
  - intros H. change (lastChar (String c (String d t'))) with (lastChar (String d t')) in H.
    change (trimEnd (String c (String d t')))
      with (match trimEnd (String d t') with
            | EmptyString => if isWhiteSpace c then EmptyString else String c EmptyString
            | r' => String c r'
            end).
    rewrite (IH H). reflexivity.
Qed.

Lemma trim_trim (s : string) : trim (trim s) = trim s.
Proof.
  destruct (trim_clean s) as [Hs He].
  unfold trim at 1. rewrite (trimStart_fixed _ Hs). apply trimEnd_fixed. exact He.
Qed.

Lemma orElse_trim_fixed (o : option string) (d : string) :
  trim d = d -> d <> "" ->
  trim (orElse (option_map trim o) d) = orElse (option_map trim o) d
  /\ orElse (option_map trim o) d <> "".
Proof.
  intros Hd Hne. destruct o as [s|]; simpl; [|split; assumption].
  destruct (trim s) eqn:E; simpl; [split; assumption|].
  rewrite <- E. split; [apply trim_trim | rewrite E; discriminate].
Qed.

End TrimTwice.

Section PropertyTokenRun.
Import DeployPropertyToken.

Lemma requireAddress_returned (label value a : string) :
  requireAddress label value = Returned a -> Ethers.getAddress value = Some a.
Proof.
  unfold requireAddress, Ethers.isAddress.
  destruct (Ethers.getAddress value); simpl; congruence.
Qed.

Lemma requireAddress_thrown (label value message : string) :
  requireAddress label value = Thrown message ->
  Ethers.getAddress value = None
  /\ message = label ++ " must be a valid Ethereum address".
Proof.
  unfold requireAddress, Ethers.isAddress.
  destruct (Ethers.getAddress value); simpl; [discriminate|].
  intros E. injection E as <-. split; reflexivity.
Qed.

Lemma parseDecimals_returned (h : host) (n : JS.number) :
  parseDecimals (toNumber h) (env h "PROPERTY_TOKEN_DECIMALS") 0 = Returned n ->
  n = decimalsInput h /\ validDecimals (decimalsInput h) = true.
Proof.
  rewrite parseDecimals_spec. cbv zeta. change (JS.decimalZ 0) with "0".
  fold (decimalsInput h). destruct (validDecimals (decimalsInput h)); [|discriminate].
  intros E. injection E as <-. split; reflexivity.
Qed.

(** What the validations of a run that got past them say about the host. *)
Ltac inputs_known :=
  repeat match goal with
    | H : requireAddress _ _ = Returned _ |- _ =>
        apply requireAddress_returned in H
    | H : parseDecimals _ _ _ = Returned _ |- _ =>
        apply parseDecimals_returned in H; destruct H as [-> ?Hdecimals]
    | H : requireSalt _ = Returned _ |- _ =>
        apply requireSalt_inv in H; destruct H as [-> ?Hsalt]
    end.

Lemma main_events (h : host) : wp h main [] (fun o tr => Forall (propertyEvent h) tr).
Proof.
  unfold main, ensureContractDeployed, logSuite.
  repeat wp_step.
  all: cbv beta; inputs_known.
  all: repeat (apply Forall_cons; [cbn [propertyEvent]|]); try apply Forall_nil.
  all: try exact I.
  all: unfold factoryInput, ownerAddress, ownerInput, propertyTokenSymbol,
         propertyTokenName, saltInput in *.
  all: try assumption.
  all: try (repeat split; solve [reflexivity | assumption]).
  all: match goal with
       | H : addressOf (nth_error (accounts ?x) 0) = Returned _ |- _ =>
           destruct (nth_error (accounts x) 0) as [d|] eqn:Hd;
           [injection H as <- | discriminate H]
       end.
  all: split; [reflexivity|]; split; [assumption|]; split; [reflexivity|].
  all: eexists; eexists; split; [reflexivity|]; split; [reflexivity|].
  all: split; [|reflexivity].
  all: destruct (env h "PROPERTY_OWNER_ADDRESS");
    [|destruct (nth_error (accounts h) 1)];
    cbn [option_map] in *;
    match goal with
    | H : _ = Returned _ |- _ => injection H as <-
    end; assumption.
Qed.

Lemma main_validation (h : host) :
  wp h main [] (fun o tr => validationRule h o (rev tr)).
Proof.
  unfold main, ensureContractDeployed, logSuite.
  repeat wp_step.
  all: cbv beta; unfold validationRule; split;
    [ intros Hfactory
    | split; [intros Hledger | intros addr HIn; in_cases HIn] ].
  all: try discriminate Hledger.
  all: unfold factoryInput in *.
  all: try (match goal with
            | H : requireAddress "TREX factory address" _ = Thrown _ |- _ =>
                apply requireAddress_thrown in H; destruct H as [_ ->];
                split; reflexivity
            end).
  all: inputs_known.
  all: try congruence.
  all: try (injection HIn as <- ->;
            match goal with
            | H : ("0x" =? "0x") = false |- _ => discriminate H
            | _ => split; [reflexivity | split; reflexivity]
            end).
  all: unfold propertyInputsValid, factoryInput, ownerAddress, ownerInput, saltInput,
         propertyTokenName.
  all: split; [congruence|]; split; [assumption|]; split; [|assumption].
  all: destruct (env h "PROPERTY_OWNER_ADDRESS");
    [|destruct (nth_error (accounts h) 1);
      [|destruct (nth_error (accounts h) 0); [|discriminate]]];
    cbn [option_map addressOf] in *;
    try match goal with
    | H : Returned _ = Returned _ |- _ => injection H as <-
    end; congruence.
Qed.

Lemma kindsOf_app (a b : trace) : kindsOf (a ++ b)%list = (kindsOf a ++ kindsOf b)%list.
Proof.
  induction a as [|e a IH]; [reflexivity|]. cbn [List.app kindsOf].
  destruct (kindOf e); [cbn [List.app]|]; congruence.
Qed.

Lemma main_ledger_order (h : host) :
  wp h main []
    (fun o tr =>
       isPrefixOf (kindsOf (rev tr)) [KGetCode; KQuery; KSend; KWait] = true
       /\ (o = Returned tt ->
           kindsOf (rev tr) = [KGetCode; KQuery]
           \/ kindsOf (rev tr) = [KGetCode; KQuery; KSend; KWait])).
Proof.
  unfold main, ensureContractDeployed, logSuite.
  repeat wp_step.
  all: cbv beta; cbn [List.rev List.app kindsOf kindOf]; split; [reflexivity|].
  all: intros Hreturned; try discriminate Hreturned.
  all: first [left; reflexivity | right; reflexivity].
Qed.

Lemma event_of_run (h : host) (e : event) :
  In e (traceOf (run main h)) -> propertyEvent h e.
Proof.
  intros HIn. apply in_rev in HIn.
  exact (proj1 (Forall_forall _ _) (main_events h) e HIn).
Qed.


(** X1.  The single-property script checks its inputs before it reaches
    the ledger: a factory address that is no address ends the run with the
    validation error of the factory address and nothing has reached the
    node; and a run in which anything reached the node had a factory address
    and an owner address that normalise, decimals from 0 to 18 and a salt
    that is not blank. *)
Theorem property_inputs_checked_before_ledger (h : host) :
  (Ethers.getAddress (factoryInput h) = None ->
   outcomeOf (run main h)
   = Thrown "TREX factory address must be a valid Ethereum address"
   /\ existsb ledgerEffect (traceOf (run main h)) = false)
  /\ (existsb ledgerEffect (traceOf (run main h)) = true -> propertyInputsValid h).
Proof.
  destruct (main_validation h) as (Hfactory & Hledger & _).
  split; assumption.
Qed.

Lemma property_inputs_checked_before_ledger_witness :
  (let h := sampleHost [("TREX_FACTORY_ADDRESS", "0x1234")]
              (Returned Ethers.AddressZero) in
   outcomeOf (run main h)
   = Thrown "TREX factory address must be a valid Ethereum address"
   /\ existsb ledgerEffect (traceOf (run main h)) = false)
  /\ propertyInputsValid (sampleHost [] (Returned Ethers.AddressZero)).
Proof.
  split.
  - intros h. apply (proj1 (property_inputs_checked_before_ledger h)).
    vm_compute. reflexivity.
  - apply (proj2 (property_inputs_checked_before_ledger
                    (sampleHost [] (Returned Ethers.AddressZero)))).
    vm_compute. reflexivity.
Defined.

(** X2.  [ensureContractDeployed] in the run: the address whose code is
    read is the checksummed factory address; when the node reports no
    bytecode there ("0x"), the run ends with the error that names the
    address and the network (the network "unknown" when Hardhat gives no
    name, and the hint to start a node when the network is "hardhat"); the
    factory has not been asked anything and nothing was submitted. *)
Theorem missing_bytecode_stops_the_run (h : host) (addr : string) :
  In (GetCode addr (Returned "0x")) (traceOf (run main h)) ->
  Ethers.getAddress (factoryInput h) = Some addr
  /\ outcomeOf (run main h) = Thrown (noBytecodeMessage h addr)
  /\ existsb isQuery (traceOf (run main h)) = false
  /\ existsb submission (traceOf (run main h)) = false.
Proof.
  intros HIn. split.
  - exact (event_of_run h _ HIn).
  - destruct (main_validation h) as (_ & _ & Hcode). exact (Hcode addr HIn).
Qed.

Lemma missing_bytecode_stops_the_run_witness :
  let h := withNode (sampleHost [] (Returned Ethers.AddressZero)) None
             (Returned "0x") in
  outcomeOf (run main h)
  = Thrown ("TREX factory address (0xB7f8BC63BbcaD18155201308C8f3540b07f84F5e) has no contract bytecode on network "
            ++ quote ++ "unknown" ++ quote
            ++ ". Make sure the contract is deployed on the "
            ++ quote ++ "unknown" ++ quote ++ " network.")
  /\ existsb submission (traceOf (run main h)) = false.
Proof.
  intros h.
  assert (HIn : In (GetCode DEFAULT_FACTORY_PLACEHOLDER (Returned "0x"))
                  (traceOf (run main h)))
    by (vm_compute; in_trace).
  destruct (missing_bytecode_stops_the_run h _ HIn) as (_ & Hout & _ & Hsub).
  split; [exact Hout | exact Hsub].
Defined.

Lemma uniquePair_spec (a b : string) :
  NoDup (uniquePair a b)
  /\ (forall x, In x (uniquePair a b) <-> x = a \/ x = b)
  /\ hd_error (uniquePair a b) = Some a.
Proof.
  unfold uniquePair. destruct (a =? b) eqn:E.
  - apply String.eqb_eq in E. subst b. repeat split.
    + constructor; [intros []|constructor].
    + intros [<-|[]]. left. reflexivity.
    + intros [->| ->]; left; reflexivity.
  - apply String.eqb_neq in E. repeat split.
    + constructor; [intros [H|[]]; congruence|].
      constructor; [intros []|constructor].
    + intros [<-|[<-|[]]]; auto.
    + intros [->| ->]; cbn; auto.
Qed.

(** X3.  The owner of the property token.  In every [deployTREXSuite]
    request the owner is the checksummed form of PROPERTY_OWNER_ADDRESS when
    that variable is set (the signers do not matter then), otherwise of the
    address of the second signer when there is one, otherwise of the address
    of the deployer. *)
Theorem property_owner_precedence (h : host) (art addr : string)
    (arguments : list value) (from : option signer) (res : outcome transaction) :
  In (Send art addr "deployTREXSuite" arguments from res) (traceOf (run main h)) ->
  exists salt fields claims owner,
    arguments = [salt; VObject fields; claims]
    /\ field "owner" fields = Some (VString owner)
    /\ (forall v, env h "PROPERTY_OWNER_ADDRESS" = Some v ->
                  Ethers.getAddress v = Some owner)
    /\ (env h "PROPERTY_OWNER_ADDRESS" = None ->
        forall s, nth_error (accounts h) 1 = Some s ->
                  Ethers.getAddress (signerAddress s) = Some owner)
    /\ (env h "PROPERTY_OWNER_ADDRESS" = None ->
        nth_error (accounts h) 1 = None ->
        forall d, nth_error (accounts h) 0 = Some d ->
                  Ethers.getAddress (signerAddress d) = Some owner).
Proof.
  intros HIn. pose proof (event_of_run h _ HIn) as H. cbn [propertyEvent] in H.
  destruct H as (_ & _ & _ & deployer & owner & _ & _ & Howner & ->).
  do 3 eexists. exists owner. split; [reflexivity|]. split; [reflexivity|].
  unfold ownerAddress, ownerInput in Howner.
  repeat split.
  - intros v Hv. rewrite Hv in Howner. exact Howner.
  - intros Hv s Hs. rewrite Hv, Hs in Howner. exact Howner.
  - intros Hv Hs d Hd. rewrite Hv, Hs, Hd in Howner. exact Howner.
Qed.

Lemma property_owner_precedence_witness :
  let h := sampleHost [("PROPERTY_OWNER_ADDRESS", "52908400098527886E0F7030069857D2E4169EE7")]
             (Returned Ethers.AddressZero) in
  exists owner,
    Ethers.getAddress "52908400098527886E0F7030069857D2E4169EE7" = Some owner.
Proof.
  intros h.
  assert (HIn : exists e, find (sends "deployTREXSuite") (traceOf (run main h)) = Some e)
    by (vm_compute; eexists; reflexivity).
  destruct HIn as (e & He). apply find_some in He. destruct He as [HIn He].
  destruct e as [| | | | | | |art addr method arguments from res| | |]; try discriminate He.
  cbn [sends] in He. apply String.eqb_eq in He. subst method.
  destruct (property_owner_precedence h art addr arguments from res HIn)
    as (_ & _ & _ & owner & _ & _ & Henv & _).
  exists owner. apply Henv. reflexivity.
Defined.

(** X4.  The agents of the property token.  In every [deployTREXSuite]
    request the identity-registry agents and the token agents are the same
    list: the deployer's address first, then the owner's; each address once
    (one entry when the owner is the deployer), and no other address. *)
Theorem agents_are_deployer_and_owner (h : host) (art addr : string)
    (arguments : list value) (from : option signer) (res : outcome transaction) :
  In (Send art addr "deployTREXSuite" arguments from res) (traceOf (run main h)) ->
  exists salt fields claims deployer owner agents,
    arguments = [salt; VObject fields; claims]
    /\ nth_error (accounts h) 0 = Some deployer
    /\ from = Some deployer
    /\ field "owner" fields = Some (VString owner)
    /\ field "irAgents" fields = Some (VArray (map VString agents))
    /\ field "tokenAgents" fields = Some (VArray (map VString agents))
    /\ NoDup agents
    /\ (forall a, In a agents <-> a = signerAddress deployer \/ a = owner)
    /\ hd_error agents = Some (signerAddress deployer).
Proof.
  intros HIn. pose proof (event_of_run h _ HIn) as H. cbn [propertyEvent] in H.
  destruct H as (_ & _ & _ & deployer & owner & Hd & -> & _ & ->).
  destruct (uniquePair_spec (signerAddress deployer) owner) as (Hnd & Hin & Hhd).
  do 3 eexists. exists deployer, owner, (uniquePair (signerAddress deployer) owner).
  repeat split; try reflexivity; try assumption; apply Hin.
Qed.

Lemma agents_are_deployer_and_owner_witness :
  let h := sampleHost [] (Returned Ethers.AddressZero) in
  exists deployer agents,
    nth_error (accounts h) 0 = Some deployer
    /\ NoDup agents /\ hd_error agents = Some (signerAddress deployer).
Proof.
  intros h.
  assert (HIn : exists e, find (sends "deployTREXSuite") (traceOf (run main h)) = Some e)
    by (vm_compute; eexists; reflexivity).
  destruct HIn as (e & He). apply find_some in He. destruct He as [HIn He].
  destruct e as [| | | | | | |art addr method arguments from res| | |]; try discriminate He.
  cbn [sends] in He. apply String.eqb_eq in He. subst method.
  destruct (agents_are_deployer_and_owner h art addr arguments from res HIn)
    as (_ & _ & _ & deployer & _ & agents & _ & Hd & _ & _ & _ & _ & Hnd & _ & Hhd).
  exists deployer, agents. repeat split; assumption.
Defined.

(** X5.  What the single-property script submits.  Every transaction of a
    run is a [deployTREXSuite] call on the factory at the checksummed
    factory address, and it asks for a fresh suite: no identity-registry
    storage to reuse and no token identity (both the zero address), no
    compliance modules or settings, and claim details without topics,
    issuers or issuer claims. *)
Theorem suite_request_is_blank (h : host) (art addr method : string)
    (arguments : list value) (from : option signer) (res : outcome transaction) :
  In (Send art addr method arguments from res) (traceOf (run main h)) ->
  art = "ITREXFactory" /\ method = "deployTREXSuite"
  /\ Ethers.getAddress (factoryInput h) = Some addr
  /\ exists salt fields,
      arguments = [salt; VObject fields;
                   VObject [("claimTopics", VArray []); ("issuers", VArray []);
                            ("issuerClaims", VArray [])]]
      /\ field "irs" fields = Some (VString Ethers.AddressZero)
      /\ field "ONCHAINID" fields = Some (VString Ethers.AddressZero)
      /\ field "complianceModules" fields = Some (VArray [])
      /\ field "complianceSettings" fields = Some (VArray []).
Proof.
  intros HIn. pose proof (event_of_run h _ HIn) as H. cbn [propertyEvent] in H.
  destruct H as (-> & Haddr & -> & deployer & owner & _ & _ & _ & ->).
  split; [reflexivity|]. split; [reflexivity|]. split; [exact Haddr|].
  do 2 eexists. repeat split; reflexivity.
Qed.

Lemma suite_request_is_blank_witness :
  let h := sampleHost [] (Returned Ethers.AddressZero) in
  exists addr, Ethers.getAddress (factoryInput h) = Some addr.
Proof.
  intros h.
  assert (HIn : exists e, find (sends "deployTREXSuite") (traceOf (run main h)) = Some e)
    by (vm_compute; eexists; reflexivity).
  destruct HIn as (e & He). apply find_some in He. destruct He as [HIn He].
  destruct e as [| | | | | | |art addr method arguments from res| | |]; try discriminate He.
  destruct (suite_request_is_blank h art addr method arguments from res HIn)
    as (_ & _ & Haddr & _).
  exists addr. exact Haddr.
Defined.

(** X6.  The name and the symbol of the property token.  In every
    [deployTREXSuite] request the name is PROPERTY_TOKEN_NAME with the white
    space around it removed, and "Luxury Villa A4" when the variable is
    unset or blank; the symbol is PROPERTY_TOKEN_SYMBOL trimmed, and "LVA1"
    when it is unset or blank.  Neither is ever empty or starts or ends with
    white space. *)
Theorem token_name_and_symbol (h : host) (art addr : string)
    (arguments : list value) (from : option signer) (res : outcome transaction) :
  In (Send art addr "deployTREXSuite" arguments from res) (traceOf (run main h)) ->
  exists salt fields claims name symbol,
    arguments = [salt; VObject fields; claims]
    /\ field "name" fields = Some (VString name)
    /\ field "symbol" fields = Some (VString symbol)
    /\ name <> "" /\ JS.trim name = name
    /\ symbol <> "" /\ JS.trim symbol = symbol
    /\ name = match env h "PROPERTY_TOKEN_NAME" with
              | Some v => if JS.truthy (JS.trim v) then JS.trim v else "Luxury Villa A4"
              | None => "Luxury Villa A4"
              end
    /\ symbol = match env h "PROPERTY_TOKEN_SYMBOL" with
                | Some v => if JS.truthy (JS.trim v) then JS.trim v else "LVA1"
                | None => "LVA1"
                end.
Proof.
  intros HIn. pose proof (event_of_run h _ HIn) as H. cbn [propertyEvent] in H.
  destruct H as (_ & _ & _ & deployer & owner & _ & _ & _ & ->).
  do 3 eexists. exists (propertyTokenName h), (propertyTokenSymbol h).
  split; [reflexivity|]. split; [reflexivity|]. split; [reflexivity|].
  unfold propertyTokenName, propertyTokenSymbol.
  destruct (orElse_trim_fixed (env h "PROPERTY_TOKEN_NAME") "Luxury Villa A4")
    as [Hn1 Hn2]; [reflexivity | discriminate |].
  destruct (orElse_trim_fixed (env h "PROPERTY_TOKEN_SYMBOL") "LVA1")
    as [Hs1 Hs2]; [reflexivity | discriminate |].
  repeat split; try assumption.
  - destruct (env h "PROPERTY_TOKEN_NAME"); reflexivity.
  - destruct (env h "PROPERTY_TOKEN_SYMBOL"); reflexivity.
Qed.

Lemma token_name_and_symbol_witness :
  let h := sampleHost [("PROPERTY_TOKEN_NAME", "  Harbour Loft 7 ");
                       ("PROPERTY_TOKEN_SYMBOL", "   ")]
             (Returned Ethers.AddressZero) in
  exists name symbol, name = "Harbour Loft 7" /\ symbol = "LVA1".
Proof.
  intros h.
  assert (HIn : exists e, find (sends "deployTREXSuite") (traceOf (run main h)) = Some e)
    by (vm_compute; eexists; reflexivity).
  destruct HIn as (e & He). apply find_some in He. destruct He as [HIn He].
  destruct e as [| | | | | | |art addr method arguments from res| | |]; try discriminate He.
  cbn [sends] in He. apply String.eqb_eq in He. subst method.
  destruct (token_name_and_symbol h art addr arguments from res HIn)
    as (_ & _ & _ & name & symbol & _ & _ & _ & _ & _ & _ & _ & Hname & Hsymbol).
  exists name, symbol. split; [exact Hname | exact Hsymbol].
Defined.

(** X7.  What reaches the ledger, and in which order.  In every run of the
    single-property script the requests to the node are an initial part of:
    the [getCode] of the factory, the [getToken] query, the
    [deployTREXSuite] transaction, the wait for its receipt -- each at most
    once, and no contract is ever deployed by the script itself.  A run that
    ends normally either stopped after the query (an existing suite) or
    went through all four. *)
Theorem ledger_effects_in_order (h : host) :
  isPrefixOf (kindsOf (traceOf (run main h))) [KGetCode; KQuery; KSend; KWait] = true
  /\ (outcomeOf (run main h) = Returned tt ->
      kindsOf (traceOf (run main h)) = [KGetCode; KQuery]
      \/ kindsOf (traceOf (run main h)) = [KGetCode; KQuery; KSend; KWait]).
Proof. exact (main_ledger_order h). Qed.

Lemma ledger_effects_in_order_witness :
  let h := sampleHost [] (Returned (sampleAddress 77)) in
  kindsOf (traceOf (run main h)) = [KGetCode; KQuery]
  \/ kindsOf (traceOf (run main h)) = [KGetCode; KQuery; KSend; KWait].
Proof.
  intros h. apply (proj2 (ledger_effects_in_order h)). vm_compute. reflexivity.
Defined.

(** X8.  Salts.  A salt that [requireSalt] returned is returned unchanged
    when it is given again; the token name the script computes is always an
    acceptable salt, and its own; so with PROPERTY_TOKEN_SALT unset, every
    [getToken] query of a run asks about the token name. *)
Theorem token_name_is_a_valid_salt (h : host) :
  (forall input salt,
      requireSalt input = Returned salt -> requireSalt salt = Returned salt)
  /\ requireSalt (propertyTokenName h) = Returned (propertyTokenName h)
  /\ (env h "PROPERTY_TOKEN_SALT" = None ->
      forall art addr arguments r,
        In (Query art addr "getToken" arguments r) (traceOf (run main h)) ->
        arguments = [VString (propertyTokenName h)]).
Proof.
  assert (Hfixed : forall s, s <> "" -> JS.trim s = s -> requireSalt s = Returned s).
  { intros s Hne Ht. unfold requireSalt. cbv zeta. rewrite Ht.
    destruct s; [congruence | reflexivity]. }
  destruct (orElse_trim_fixed (env h "PROPERTY_TOKEN_NAME") "Luxury Villa A4")
    as [Hn1 Hn2]; [reflexivity | discriminate |].
  fold (propertyTokenName h) in Hn1, Hn2.
  split; [|split].
  - intros input salt H. apply requireSalt_inv in H. destruct H as [-> Hne].
    apply Hfixed; [exact Hne | apply trim_trim].
  - apply Hfixed; assumption.
  - intros Hsalt art addr arguments r HIn.
    pose proof (event_of_run h _ HIn) as H. cbn [propertyEvent] in H.
    destruct H as (_ & _ & _ & ->). unfold saltInput. rewrite Hsalt.
    cbn [JS.nullish]. rewrite Hn1. reflexivity.
Qed.

Lemma token_name_is_a_valid_salt_witness :
  requireSalt "villa-1" = Returned "villa-1"
  /\ (let h := sampleHost [("PROPERTY_TOKEN_NAME", " Harbour Loft 7 ")]
                 (Returned Ethers.AddressZero) in
      [VString "Harbour Loft 7"] = [VString (propertyTokenName h)]).
Proof.
  split.
  - apply (proj1 (token_name_is_a_valid_salt (sampleHost [] (Returned Ethers.AddressZero)))
             "  villa-1 " "villa-1").
    vm_compute. reflexivity.
  - intros h.
    apply (proj2 (proj2 (token_name_is_a_valid_salt h)) eq_refl
             "ITREXFactory" DEFAULT_FACTORY_PLACEHOLDER _ (Returned Ethers.AddressZero)).
    vm_compute. in_trace.
Defined.

(** X9.  The loop over the logs of a receipt stops at the first log it can
    decode: [extractSuiteAddresses] yields a suite exactly when some log
    parses to a TREXSuiteDeployed event with six readable fields, and the
    suite is that of the first such log -- whatever the logs before it are
    (logs of other contracts, other events, TREXSuiteDeployed events with a
    field that cannot be read) and whatever comes after it. *)
Theorem extract_first_decodable (parse : log -> option parsedLog) (ls : list log) :
  match extractSuiteAddresses parse ls with
  | Some suite =>
      exists before l after,
        ls = (before ++ l :: after)%list
        /\ Forall (fun x => decodes parse x = None) before
        /\ decodes parse l = Some suite
  | None => Forall (fun x => decodes parse x = None) ls
  end.
Proof.
  induction ls as [|l rest IH]; [constructor|].
  cbn [extractSuiteAddresses].
  assert (Hskip : decodes parse l = None ->
            match extractSuiteAddresses parse rest with
            | Some suite =>
                exists before l0 after,
                  (l :: rest = before ++ l0 :: after)%list
                  /\ Forall (fun x => decodes parse x = None) before
                  /\ decodes parse l0 = Some suite
            | None => Forall (fun x => decodes parse x = None) (l :: rest)
            end).
  { intros Hl. destruct (extractSuiteAddresses parse rest) as [suite|].
    - destruct IH as (before & l0 & after & -> & Hb & Hl0).
      exists (l :: before), l0, after. repeat split; [constructor|]; assumption.
    - constructor; assumption. }
  assert (Hskip0 : forall suite, decodes parse l = suite -> decodes parse l = suite)
    by (intros suite H; exact H).
  unfold decodes in Hskip at 1. unfold decodes in Hskip0 at 1.
  destruct (parse l) as [parsed|]; [|apply Hskip; reflexivity].
  destruct (name parsed =? "TREXSuiteDeployed") eqn:En; [|apply Hskip; reflexivity].
  destruct (suiteOfArgs (args parsed)) as [suite|e] eqn:Es; [|apply Hskip; reflexivity].
  exists [], l, rest. split; [reflexivity|]. split; [constructor|].
  exact (Hskip0 _ eq_refl).
Qed.

End PropertyTokenRun.

Lemma truthy_true (s : string) : JS.truthy s = true <-> s <> "".
Proof. destruct s; simpl; split; congruence. Qed.

Ltac truthy_known :=
  repeat match goal with
    | H : negb _ = true |- _ => apply negb_true_iff in H
    | H : negb _ = false |- _ => apply negb_false_iff in H
    | H : JS.truthy _ = true |- _ => apply truthy_true in H
    | H : JS.truthy _ = false |- _ => apply truthy_false in H
    end.

(** ** Further properties of the identity registration *)

Section RegistrationRun.
Import RegisterIdentity.

Lemma registration_events (h : host) :
  wp h main [] (fun o tr => Forall (registrationEvent h) tr).
Proof.
  unfold main.
  repeat wp_step.
  all: cbv beta.
  all: repeat (apply Forall_cons; [cbn [registrationEvent]|]); try apply Forall_nil.
  all: try exact I.
  all: fold (agentKey h) in *.
  all: split; [reflexivity|]; split; [reflexivity|].
  all: exists (JS.nullish (agentKey h) ""), a0.
  all: split; [apply truthy_nullish; apply negb_false_iff; assumption|].
  all: split; [assumption | reflexivity].
Qed.

Lemma requireAddress_thrown' (label value message : string) :
  requireAddress label value = Thrown message ->
  message = label ++ " must be a valid Ethereum address".
Proof.
  unfold requireAddress, Ethers.isAddress.
  destruct (Ethers.getAddress value); simpl; congruence.
Qed.

Lemma registration_checks (h : host) :
  wp h main [] (fun o tr => registrationChecks h o (rev tr)).
Proof.
  unfold main, parseUserWallet.
  repeat wp_step.
  all: cbv beta; unfold registrationChecks; cbv zeta.
  all: fold (agentKey h) in *.
  all: truthy_known.
  all: repeat match goal with
         | H : requireAddress _ _ = Returned _ |- _ =>
             apply requireAddress_inv in H
         | H : requireAddress _ _ = Thrown _ |- _ =>
             pose proof (requireAddress_isAddress _ _ _ H);
             apply requireAddress_thrown' in H
         end.
  all: repeat match goal with
         | |- _ /\ _ => split
         end; intros.
  all: try congruence.
  all: try (split; [reflexivity | eexists; reflexivity]).
  all: try (match goal with
            | H : Ethers.getAddress ?v = Some _, H' : Ethers.isAddress ?v = false |- _ =>
                unfold Ethers.isAddress in H'; rewrite H in H'; discriminate H'
            end).
  all: try (exfalso;
            match goal with
            | H : ~ registrationInputsValid _ |- _ => apply H
            end;
            unfold registrationInputsValid; repeat split;
            try (apply truthy_true; assumption);
            try congruence;
            try (unfold Ethers.isAddress;
                 match goal with
                 | H : Ethers.getAddress _ = Some _ |- _ => rewrite H; reflexivity
                 end)).
  all: try reflexivity.
  all: try (subst; reflexivity).
  all: match goal with
       | H : ?w = "", H' : Ethers.isAddress ?w = true |- _ =>
           rewrite H in H'; vm_compute in H'; discriminate H'
       end.
Qed.

Lemma registration_report (h : host) :
  wp h main [] (fun o tr => registrationReport o (rev tr)).
Proof.
  unfold main, parseUserWallet.
  repeat wp_step.
  all: cbv beta; unfold registrationReport;
    cbn [List.rev List.app kindsOf kindOf];
    split; [reflexivity|]; split;
    [ intros art addr method arguments from res HIn; in_cases HIn
    | intros Hreturned; try discriminate Hreturned; reflexivity ].
  all: injection HIn as <- <- <- <- <- <-.
  all: try (split; reflexivity).
  all: eexists; split; [in_trace|]; cbv beta iota.
  all: first [reflexivity | split; [reflexivity | in_trace]].
Qed.

Lemma event_of_registration (h : host) (e : event) :
  In e (traceOf (run main h)) -> registrationEvent h e.
Proof.
  intros HIn. apply in_rev in HIn.
  exact (proj1 (Forall_forall _ _) (registration_events h) e HIn).
Qed.

(** X10.  The registration script checks its inputs in a fixed order, each
    with an error of its own, and has done nothing -- no output, no request
    -- when one of them fails: the agent key (AGENT_PRIVATE_KEY, and
    PRIVATE_KEY only when that is unset: an AGENT_PRIVATE_KEY set to the
    empty string counts as missing whatever PRIVATE_KEY holds), the user
    wallet (required, then an address), the identity address (required, then
    an address), and last the key itself. *)
Theorem registration_fails_fast (h : host) :
  let key := JS.nullish (agentKey h) "" in
  let wallet := JS.nullish (env h "USER_WALLET") "" in
  let identity := JS.nullish (env h "USER_IDENTITY_ADDRESS") "" in
  (key = "" -> outcomeOf (run main h) = Thrown missingKeyMessage)
  /\ (env h "AGENT_PRIVATE_KEY" = Some "" ->
      outcomeOf (run main h) = Thrown missingKeyMessage)
  /\ (key <> "" -> wallet = "" ->
      outcomeOf (run main h) = Thrown walletRequiredMessage)
  /\ (key <> "" -> wallet <> "" -> Ethers.isAddress wallet = false ->
      outcomeOf (run main h)
      = Thrown "User wallet address (from USER_WALLET env) must be a valid Ethereum address")
  /\ (key <> "" -> Ethers.isAddress wallet = true -> identity = "" ->
      outcomeOf (run main h)
      = Thrown "Missing USER_IDENTITY_ADDRESS in environment. Provide the new Identity Contract Address from the first script.")
  /\ (key <> "" -> Ethers.isAddress wallet = true -> identity <> "" ->
      Ethers.isAddress identity = false ->
      outcomeOf (run main h)
      = Thrown "Please paste the new Identity Contract Address from the first script.")
  /\ (~ registrationInputsValid h ->
      traceOf (run main h) = []
      /\ exists message, outcomeOf (run main h) = Thrown message).
Proof.
  destruct (registration_checks h) as (H1 & H2 & H3 & H4 & H5 & H6).
  cbv zeta. repeat split; try assumption.
  - intros Hempty. apply H1. unfold agentKey. rewrite Hempty. reflexivity.
  - apply H6; assumption.
  - apply H6; assumption.
Qed.

Lemma registration_fails_fast_witness :
  (let h := sampleHost [("AGENT_PRIVATE_KEY", ""); ("PRIVATE_KEY", "0xa11ce");
                        ("USER_WALLET", sampleAddress 7);
                        ("USER_IDENTITY_ADDRESS", sampleAddress 1045)]
              (Returned Ethers.AddressZero) in
   outcomeOf (run main h) = Thrown missingKeyMessage)
  /\ (let h := sampleHost [("PRIVATE_KEY", "0xa11ce"); ("USER_WALLET", "0x1234")]
                 (Returned Ethers.AddressZero) in
      outcomeOf (run main h)
      = Thrown "User wallet address (from USER_WALLET env) must be a valid Ethereum address")
  /\ (let h := sampleHost [("PRIVATE_KEY", "0xa11ce");
                           ("USER_WALLET", sampleAddress 7);
                           ("USER_IDENTITY_ADDRESS", "alice")]
                 (Returned Ethers.AddressZero) in
      traceOf (run main h) = []).
Proof.
  split; [|split]; intros h.
  - apply (proj1 (proj2 (registration_fails_fast h))). reflexivity.
  - apply (proj1 (proj2 (proj2 (proj2 (registration_fails_fast h))))).
    + vm_compute. discriminate.
    + vm_compute. discriminate.
    + vm_compute. reflexivity.
  - apply (proj2 (proj2 (proj2 (proj2 (proj2 (proj2 (registration_fails_fast h))))))).
    unfold registrationInputsValid. intros (_ & _ & _ & Hid).
    vm_compute in Hid. discriminate Hid.
Defined.

(** X11.  Who registers, and where.  Every transaction of the registration
    script goes to the registry at IDENTITY_REGISTRY_ADDRESS, taken as it is
    given (it is not validated), or at the default registry when the
    variable is unset; it is signed by the wallet of the agent key, which is
    AGENT_PRIVATE_KEY when that is set and PRIVATE_KEY otherwise.  The
    script deploys nothing and queries nothing. *)
Theorem registration_sender_and_target (h : host) (e : event) :
  In e (traceOf (run main h)) ->
  match e with
  | Send art addr method arguments from res =>
      art = identityRegistryAbi
      /\ addr = JS.nullish (env h "IDENTITY_REGISTRY_ADDRESS")
                  "0x51991f45EA1475C4C0eD37a9f615041a3b0bCc6C"
      /\ exists key a,
          computeAddress h key = Some a /\ from = Some (Wallet key a)
          /\ match env h "AGENT_PRIVATE_KEY" with
             | Some k => key = k
             | None => env h "PRIVATE_KEY" = Some key
             end
  | Wait _ _ | ConsoleLog _ => True
  | _ => False
  end.
Proof.
  intros HIn. pose proof (event_of_registration h e HIn) as H.
  destruct e; cbn [registrationEvent] in H; try exact H.
  destruct H as (-> & -> & key & a & Hkey & Ha & ->).
  split; [reflexivity|]. split; [reflexivity|].
  exists key, a. split; [exact Ha|]. split; [reflexivity|].
  unfold agentKey in Hkey. destruct (env h "AGENT_PRIVATE_KEY"); congruence.
Qed.

Lemma registration_sender_and_target_witness :
  let h := sampleHost [("AGENT_PRIVATE_KEY", "0xa11ce"); ("PRIVATE_KEY", "0xb0b");
                       ("IDENTITY_REGISTRY_ADDRESS", "registry.eth");
                       ("USER_WALLET", sampleAddress 7);
                       ("USER_IDENTITY_ADDRESS", sampleAddress 1045)]
             (Returned Ethers.AddressZero) in
  exists a, computeAddress h "0xa11ce" = Some a.
Proof.
  intros h.
  assert (HIn : exists e, find (sends "batchRegisterIdentity") (traceOf (run main h)) = Some e)
    by (vm_compute; eexists; reflexivity).
  destruct HIn as (e & He). apply find_some in He. destruct He as [HIn He].
  pose proof (registration_sender_and_target h e HIn) as H.
  destruct e as [| | | | | | |art addr method arguments from res| | |]; try discriminate He.
  destruct H as (_ & _ & key & a & Ha & _ & Hkey).
  cbv in Hkey. subst key. exists a. exact Ha.
Defined.

(** X12.  How a registration ends.  A run submits at most one transaction
    and waits at most once, in that order.  When the submission fails the
    run ends with that failure, without waiting; when the wait fails the run
    ends with that failure; the run ends normally only after both went
    through, and it has then printed the hash of the transaction. *)
Theorem registration_report_rule (h : host) :
  isPrefixOf (kindsOf (traceOf (run main h))) [KSend; KWait] = true
  /\ (forall art addr method arguments from res,
         In (Send art addr method arguments from res) (traceOf (run main h)) ->
         match res with
         | Thrown e =>
             outcomeOf (run main h) = Thrown e
             /\ kindsOf (traceOf (run main h)) = [KSend]
         | Returned tx =>
             exists r,
               In (Wait tx r) (traceOf (run main h))
               /\ match r with
                  | Thrown e => outcomeOf (run main h) = Thrown e
                  | Returned _ =>
                      outcomeOf (run main h) = Returned tt
                      /\ In (ConsoleLog ("Transaction successful: " ++ hash tx))
                            (traceOf (run main h))
                  end
         end)
  /\ (outcomeOf (run main h) = Returned tt ->
      kindsOf (traceOf (run main h)) = [KSend; KWait]).
Proof. exact (registration_report h). Qed.

Lemma registration_report_rule_witness :
  let h := sampleHost [("AGENT_PRIVATE_KEY", "0xa11ce");
                       ("USER_WALLET", sampleAddress 7);
                       ("USER_IDENTITY_ADDRESS", sampleAddress 1045)]
             (Returned Ethers.AddressZero) in
  kindsOf (traceOf (run main h)) = [KSend; KWait].
Proof.
  intros h. apply (proj2 (proj2 (registration_report_rule h))).
  vm_compute. reflexivity.
Defined.

End RegistrationRun.

(** ** The deployment of one identity *)

Section IdentityRun.
Import DeployIdentity.

Lemma identity_events (h : host) :
  wp h main [] (fun o tr => Forall (identityEvent h) tr).
Proof.
  unfold main, parseUserWallet.
  repeat wp_step.
  all: cbv beta.
  all: repeat (apply Forall_cons; [cbn [identityEvent]|]); try apply Forall_nil.
  all: try exact I.
  all: fold (agentKey h) in *.
  all: split; [reflexivity|].
  all: eexists; exists (JS.nullish (agentKey h) ""), a0.
  all: split; [reflexivity|].
  all: split;
    [ match goal with
      | H : requireAddress _ _ = Returned _ |- _ =>
          unfold requireAddress, Ethers.isAddress in H;
          destruct (Ethers.getAddress _); [cbn in H; congruence | discriminate H]
      end |].
  all: split; [apply truthy_nullish; apply negb_false_iff; assumption|].
  all: split; [assumption | reflexivity].
Qed.

Lemma identity_report (h : host) :
  wp h main [] (fun o tr => identityReport h o (rev tr)).
Proof.
  unfold main, parseUserWallet.
  repeat wp_step.
  all: cbv beta; unfold identityReport; cbv zeta;
    cbn [List.rev List.app kindsOf kindOf].
  all: fold (agentKey h) in *.
  all: truthy_known.
  all: split; [reflexivity|].
  all: split; [intros Hkey0; try congruence; split; reflexivity|].
  all: split;
    [ intros Hkey1 Hwallet;
      try (split; [eexists; reflexivity | reflexivity]);
      match goal with
      | H : requireAddress _ ?v = Returned _ |- _ =>
          unfold requireAddress in H; rewrite Hwallet in H; discriminate H
      end |].
  all: split;
    [ intros art arguments from res HIn; in_cases HIn
    | intros Hreturned; try discriminate Hreturned; reflexivity ].
  all: injection HIn as <- <- <- <-.
  all: try reflexivity.
  all: eexists; split; [in_trace|]; cbv beta iota.
  all: first [reflexivity | split; [reflexivity | in_trace]].
Qed.

Lemma event_of_identity (h : host) (e : event) :
  In e (traceOf (run main h)) -> identityEvent h e.
Proof.
  intros HIn. apply in_rev in HIn.
  exact (proj1 (Forall_forall _ _) (identity_events h) e HIn).
Qed.

(** X13.  What the identity script deploys.  Every deployment of a run is
    an OnchainID identity proxy for the implementation authority at
    IDENTITY_IMPLEMENTATION_AUTHORITY (taken as given, the authority of the
    Arbitrum Sepolia deployment when unset) whose management key is the
    checksummed USER_WALLET; it is signed by the wallet of the agent key,
    AGENT_PRIVATE_KEY when that is set and PRIVATE_KEY otherwise.  The
    script sends no transaction and asks the ledger nothing else. *)
Theorem identity_is_deployed_for_the_user (h : host) (e : event) :
  In e (traceOf (run main h)) ->
  match e with
  | Deploy art arguments from res =>
      art = "OnchainID.IdentityProxy"
      /\ exists wallet key a,
          arguments =
          [VString (JS.nullish (env h "IDENTITY_IMPLEMENTATION_AUTHORITY")
                      "0xd436Ac872F300c2b163D2d8ecBB1498AbEEe1DdC");
           VString wallet]
          /\ Ethers.getAddress (JS.nullish (env h "USER_WALLET") "") = Some wallet
          /\ computeAddress h key = Some a /\ from = Some (Wallet key a)
          /\ match env h "AGENT_PRIVATE_KEY" with
             | Some k => key = k
             | None => env h "PRIVATE_KEY" = Some key
             end
  | Deployed _ _ | ConsoleLog _ => True
  | _ => False
  end.
Proof.
  intros HIn. pose proof (event_of_identity h e HIn) as H.
  destruct e; cbn [identityEvent] in H; try exact H.
  destruct H as (-> & wallet & key & a & -> & Hwallet & Hkey & Ha & ->).
  split; [reflexivity|]. exists wallet, key, a.
  repeat split; try assumption; try reflexivity.
  unfold agentKey in Hkey. destruct (env h "AGENT_PRIVATE_KEY"); congruence.
Qed.

Lemma identity_is_deployed_for_the_user_witness :
  let h := sampleHost [("PRIVATE_KEY", "0xa11ce");
                       ("USER_WALLET", "0x52908400098527886e0f7030069857d2e4169ee7")]
             (Returned Ethers.AddressZero) in
  exists wallet,
    Ethers.getAddress "0x52908400098527886e0f7030069857d2e4169ee7" = Some wallet.
Proof.
  intros h.
  assert (HIn : exists e, find submission (traceOf (run main h)) = Some e)
    by (vm_compute; eexists; reflexivity).
  destruct HIn as (e & He). apply find_some in He. destruct He as [HIn He].
  pose proof (identity_is_deployed_for_the_user h e HIn) as H.
  destruct e as [| | | | |art arguments from res| | | | |]; try discriminate He;
    try contradiction H.
  destruct H as (_ & wallet & _ & _ & _ & Hwallet & _).
  exists wallet. exact Hwallet.
Defined.

(** X14.  How the identity script ends.  A run deploys at most one
    contract and then waits for it, once.  Without an agent key, or with a
    USER_WALLET that is no address, the run ends with an exception before
    anything is printed or deployed.  When the deployment or the wait fails
    the run ends with that failure; it ends normally only after both went
    through, and it has then printed the address the deployment returned as
    the new identity. *)
Theorem identity_deployment_report (h : host) :
  let key := JS.nullish (agentKey h) "" in
  let wallet := JS.nullish (env h "USER_WALLET") "" in
  isPrefixOf (kindsOf (traceOf (run main h))) [KDeploy; KDeployed] = true
  /\ (key = "" ->
      outcomeOf (run main h) = Thrown missingKeyMessage
      /\ traceOf (run main h) = [])
  /\ (key <> "" -> Ethers.isAddress wallet = false ->
      (exists message, outcomeOf (run main h) = Thrown message)
      /\ traceOf (run main h) = [])
  /\ (forall art arguments from res,
         In (Deploy art arguments from res) (traceOf (run main h)) ->
         match res with
         | Thrown e => outcomeOf (run main h) = Thrown e
         | Returned identity =>
             exists r,
               In (Deployed identity r) (traceOf (run main h))
               /\ match r with
                  | Thrown e => outcomeOf (run main h) = Thrown e
                  | Returned _ =>
                      outcomeOf (run main h) = Returned tt
                      /\ In (ConsoleLog ("   New Identity Contract Address: "
                                         ++ identity))
                            (traceOf (run main h))
                  end
         end)
  /\ (outcomeOf (run main h) = Returned tt ->
      kindsOf (traceOf (run main h)) = [KDeploy; KDeployed]).
Proof. exact (identity_report h). Qed.

Lemma identity_deployment_report_witness :
  (let h := sampleHost [("USER_WALLET", sampleAddress 7)]
              (Returned Ethers.AddressZero) in
   outcomeOf (run main h) = Thrown missingKeyMessage /\ traceOf (run main h) = [])
  /\ (let h := sampleHost [("AGENT_PRIVATE_KEY", "0xa11ce");
                           ("USER_WALLET", sampleAddress 7)]
                 (Returned Ethers.AddressZero) in
      kindsOf (traceOf (run main h)) = [KDeploy; KDeployed]).
Proof.
  split; intros h.
  - apply (proj1 (proj2 (identity_deployment_report h))). reflexivity.
  - apply (proj2 (proj2 (proj2 (proj2 (identity_deployment_report h))))).
    vm_compute. reflexivity.
Defined.

End IdentityRun.

(** ** Further properties of the infrastructure script *)

Lemma countCompleted_rev (art method : string) (tr : trace) :
  countCompleted art method (rev tr) = countCompleted art method tr.
Proof. unfold countCompleted. rewrite filter_rev, length_rev. reflexivity. Qed.

Lemma wiringCompleted_rev (tr : trace) : wiringCompleted (rev tr) = wiringCompleted tr.
Proof. unfold wiringCompleted. rewrite !countCompleted_rev. reflexivity. Qed.

Lemma countCompleted_submissions (art method : string) (tr : trace) :
  countCompleted art method tr
  = countCompletedL art method (map labelOf (filter submission tr)).
Proof.
  unfold countCompleted, countCompletedL.
  induction tr as [|e tr IH]; [reflexivity|].
  destruct e as [| | | | | | |art' addr' method' arguments' from' res'| | |];
    cbn [filter completed submission map labelOf completedL]; try exact IH.
  destruct res'; cbn [isReturned]; [|exact IH].
  destruct ((art' =? art) && (method' =? method)); cbn [List.length]; congruence.
Qed.

(** *** Invariants of a run

    A property of every effect of a run is checked effect by effect: each
    rule asks for the property of the one effect its construct adds and
    hands on the property of the trace so far. *)

Section Invariants.

Context {A : Type} (h : host) (P : event -> Prop).

Lemma inv_perform (answer : host -> nat -> outcome A) (record : outcome A -> event)
    tr (Q : outcome A -> trace -> Prop) :
  Forall P tr ->
  (forall r, P (record r)) ->
  (forall r tr', Forall P tr' -> Q r tr') ->
  wp h (perform answer record) tr Q.
Proof.
  intros Htr Hr HQ. apply wp_perform. intros r. apply HQ.
  constructor; [apply Hr | exact Htr].
Qed.

End Invariants.

Section InvariantsEffects.

Context (h : host) (P : event -> Prop).

Lemma inv_emit e tr (Q : outcome unit -> trace -> Prop) :
  Forall P tr -> P e ->
  (forall tr', Forall P tr' -> Q (Returned tt) tr') ->
  wp h (emit e) tr Q.
Proof.
  intros Htr He HQ. apply wp_emit. apply HQ. constructor; assumption.
Qed.

Lemma inv_getSigners tr (Q : outcome (list signer) -> trace -> Prop) :
  Forall P tr -> P (GetSigners (accounts h)) ->
  (forall tr', Forall P tr' -> Q (Returned (accounts h)) tr') ->
  wp h getSigners tr Q.
Proof.
  intros Htr He HQ. apply wp_getSigners. apply HQ. constructor; assumption.
Qed.

Lemma inv_createRandom tr (Q : outcome signer -> trace -> Prop) :
  Forall P tr ->
  (forall w, P (CreateRandom w)) ->
  (forall n key address tr',
      randomWallet h n = (key, address) ->
      Forall P tr' -> Q (Returned (Wallet key address)) tr') ->
  wp h createRandom tr Q.
Proof.
  intros Htr He HQ. unfold wp, createRandom. cbn [fst snd].
  apply (HQ (List.length tr)).
  - apply surjective_pairing.
  - constructor; [apply He | exact Htr].
Qed.

End InvariantsEffects.

(** One step of the check of an invariant; [check] proves the property of
    the effect at hand. *)
Ltac inv_head check m :=
  lazymatch m with
  | perform _ _ =>
      eapply inv_perform; [eassumption | intros ?r; check | intros ?r ?tr ?Hinv]
  | emit _ =>
      eapply inv_emit; [eassumption | check | intros ?tr ?Hinv]
  | getSigners =>
      eapply inv_getSigners; [eassumption | check | intros ?tr ?Hinv];
      repeat match goal with
             | Ha : accounts ?x = _ |- context [accounts ?x] => rewrite Ha
             end
  | createRandom =>
      eapply inv_createRandom;
      [eassumption | intros ?w; check | intros ?n ?key ?address ?tr ?Hrandom ?Hinv]
  | _ => wp_head m
  end.

Ltac inv_step check :=
  lazymatch goal with
  | |- wp _ ?m _ _ => inv_head check m
  | |- match ?o with _ => _ end =>
      tryif is_var o then destruct o else destruct o eqn:?
  | |- (fun _ => _) _ _ => cbv beta
  | |- (fun _ => _) _ => cbv beta
  end;
  cbv beta iota delta
    [DeployFullSuite.data DeployFullSuite.issuer DeployFullSuite.topic
     DeployFullSuite.scheme DeployFullSuite.identity DeployFullSuite.signature].

Section InfrastructureRun.
Import DeployTREXSuiteInfrastructure.

(** A role resolution returns the role's signer, and adds at most a
    warning to the trace. *)
Lemma wp_resolveRoleSigner_signer (h : host) (role : RoleKey)
    (available : option signer) (deployer : signer) (tr : trace)
    (Q : outcome signer -> trace -> Prop) :
  Q (Thrown "invalid private key") tr ->
  (forall s tr',
      roleSigner h role available deployer = Some s ->
      (forall P : event -> Prop,
          (forall w, P (ConsoleWarn w)) -> Forall P tr -> Forall P tr') ->
      filter submission tr' = filter submission tr ->
      filter isTable tr' = filter isTable tr ->
      Q (Returned s) tr') ->
  wp h (resolveRoleSigner role available deployer) tr Q.
Proof.
  intros Hthrown Hreturned. unfold wp. rewrite resolveRoleSigner_cases.
  unfold roleSigner in Hreturned. unfold hasEnvKey. cbv zeta in Hreturned.
  destruct (JS.truthy _) eqn:Hkey.
  - destruct (computeAddress h _) eqn:Ha; cbn [fst snd]; [|exact Hthrown].
    apply Hreturned; [reflexivity | auto | reflexivity | reflexivity].
  - destruct available as [s|]; cbn [fst snd].
    + apply Hreturned; [reflexivity | auto | reflexivity | reflexivity].
    + apply Hreturned; [reflexivity | | reflexivity | reflexivity].
      intros P Hw Htr. constructor; [apply Hw | exact Htr].
Qed.

Ltac wp_summary m ::=
  lazymatch m with
  | resolveRoleSigner _ _ _ =>
      apply wp_resolveRoleSigner_signer;
      [|intros ?signer ?tr ?Hrole ?Hforall ?Hsubs ?Htables]
  end.

Lemma infrastructure_outcome (h : host) :
  wp h main [] (infrastructureOutcome h).
Proof.
  unfold main, logDeployment.
  repeat wp_step.
  all: unfold infrastructureOutcome.
  all: split; [intros Hnone; try congruence; split; reflexivity|].
  all: split;
    [ intros Hsome Hprovider;
      try (rewrite Hprovider in *; discriminate);
      try congruence; split; reflexivity |].
  all: split; [intros Hdecimals; try congruence; eexists; reflexivity|].
  all: cbn [isReturned]; intros Hreturned; try discriminate Hreturned.
  all: unfold wiringCompleted; rewrite !countCompleted_submissions.
  all: cbn [filter submission isTable].
  all: repeat match goal with
         | H : filter submission ?t = _ |- context [filter submission ?t] => rewrite H
         | H : filter isTable ?t = _ |- context [filter isTable ?t] => rewrite H
         end.
  all: cbn [filter submission isTable map labelOf isReturned].
  all: vm_compute; repeat split.
Qed.

Lemma inv_resolveRoleSigner (h : host) (P : event -> Prop) (role : RoleKey)
    (available : option signer) (deployer : signer) (tr : trace)
    (Q : outcome signer -> trace -> Prop) :
  Forall P tr ->
  (forall w, P (ConsoleWarn w)) ->
  Q (Thrown "invalid private key") tr ->
  (forall s tr',
      roleSigner h role available deployer = Some s ->
      Forall P tr' -> Q (Returned s) tr') ->
  wp h (resolveRoleSigner role available deployer) tr Q.
Proof.
  intros Htr Hw Hthrown Hreturned. apply wp_resolveRoleSigner_signer; [exact Hthrown|].
  intros s tr' Hs Hforall _ _. apply Hreturned; [exact Hs|].
  apply Hforall; assumption.
Qed.

Ltac wp_summary m ::=
  lazymatch m with
  | resolveRoleSigner _ _ _ =>
      eapply inv_resolveRoleSigner;
      [ eassumption | intros ?w; exact I | | intros ?signer ?tr ?Hrole ?Hinv;
        repeat match goal with
               | H : context [nth_error (_ :: _) _] |- _ =>
                   progress cbn [nth_error] in H
               end ]
  end.

Ltac infra_check :=
  cbn [infrastructureEvent infrastructureParameter
       String.eqb Ascii.eqb Bool.eqb andb].

Lemma infrastructure_events (h : host) (r : Roles) :
  resolved h r ->
  wp h main [] (fun _ tr => Forall (infrastructureEvent h r) tr).
Proof.
  intros (Hd & Hti & Hta & Htad & Hci).
  destruct r as [d ti ta tad ci].
  cbn [deployerOf tokenIssuerOf tokenAgentOf tokenAdminOf claimIssuerOf] in *.
  destruct (accounts h) as [|d0 l] eqn:Hacc; [discriminate Hd|].
  cbn [nth_error] in *. injection Hd as ->.
  assert (Hinv : Forall (infrastructureEvent h (mkRoles d ti ta tad ci)) [])
    by constructor.
  unfold main, logDeployment.
  repeat (inv_step infra_check).
  all: cbn [deployerOf tokenIssuerOf tokenAgentOf tokenAdminOf claimIssuerOf].
  all: try exact I.
  all: try assumption.
  all: try reflexivity.
  all: try congruence.
  all: repeat match goal with |- _ /\ _ => split end;
    try congruence; try reflexivity.
  all: repeat match goal with
         | H1 : ?x = Some ?s, H2 : ?x = Some ?t |- _ =>
             rewrite H2 in H1; injection H1 as <-
         end.
  all: eexists; reflexivity.
Qed.

Lemma infrastructure_parameters (h : host) :
  wp h main [] (fun _ tr => Forall (infrastructureParameter h) tr).
Proof.
  assert (Hinv : Forall (infrastructureParameter h) []) by constructor.
  unfold main, logDeployment.
  repeat (inv_step infra_check).
  all: try exact I.
  all: try assumption.
  all: try (do 5 eexists; split; [reflexivity | assumption]).
  all: match goal with
       | Ht : JS.truthy (JS.nullish (env ?x ?v) "") = _ |- _ =>
           unfold signingKeyInput; destruct (env x v) as [k|];
           cbn [JS.nullish JS.truthy] in *;
           try rewrite Ht; try discriminate Ht
       end.
  all: do 3 eexists; split; [reflexivity|]; split; [eassumption|].
  all: first [split; [reflexivity | eassumption] | eexists; eassumption].
Qed.

Lemma In_traceOf {A} (r : outcome A * trace) (P : event -> Prop) (e : event) :
  Forall P (snd r) -> In e (traceOf r) -> P e.
Proof.
  intros HP HIn. apply in_rev in HIn. exact (proj1 (Forall_forall _ _) HP e HIn).
Qed.

(** X15.  The infrastructure script needs a signer and a provider.  On a
    network without accounts the run ends with the error that no signer is
    available; with accounts but no provider, with the error that no
    provider can be resolved; in both cases before anything reaches the
    ledger. *)
Theorem infrastructure_needs_a_signer (h : host) :
  (accounts h = [] ->
   outcomeOf (run main h)
   = Thrown "No signer available in the current Hardhat network configuration."
   /\ existsb ledgerEffect (traceOf (run main h)) = false)
  /\ (accounts h <> [] -> hasProvider h = false ->
      outcomeOf (run main h)
      = Thrown "Unable to resolve a provider from the deployer signer."
      /\ existsb ledgerEffect (traceOf (run main h)) = false).
Proof.
  destruct (infrastructure_outcome h) as (Hnone & Hprovider & _).
  unfold traceOf. rewrite existsb_rev. split; assumption.
Qed.

Lemma infrastructure_needs_a_signer_witness :
  let h := withAccounts (sampleHost [] (Returned Ethers.AddressZero)) [] in
  outcomeOf (run main h)
  = Thrown "No signer available in the current Hardhat network configuration."
  /\ existsb ledgerEffect (traceOf (run main h)) = false.
Proof.
  intros h. apply (proj1 (infrastructure_needs_a_signer h)). reflexivity.
Defined.

(** X16.  Who signs what.  With the roles resolved as the script resolves
    them (the deployer is the first signer; each other role is the wallet of
    its TREX_<ROLE>_PRIVATE_KEY, else the pooled signer, else the deployer),
    every deployment and every call of a run is signed by the deployer,
    except: the AgentManager is deployed, and its [addAgentAdmin] called, by
    the token agent; the ClaimIssuer is deployed, and its [addKey] called,
    by the claim issuer.  The roles get their rights by address: the
    identity of the token has the token issuer as management key, the
    ClaimIssuer contract the claim issuer, and the agent admin is the token
    admin. *)
Theorem roles_sign_their_own_contracts (h : host) (r : Roles) (e : event) :
  resolved h r ->
  In e (traceOf (run main h)) ->
  match e with
  | Deploy art arguments from _ =>
      if (art =? "AgentManager")%string then from = Some (tokenAgentOf r)
      else if (art =? "ClaimIssuer")%string then
        from = Some (claimIssuerOf r)
        /\ arguments = [VString (signerAddress (claimIssuerOf r))]
      else if (art =? "IdentityProxy")%string then
        from = Some (deployerOf r)
        /\ exists authority,
            arguments = [VString authority;
                         VString (signerAddress (tokenIssuerOf r))]
      else from = Some (deployerOf r)
  | Send art _ method arguments from _ =>
      if (art =? "ClaimIssuer")%string then
        from = Some (claimIssuerOf r) /\ method = "addKey"
      else if (art =? "AgentManager")%string then
        from = Some (tokenAgentOf r) /\ method = "addAgentAdmin"
        /\ arguments = [VString (signerAddress (tokenAdminOf r))]
      else from = Some (deployerOf r)
  | _ => True
  end.
Proof.
  intros Hr HIn.
  exact (In_traceOf (run main h) _ e (infrastructure_events h r Hr) HIn).
Qed.

Lemma roles_sign_their_own_contracts_witness :
  let h := withAccounts
             (sampleHost [("TREX_TOKENAGENT_PRIVATE_KEY", "0xabc")]
                (Returned Ethers.AddressZero))
             [Account (sampleAddress 1); Account (sampleAddress 2);
              Account (sampleAddress 3)] in
  let agent := Wallet "0xabc" (toyAddressOf (toyKeyWord "0xabc")) in
  let r := mkRoles (Account (sampleAddress 1)) (Account (sampleAddress 2)) agent
             (Account (sampleAddress 1)) (Account (sampleAddress 1)) in
  exists e, find (sends "addAgentAdmin") (traceOf (run main h)) = Some e
            /\ match e with
               | Send art _ method arguments from _ =>
                   from = Some agent
                   /\ arguments = [VString (sampleAddress 1)]
               | _ => False
               end.
Proof.
  intros h agent r.
  assert (Hr : resolved h r) by (vm_compute; repeat split).
  assert (Hfind : exists e, find (sends "addAgentAdmin") (traceOf (run main h)) = Some e)
    by (vm_compute; eexists; reflexivity).
  destruct Hfind as (e & He). exists e. split; [exact He|].
  apply find_some in He. destruct He as [HIn He].
  pose proof (roles_sign_their_own_contracts h r e Hr HIn) as H.
  destruct e as [| | | | | | |art addr method arguments from res| | |];
    try discriminate He.
  assert (Hart : art = "AgentManager").
  { assert (Hall : forallb (fun e => match e with
                                     | Send a _ m _ _ _ =>
                                         negb (m =? "addAgentAdmin")%string
                                         || (a =? "AgentManager")%string
                                     | _ => true
                                     end) (traceOf (run main h)) = true)
      by (vm_compute; reflexivity).
    pose proof (proj1 (forallb_forall _ _) Hall _ HIn) as Ha.
    cbn [sends] in He. cbv beta iota in Ha. rewrite He in Ha.
    apply String.eqb_eq. exact Ha. }
  subst art. cbv beta iota delta [String.eqb Ascii.eqb Bool.eqb andb] in H.
  destruct H as (Hfrom & _ & Hargs). split; [exact Hfrom | exact Hargs].
Defined.

(** X17.  The parameters of the token.  The token proxy is deployed with
    the name TREX_TOKEN_NAME and the symbol TREX_TOKEN_SYMBOL as they are
    given -- "TREXDINO" and "TREX" only when the variables are unset, an
    empty string stays an empty name -- and with the decimals
    [BigNumber.from] reads from TREX_TOKEN_DECIMALS ("0" when unset).  When
    that text is no number the run ends with an exception and no token is
    deployed. *)
Theorem infrastructure_token_parameters (h : host) :
  (forall arguments from res,
      In (Deploy "TokenProxy" arguments from res) (traceOf (run main h)) ->
      exists authority registry compliance decimals identity,
        arguments =
        [VString authority; VString registry; VString compliance;
         VString (JS.nullish (env h "TREX_TOKEN_NAME") "TREXDINO");
         VString (JS.nullish (env h "TREX_TOKEN_SYMBOL") "TREX");
         VNumber decimals; VString identity]
        /\ Ethers.bigNumberFrom (JS.nullish (env h "TREX_TOKEN_DECIMALS") "0")
           = Some decimals)
  /\ (Ethers.bigNumberFrom (JS.nullish (env h "TREX_TOKEN_DECIMALS") "0") = None ->
      (exists message, outcomeOf (run main h) = Thrown message)
      /\ forall arguments from res,
          ~ In (Deploy "TokenProxy" arguments from res) (traceOf (run main h))).
Proof.
  assert (Hdeploy : forall arguments from res,
             In (Deploy "TokenProxy" arguments from res) (traceOf (run main h)) ->
             infrastructureParameter h (Deploy "TokenProxy" arguments from res))
    by (intros arguments from res;
        exact (In_traceOf (run main h) _ _ (infrastructure_parameters h))).
  split.
  - intros arguments from res HIn. exact (Hdeploy arguments from res HIn).
  - intros Hnone. split.
    + destruct (infrastructure_outcome h) as (_ & _ & Hdecimals & _).
      exact (Hdecimals Hnone).
    + intros arguments from res HIn.
      destruct (Hdeploy arguments from res HIn) as (? & ? & ? & ? & ? & _ & Hsome).
      congruence.
Qed.

Lemma infrastructure_token_parameters_witness :
  (let h := sampleHost [("TREX_TOKEN_NAME", ""); ("TREX_TOKEN_DECIMALS", "0x12")]
              (Returned Ethers.AddressZero) in
   exists arguments,
     nth_error arguments 3 = Some (VString "")
     /\ nth_error arguments 4 = Some (VString "TREX")
     /\ nth_error arguments 5 = Some (VNumber 18))
  /\ (let h := sampleHost [("TREX_TOKEN_DECIMALS", "six")]
                 (Returned Ethers.AddressZero) in
      exists message, outcomeOf (run main h) = Thrown message).
Proof.
  split; intros h.
  - assert (Hfind : exists e, find (fun e => match e with
                                             | Deploy art _ _ _ => (art =? "TokenProxy")%string
                                             | _ => false
                                             end) (traceOf (run main h)) = Some e)
      by (vm_compute; eexists; reflexivity).
    destruct Hfind as (e & He). apply find_some in He. destruct He as [HIn He].
    destruct e as [| | | | |art arguments from res| | | | |]; try discriminate He.
    apply String.eqb_eq in He. subst art.
    destruct (proj1 (infrastructure_token_parameters h) arguments from res HIn)
      as (authority & registry & compliance & decimals & identity & Hargs & Hdecimals).
    exists arguments. rewrite Hargs. cbn [nth_error].
    split; [reflexivity|]. split; [reflexivity|].
    vm_compute in Hdecimals. injection Hdecimals as <-. reflexivity.
  - apply (proj2 (infrastructure_token_parameters h)). vm_compute. reflexivity.
Defined.

(** X18.  The key of the claim issuer.  Every [addKey] on the ClaimIssuer
    contract registers, as a claim-signing key (purpose 3, type 1), the hash
    of the ABI-encoded address of the signing wallet: the wallet of
    TREX_CLAIM_ISSUER_SIGNING_KEY_PRIVATE_KEY when that is set and not
    empty, a freshly generated wallet otherwise. *)
Theorem claim_issuer_signing_key (h : host) (addr method : string)
    (arguments : list value) (from : option signer) (res : outcome transaction) :
  In (Send "ClaimIssuer" addr method arguments from res) (traceOf (run main h)) ->
  exists key wallet encoded,
    arguments = [VString (Ethers.hexlify (Ethers.keccak256 encoded));
                 VNumber 3; VNumber 1]
    /\ Ethers.encodeAddress wallet = Some encoded
    /\ match signingKeyInput h with
       | Some k => key = k /\ computeAddress h k = Some wallet
       | None => exists n, randomWallet h n = (key, wallet)
       end.
Proof.
  intros HIn.
  exact (In_traceOf (run main h) _ _ (infrastructure_parameters h) HIn).
Qed.

Lemma claim_issuer_signing_key_witness :
  let h := sampleHost [("TREX_CLAIM_ISSUER_SIGNING_KEY_PRIVATE_KEY", "0x5161")]
             (Returned Ethers.AddressZero) in
  exists wallet, computeAddress h "0x5161" = Some wallet.
Proof.
  intros h.
  assert (Hfind : exists e, find (fun e => match e with
                                           | Send art _ _ _ _ _ => (art =? "ClaimIssuer")%string
                                           | _ => false
                                           end) (traceOf (run main h)) = Some e)
    by (vm_compute; eexists; reflexivity).
  destruct Hfind as (e & He). apply find_some in He. destruct He as [HIn He].
  destruct e as [| | | | | | |art addr method arguments from res| | |];
    try discriminate He.
  apply String.eqb_eq in He. subst art.
  destruct (claim_issuer_signing_key h addr method arguments from res HIn)
    as (key & wallet & encoded & _ & _ & Hkey).
  exists wallet. exact (proj2 Hkey).
Defined.


End InfrastructureRun.

(** ** Further properties of the full-suite script *)

Section FullSuiteRun.
Import DeployFullSuite.

Ltac suite_check :=
  cbn [fullSuiteEvent fullSuiteParameter String.eqb Ascii.eqb Bool.eqb andb orb].

Ltac addresses_known :=
  repeat match goal with
    | H : addressOf (nth_error (accounts ?x) ?k) = Returned _ |- _ =>
        let s := fresh "s" in
        let E := fresh "E" in
        destruct (nth_error (accounts x) k) as [s|] eqn:E;
        [cbn [addressOf] in H; injection H as <- | discriminate H]
    end.

Lemma addressOf_signerAt (h : host) (k : nat) (a : string) :
  addressOf (nth_error (accounts h) k) = Returned a -> signerAt h k = Some a.
Proof.
  unfold signerAt. destruct (nth_error (accounts h) k); cbn; congruence.
Qed.

Lemma full_suite_events (h : host) :
  wp h main [] (fun _ tr => Forall (fullSuiteEvent h) tr).
Proof.
  assert (Hinv : Forall (fullSuiteEvent h) []) by constructor.
  unfold main, logDeployment, deployIdentityProxy, signClaim, addClaim.
  repeat (inv_step suite_check).
  all: try exact I.
  all: try assumption.
  all: try reflexivity.
  all: try (split; reflexivity).
  all: try (left; split; reflexivity).
  all: try (right; split; [reflexivity|]; first [left; reflexivity | right; reflexivity]).
  all: repeat split; eexists; (split; [apply addressOf_signerAt; eassumption | reflexivity]).
Qed.

Lemma full_suite_parameters (h : host) :
  wp h main [] (fun _ tr => Forall (fullSuiteParameter h) tr).
Proof.
  assert (Hinv : Forall (fullSuiteParameter h) []) by constructor.
  unfold main, logDeployment, deployIdentityProxy, signClaim, addClaim.
  repeat (inv_step suite_check).
  all: try exact I.
  all: try assumption.
  all: repeat match goal with
         | H : addressOf _ = Returned _ |- _ => apply addressOf_signerAt in H
         end.
  all: try (do 2 eexists; split; [reflexivity|]; tauto).
  all: try (do 4 eexists; split; [eassumption|]; split; [eassumption|]; reflexivity).
Qed.

Lemma addressOf_thrown (s : option signer) (e : string) :
  addressOf s = Thrown e -> e = undefinedAddress.
Proof. destruct s; cbn; [discriminate|]. intros E. injection E as <-. reflexivity. Qed.

Lemma notYet_absent (art method : string) (tr : trace) :
  Forall (notYet art method) tr -> existsb (completed art method) tr = false.
Proof.
  induction 1 as [|e tr He _ IH]; [reflexivity|]. cbn [existsb].
  unfold notYet in He. rewrite He, IH. reflexivity.
Qed.

(** The check of an effect that must hold for the invariant to be handed
    on; where it fails the trace is let go. *)
Ltac unpause_check :=
  unfold notYet;
  try match goal with r : outcome _ |- _ => destruct r end;
  cbn [completed String.eqb Ascii.eqb Bool.eqb andb]; reflexivity.

Ltac strict_head m :=
  lazymatch m with
  | perform _ _ =>
      first [ eapply inv_perform;
              [eassumption | intros ?r; unpause_check | intros ?r ?tr ?Hinv]
            | apply wp_perform; intros ?r ]
  | emit _ =>
      first [ eapply inv_emit; [eassumption | unpause_check | intros ?tr ?Hinv]
            | apply wp_emit ]
  | getSigners =>
      first [ eapply inv_getSigners; [eassumption | unpause_check | intros ?tr ?Hinv]
            | apply wp_getSigners ]
  | createRandom =>
      first [ eapply inv_createRandom;
              [ eassumption | intros ?w; unpause_check
              | intros ?n ?key ?address ?tr ?Hrandom ?Hinv ]
            | apply wp_createRandom; intros ?key ?address ]
  | _ => wp_head m
  end.

Ltac strict_step :=
  lazymatch goal with
  | |- wp _ ?m _ _ => strict_head m
  | |- match ?o with _ => _ end =>
      tryif is_var o then destruct o else destruct o eqn:?
  | |- (fun _ => _) _ _ => cbv beta
  | |- (fun _ => _) _ => cbv beta
  end;
  cbv beta iota delta
    [DeployFullSuite.data DeployFullSuite.issuer DeployFullSuite.topic
     DeployFullSuite.scheme DeployFullSuite.identity DeployFullSuite.signature].

Lemma full_suite_end (h : host) : wp h main [] (fullSuiteEnd h).
Proof.
  assert (Hinv : Forall (notYet "Token" "unpause") []) by constructor.
  unfold main, logDeployment, deployIdentityProxy, signClaim, addClaim.
  repeat strict_step.
  all: unfold fullSuiteEnd; cbn [isReturned].
  all: split;
    [ intros Hreturned; try discriminate Hreturned
    | intros Hunpaused;
      try (match goal with
           | H : Forall (notYet _ _) ?t |- _ =>
               match type of Hunpaused with
               | existsb _ t = true =>
                   rewrite (notYet_absent _ _ _ H) in Hunpaused; discriminate Hunpaused
               end
           end) ].
  all: try (left; reflexivity).
  all: try (right; f_equal; eapply addressOf_thrown; eassumption).
  match goal with
  | H : addressOf (nth_error (accounts ?x) 9) = Returned _ |- _ =>
      apply (proj1 (nth_error_Some (accounts x) 9));
      destruct (nth_error (accounts x) 9); [discriminate | discriminate H]
  end.
  cbn [existsb completed orb] in Hunpaused.
  match goal with
  | H : Forall (notYet _ _) ?t |- _ =>
      rewrite (notYet_absent _ _ _ H) in Hunpaused; discriminate Hunpaused
  end.
Qed.

Lemma countCompleted_labels (art method : string) (tr : trace) :
  countCompleted art method tr = countCompletedL art method (map labelOf tr).
Proof.
  unfold countCompleted, countCompletedL.
  induction tr as [|e tr IH]; [reflexivity|]. cbn [map filter].
  replace (completedL art method (labelOf e)) with (completed art method e)
    by (destruct e; try reflexivity; destruct res; reflexivity).
  destruct (completed art method e); cbn [List.length]; congruence.
Qed.

Lemma eachAfter_sound (target : label -> bool) (ready : list label -> bool)
    (rest : list label) :
  forall before,
    eachAfter target ready before rest = true ->
    forall pre l post,
      rest = (pre ++ l :: post)%list -> target l = true ->
      ready (before ++ pre)%list = true.
Proof.
  induction rest as [|x rest IH]; intros before Hall pre l post E Hl.
  - destruct pre; discriminate E.
  - cbn [eachAfter] in Hall. apply andb_true_iff in Hall.
    destruct Hall as [Hx Hrest].
    destruct pre as [|y pre]; cbn in E; injection E as -> ->.
    + rewrite Hl in Hx. rewrite app_nil_r. exact Hx.
    + change (before ++ y :: pre)%list with (before ++ [y] ++ pre)%list.
      rewrite app_assoc. apply (IH _ Hrest pre l post); [reflexivity | exact Hl].
Qed.

Lemma full_suite_mints_last (h : host) :
  wp h main []
    (fun _ tr => eachAfter isMintL readyToMintL [] (map labelOf (rev tr)) = true).
Proof.
  unfold main.
  repeat wp_step.
  all: cbv beta; cbn [List.rev List.app map labelOf isReturned];
    vm_compute; reflexivity.
Qed.

(** X20.  The full-suite script needs ten signers.  A run returns only on
    a network with at least ten accounts; and once the [unpause] of the
    token has gone through, the one way a run can still fail is the missing
    address of a signer the results table asks for: with eight or nine
    accounts the suite is deployed and live, and the run ends with a
    TypeError. *)
Theorem full_suite_needs_ten_signers (h : host) :
  (isReturned (outcomeOf (run main h)) = true ->
   (10 <= List.length (accounts h))%nat)
  /\ (forall token arguments from tx,
         In (Send "Token" token "unpause" arguments from (Returned tx))
            (traceOf (run main h)) ->
         outcomeOf (run main h) = Returned tt
         \/ outcomeOf (run main h) = Thrown undefinedAddress).
Proof.
  destruct (full_suite_end h) as [Hten Hlive]. split; [exact Hten|].
  intros token arguments from tx HIn. apply Hlive.
  apply existsb_exists. eexists. split; [apply in_rev; exact HIn|]. reflexivity.
Qed.

Lemma full_suite_needs_ten_signers_witness :
  (let h := sampleHost [] (Returned Ethers.AddressZero) in
   (10 <= List.length (accounts h))%nat)
  /\ (let h := withAccounts (sampleHost [] (Returned Ethers.AddressZero))
                 (map (fun n => Account (sampleAddress n)) (seq 1 8)) in
      outcomeOf (run main h) = Returned tt
      \/ outcomeOf (run main h) = Thrown undefinedAddress).
Proof.
  split; intros h.
  - apply (proj1 (full_suite_needs_ten_signers h)). vm_compute. reflexivity.
  - assert (Hfind : exists e, find isUnpause (traceOf (run main h)) = Some e)
      by (vm_compute; eexists; reflexivity).
    destruct Hfind as (e & He). apply find_some in He. destruct He as [HIn He].
    assert (Hall : forallb (fun e => negb (isUnpause e) || completed "Token" "unpause" e)
                     (traceOf (run main h)) = true)
      by (vm_compute; reflexivity).
    pose proof (proj1 (forallb_forall _ _) Hall _ HIn) as Hdone.
    cbv beta in Hdone. rewrite He in Hdone. cbn [negb orb] in Hdone.
    destruct e as [| | | | | | |art addr method arguments from res| | |];
      try discriminate He.
    destruct res as [tx|]; [|discriminate Hdone].
    cbn [completed] in Hdone. apply andb_true_iff in Hdone.
    destruct Hdone as [Hart Hmethod].
    apply String.eqb_eq in Hart. apply String.eqb_eq in Hmethod. subst art method.
    exact (proj2 (full_suite_needs_ten_signers h) addr arguments from tx HIn).
Defined.


(** X22.  Whom the full-suite script registers and what it mints.  The
    identities it deploys have as management key the address of the token
    issuer (signer 1), of Alice (5), of Bob (6) or of Charlie (7).  Its one
    kind of registration is of Alice and Bob, in that order, with the
    countries 42 and 666.  Every mint is for Alice, of the amount
    [BigNumber.from] reads from TREX_MINT_ALICE ("1000" when unset), or for
    Bob, of TREX_MINT_BOB ("500" when unset). *)
Theorem full_suite_registers_and_mints (h : host) (e : event) :
  In e (traceOf (run main h)) ->
  match e with
  | Deploy art arguments _ _ =>
      if (art =? "OnchainID.IdentityProxy")%string then
        exists authority key,
          arguments = [VString authority; VString key]
          /\ (signerAt h 1 = Some key \/ signerAt h 5 = Some key
              \/ signerAt h 6 = Some key \/ signerAt h 7 = Some key)
      else True
  | Send art _ method arguments _ _ =>
      if (art =? "IdentityRegistry")%string
         && (method =? "batchRegisterIdentity")%string then
        exists alice bob aliceIdentity bobIdentity,
          signerAt h 5 = Some alice /\ signerAt h 6 = Some bob
          /\ arguments = [VArray [VString alice; VString bob];
                          VArray [VString aliceIdentity; VString bobIdentity];
                          VArray [VNumber 42; VNumber 666]]
      else if (art =? "Token")%string && (method =? "mint")%string then
        exists holder amount,
          arguments = [VString holder; VNumber amount]
          /\ ((signerAt h 5 = Some holder
               /\ Ethers.bigNumberFrom (JS.nullish (env h "TREX_MINT_ALICE") "1000")
                  = Some amount)
              \/ (signerAt h 6 = Some holder
                  /\ Ethers.bigNumberFrom (JS.nullish (env h "TREX_MINT_BOB") "500")
                     = Some amount))
      else True
  | _ => True
  end.
Proof.
  intros HIn. exact (In_traceOf (run main h) _ e (full_suite_parameters h) HIn).
Qed.

Lemma full_suite_registers_and_mints_witness :
  let h := sampleHost [("TREX_MINT_ALICE", "250")] (Returned Ethers.AddressZero) in
  exists e, find isMint (traceOf (run main h)) = Some e
            /\ match e with
               | Send _ _ _ arguments _ _ =>
                   exists holder amount,
                     arguments = [VString holder; VNumber amount]
                     /\ (amount = 250%Z \/ amount = 500%Z)
               | _ => False
               end.
Proof.
  intros h.
  assert (Hfind : exists e, find isMint (traceOf (run main h)) = Some e)
    by (vm_compute; eexists; reflexivity).
  destruct Hfind as (e & He). exists e. split; [exact He|].
  apply find_some in He. destruct He as [HIn He].
  pose proof (full_suite_registers_and_mints h e HIn) as H.
  destruct e as [| | | | | | |art addr method arguments from res| | |];
    try discriminate He.
  cbn [isMint] in He. apply andb_true_iff in He. destruct He as [Hart Hmethod].
  apply String.eqb_eq in Hart. apply String.eqb_eq in Hmethod. subst art method.
  cbv beta iota delta [String.eqb Ascii.eqb Bool.eqb andb orb] in H.
  destruct H as (holder & amount & Hargs & [[_ Ha]|[_ Hb]]);
    exists holder, amount; (split; [exact Hargs|]).
  - left. vm_compute in Ha. injection Ha as <-. reflexivity.
  - right. vm_compute in Hb. injection Hb as <-. reflexivity.
Defined.

Lemma existsb_labels (tr : trace) :
  existsb isUnpause tr = existsb isUnpauseL (map labelOf tr).
Proof.
  induction tr as [|e tr IH]; [reflexivity|]. cbn [map existsb]. rewrite IH.
  f_equal. destruct e; reflexivity.
Qed.

(** X23.  Tokens are minted last but one.  In every run of the full-suite
    script a [mint] is submitted only after the suite is wired, the holders
    are registered in the identity registry and both claims are added (all
    these calls having gone through), and before any [unpause] is
    submitted: tokens are only ever minted to registered holders and on a
    paused token. *)
Theorem tokens_minted_after_registration (h : host) (pre post : trace) (e : event) :
  traceOf (run main h) = (pre ++ e :: post)%list ->
  isMint e = true ->
  wiringCompleted pre = true
  /\ (1 <= countCompleted "IdentityRegistry" "batchRegisterIdentity" pre)%nat
  /\ (2 <= countCompleted "Identity" "addClaim" pre)%nat
  /\ existsb isUnpause pre = false.
Proof.
  intros Htrace Hmint.
  pose proof (full_suite_mints_last h) as Hall. unfold wp in Hall.
  change (rev (snd (main h []))) with (traceOf (run main h)) in Hall.
  rewrite Htrace, map_app in Hall. cbn [map] in Hall.
  assert (Hl : isMintL (labelOf e) = true) by (destruct e; exact Hmint).
  pose proof (eachAfter_sound _ _ _ [] Hall _ _ _ eq_refl Hl) as Hready.
  cbn [List.app] in Hready. unfold readyToMintL in Hready.
  apply andb_true_iff in Hready. destruct Hready as [Hready Hpaused].
  apply andb_true_iff in Hready. destruct Hready as [Hready Hclaims].
  apply andb_true_iff in Hready. destruct Hready as [Hwired Hregistered].
  unfold wiringCompleted. rewrite !countCompleted_labels, existsb_labels.
  repeat split.
  - exact Hwired.
  - apply Nat.leb_le. exact Hregistered.
  - apply Nat.leb_le. exact Hclaims.
  - apply negb_true_iff. exact Hpaused.
Qed.

Lemma tokens_minted_after_registration_witness :
  let tr := traceOf (run main (sampleHost [] (Returned Ethers.AddressZero))) in
  wiringCompleted (firstn 47 tr) = true
  /\ (1 <= countCompleted "IdentityRegistry" "batchRegisterIdentity" (firstn 47 tr))%nat
  /\ (2 <= countCompleted "Identity" "addClaim" (firstn 47 tr))%nat
  /\ existsb isUnpause (firstn 47 tr) = false.
Proof.
  intros tr.
  apply (tokens_minted_after_registration
           (sampleHost [] (Returned Ethers.AddressZero))
           (firstn 47 tr) (skipn 48 tr) (nth 47 tr (ConsoleLog ""))).
  - vm_compute. reflexivity.
  - vm_compute. reflexivity.
Defined.

End FullSuiteRun.

(** ** The second copy of the infrastructure script *)

Section Infrastructure2Run.
Import DeployTREXSuiteInfrastructure2.

Lemma infrastructure2_outcome (h : host) : wp h main [] (infrastructure2Outcome h).
Proof.
  unfold main, logDeployment, deployIdentityProxy.
  repeat wp_step.
  all: unfold infrastructure2Outcome; cbn [isReturned].
  all: split;
    [ rewrite existsb_labels; cbn [map labelOf]; vm_compute; reflexivity
    | intros Hreturned; try discriminate Hreturned ].
  split.
  - match goal with
    | H : addressOf (nth_error (accounts ?x) 4) = Returned _ |- _ =>
        apply (proj1 (nth_error_Some (accounts x) 4));
        destruct (nth_error (accounts x) 4); [discriminate | discriminate H]
    end.
  - unfold wiringCompleted. rewrite !countCompleted_labels.
    cbn [map labelOf isReturned filter isTable]. vm_compute. repeat split.
Qed.

Ltac copy_check :=
  cbn [infrastructure2Event String.eqb Ascii.eqb Bool.eqb andb orb].

Lemma infrastructure2_events (h : host) :
  wp h main [] (fun _ tr => Forall (infrastructure2Event h) tr).
Proof.
  assert (Hinv : Forall (infrastructure2Event h) []) by constructor.
  unfold main, logDeployment, deployIdentityProxy.
  repeat (inv_step copy_check).
  all: try exact I.
  all: try assumption.
  all: try reflexivity.
  all: repeat match goal with
         | H : addressOf _ = Returned _ |- _ => apply addressOf_signerAt in H
         end.
  all: repeat match goal with |- _ /\ _ => split end; try reflexivity.
  all: try (eexists; split; [eassumption | reflexivity]).
  all: try (do 2 eexists; split; [eassumption | reflexivity]).
  all: do 4 eexists; split; [eassumption|]; split; [eassumption | reflexivity].
Qed.

(** X24.  The second copy of the infrastructure script, which takes the
    roles from the signers 1 to 4 by position, never calls [unpause]; a run
    of it returns only on a network with at least five accounts, and it has
    then wired the suite, granted the agent roles (twice on the token, three
    times on the identity registry), set the agent admin, registered the
    signing key of the claim issuer and printed its four tables. *)
Theorem positional_infrastructure_wired_and_paused (h : host) :
  existsb isUnpause (traceOf (run main h)) = false
  /\ (isReturned (outcomeOf (run main h)) = true ->
      (5 <= List.length (accounts h))%nat
      /\ wiringCompleted (traceOf (run main h)) = true
      /\ countCompleted "Token" "addAgent" (traceOf (run main h)) = 2%nat
      /\ countCompleted "IdentityRegistry" "addAgent" (traceOf (run main h)) = 3%nat
      /\ countCompleted "AgentManager" "addAgentAdmin" (traceOf (run main h)) = 1%nat
      /\ countCompleted "ClaimIssuer" "addKey" (traceOf (run main h)) = 1%nat
      /\ List.length (filter isTable (traceOf (run main h))) = 4%nat).
Proof.
  destruct (infrastructure2_outcome h) as [Hpaused Hdone].
  unfold traceOf.
  rewrite wiringCompleted_rev, !countCompleted_rev, existsb_rev, filter_rev, length_rev.
  split; assumption.
Qed.

Lemma positional_infrastructure_wired_and_paused_witness :
  let h := sampleHost [] (Returned Ethers.AddressZero) in
  (5 <= List.length (accounts h))%nat
  /\ wiringCompleted (traceOf (run main h)) = true.
Proof.
  intros h.
  destruct (proj2 (positional_infrastructure_wired_and_paused h)) as (H5 & Hw & _).
  - vm_compute. reflexivity.
  - split; assumption.
Defined.

(** X25.  Who signs what in the second copy.  The deployer (signer 0) signs
    every deployment and every call, except: the token agent (2) deploys the
    AgentManager and calls its [addAgentAdmin], for the address of the token
    admin (3); the claim issuer (4) deploys the ClaimIssuer, with its own
    address, and calls its [addKey], which registers (purpose 3, type 1) the
    hash of the address of a wallet generated in the run -- no variable of
    the environment can name that key.  The identity of the token has the
    token issuer (1) as management key. *)
Theorem positional_infrastructure_signers (h : host) (e : event) :
  In e (traceOf (run main h)) ->
  match e with
  | Deploy art arguments from _ =>
      if (art =? "AgentManager")%string then from = nth_error (accounts h) 2
      else if (art =? "ClaimIssuer")%string then
        from = nth_error (accounts h) 4
        /\ exists a, signerAt h 4 = Some a /\ arguments = [VString a]
      else if (art =? "OnchainID.IdentityProxy")%string then
        from = nth_error (accounts h) 0
        /\ exists authority a,
            signerAt h 1 = Some a
            /\ arguments = [VString authority; VString a]
      else from = nth_error (accounts h) 0
  | Send art _ method arguments from _ =>
      if (art =? "ClaimIssuer")%string then
        from = nth_error (accounts h) 4 /\ method = "addKey"
        /\ exists n key wallet encoded,
            randomWallet h n = (key, wallet)
            /\ Ethers.encodeAddress wallet = Some encoded
            /\ arguments = [VString (Ethers.hexlify (Ethers.keccak256 encoded));
                            VNumber 3; VNumber 1]
      else if (art =? "AgentManager")%string then
        from = nth_error (accounts h) 2 /\ method = "addAgentAdmin"
        /\ exists a, signerAt h 3 = Some a /\ arguments = [VString a]
      else from = nth_error (accounts h) 0
  | _ => True
  end.
Proof.
  intros HIn. exact (In_traceOf (run main h) _ e (infrastructure2_events h) HIn).
Qed.

Lemma positional_infrastructure_signers_witness :
  let h := sampleHost [("TREX_CLAIM_ISSUER_SIGNING_KEY_PRIVATE_KEY", "0x5161")]
             (Returned Ethers.AddressZero) in
  exists e, find (sends "addKey") (traceOf (run main h)) = Some e
            /\ match e with
               | Send _ _ _ _ from _ => from = Some (Account (sampleAddress 5))
               | _ => False
               end.
Proof.
  intros h.
  assert (Hfind : exists e, find (sends "addKey") (traceOf (run main h)) = Some e)
    by (vm_compute; eexists; reflexivity).
  destruct Hfind as (e & He). exists e. split; [exact He|].
  apply find_some in He. destruct He as [HIn He].
  pose proof (positional_infrastructure_signers h e HIn) as H.
  destruct e as [| | | | | | |art addr method arguments from res| | |];
    try discriminate He.
  assert (Hart : art = "ClaimIssuer").
  { assert (Hall : forallb (fun e => match e with
                                     | Send a _ m _ _ _ =>
                                         negb (m =? "addKey")%string
                                         || (a =? "ClaimIssuer")%string
                                     | _ => true
                                     end) (traceOf (run main h)) = true)
      by (vm_compute; reflexivity).
    pose proof (proj1 (forallb_forall _ _) Hall _ HIn) as Ha.
    cbn [sends] in He. cbv beta iota in Ha. rewrite He in Ha.
    apply String.eqb_eq. exact Ha. }
  subst art. cbv beta iota delta [String.eqb Ascii.eqb Bool.eqb andb] in H.
  exact (proj1 H).
Defined.

End Infrastructure2Run.

(** ** The verification check *)

Section VerificationCheck.
Import CheckVerification.

(** The three ways a run of the check can go. *)
Lemma program_cases (h : host) (isVerified : question -> outcome bool) :
  (exists out,
      program h isVerified = (out, [], 1%Z)
      /\ List.length (filter isError out) = 1%nat)
  \/ (exists wallet key address,
         env h "USER_WALLET" = Some wallet
         /\ env h "PRIVATE_KEY" = Some key
         /\ computeAddress h key = Some address
         /\ let q := mkQuestion identityRegistryAddress wallet (Wallet key address) in
            exists out,
              match isVerified q with
              | Returned verified =>
                  program h isVerified = (out, [q], 0%Z)
                  /\ List.length (filter isError out)
                     = if verified then 0%nat else 1%nat
              | Thrown _ =>
                  program h isVerified = (out, [q], 1%Z)
                  /\ List.length (filter isError out) = 2%nat
              end).
Proof.
  unfold program, main. cbv zeta.
  destruct (env h "USER_WALLET") as [wallet|] eqn:Hw; cbn [JS.nullish JS.truthy negb orb];
    [|left; eexists; split; reflexivity].
  destruct (env h "PRIVATE_KEY") as [key|] eqn:Hk; cbn [JS.nullish JS.truthy negb orb];
    [|left; rewrite orb_true_r; eexists; split; reflexivity].
  destruct (JS.truthy wallet) eqn:Htw; cbn [negb orb];
    [|left; eexists; split; reflexivity].
  destruct (JS.truthy key) eqn:Htk; cbn [negb orb];
    [|left; eexists; split; reflexivity].
  destruct (computeAddress h key) as [address|] eqn:Ha;
    [|left; eexists; split; reflexivity].
  right. exists wallet, key, address.
  split; [first [assumption | reflexivity]|].
  split; [first [assumption | reflexivity]|].
  split; [first [assumption | reflexivity]|]. cbv zeta.
  destruct (isVerified _) as [verified|message];
    cbn [ended printed asked]; eexists; (split; [reflexivity|]).
  - destruct verified; reflexivity.
  - reflexivity.
Qed.

(** X26.  The exit code of the verification check says whether the
    registry answered, not what it answered.  The script asks at most one
    question: about USER_WALLET as it is given, to the registry at the fixed
    address, through the wallet of PRIVATE_KEY (AGENT_PRIVATE_KEY plays no
    part here).  It exits with 0 exactly when the registry answers -- also
    when the answer is that the wallet is not verified, which is reported on
    the error stream only -- and with 1 when an input is missing, the key is
    no key or the query fails; what it prints on the error stream is then
    one line, or two for a failed query. *)
Theorem verification_exit_code (h : host) (isVerified : question -> outcome bool) :
  (exitCode h isVerified = 0%Z \/ exitCode h isVerified = 1%Z)
  /\ (forall q, In q (questions h isVerified) ->
                questions h isVerified = [q]
                /\ registry q = identityRegistryAddress
                /\ env h "USER_WALLET" = Some (user q)
                /\ exists key address,
                    env h "PRIVATE_KEY" = Some key
                    /\ computeAddress h key = Some address
                    /\ agent q = Wallet key address)
  /\ (exitCode h isVerified = 0%Z <->
      exists q verified,
        questions h isVerified = [q] /\ isVerified q = Returned verified)
  /\ (forall q, questions h isVerified = [q] -> isVerified q = Returned false ->
                exitCode h isVerified = 0%Z
                /\ List.length (filter isError (lines h isVerified)) = 1%nat)
  /\ (exitCode h isVerified = 1%Z ->
      (1 <= List.length (filter isError (lines h isVerified)) <= 2)%nat).
Proof.
  unfold exitCode, questions, lines.
  destruct (program_cases h isVerified)
    as [(out & -> & Herr) | (wallet & key & address & Hw & Hk & Ha & out & Hq)];
    cbn [fst snd].
  - split; [right; reflexivity|].
    split; [intros q []|].
    split; [split; [discriminate | intros (q & v & Hq & _); discriminate Hq]|].
    split; [intros q Hq; discriminate Hq|].
    intros _. lia.
  - cbv zeta in Hq.
    set (q0 := mkQuestion identityRegistryAddress wallet (Wallet key address)) in *.
    assert (Hasked : forall q, In q [q0] ->
               [q0] = [q] /\ registry q = identityRegistryAddress
               /\ env h "USER_WALLET" = Some (user q)
               /\ exists key0 address0,
                   env h "PRIVATE_KEY" = Some key0
                   /\ computeAddress h key0 = Some address0
                   /\ agent q = Wallet key0 address0).
    { intros q [<-|[]]. repeat split; try assumption.
      exists key, address. repeat split; assumption. }
    destruct (isVerified q0) as [verified|message] eqn:Hv;
      destruct Hq as [-> Herr]; cbn [fst snd].
    + split; [left; reflexivity|]. split; [exact Hasked|].
      split; [split; [|reflexivity]; intros _; exists q0, verified;
              split; [reflexivity | exact Hv]|].
      split; [|discriminate].
      intros q Hq Hfalse. injection Hq as <-. rewrite Hv in Hfalse.
      injection Hfalse as ->. split; [reflexivity | exact Herr].
    + split; [right; reflexivity|]. split; [exact Hasked|].
      split; [split; [discriminate|]; intros (q & v & Hq & Hr); injection Hq as <-;
              rewrite Hv in Hr; discriminate Hr|].
      split; [|intros _; lia].
      intros q Hq Hfalse. injection Hq as <-. rewrite Hv in Hfalse. discriminate Hfalse.
Qed.

Lemma verification_exit_code_witness :
  let h := sampleHost [("USER_WALLET", "somebody"); ("PRIVATE_KEY", "0xa11ce");
                       ("AGENT_PRIVATE_KEY", "0xb0b")]
             (Returned Ethers.AddressZero) in
  let isVerified := fun _ : question => Returned false in
  exitCode h isVerified = 0%Z
  /\ List.length (filter isError (lines h isVerified)) = 1%nat.
Proof.
  intros h isVerified.
  apply (proj1 (proj2 (proj2 (proj2 (verification_exit_code h isVerified))))
           (mkQuestion identityRegistryAddress "somebody"
              (Wallet "0xa11ce" (toyAddressOf (toyKeyWord "0xa11ce"))))).
  - vm_compute. reflexivity.
  - reflexivity.
Defined.

End VerificationCheck.

(** ** The addresses the suite scripts pass on *)

Section Linked.

Context (h : host) (P : event -> trace -> Prop).

Lemma linked_split (after before : trace) (e : event) :
  linked P (after ++ e :: before)%list -> P e before.
Proof.
  induction after as [|x after IH]; cbn [List.app linked]; [tauto|].
  intros [_ H]. exact (IH H).
Qed.

Lemma link_perform {A} (answer : host -> nat -> outcome A)
    (record : outcome A -> event) tr (Q : outcome A -> trace -> Prop) :
  linked P tr ->
  (forall r, P (record r) tr) ->
  (forall r, linked P (record r :: tr) -> Q r (record r :: tr)) ->
  wp h (perform answer record) tr Q.
Proof.
  intros Htr Hr HQ. apply wp_perform. intros r. apply HQ. split; [apply Hr | exact Htr].
Qed.

Lemma link_emit e tr (Q : outcome unit -> trace -> Prop) :
  linked P tr -> P e tr ->
  (linked P (e :: tr) -> Q (Returned tt) (e :: tr)) ->
  wp h (emit e) tr Q.
Proof. intros Htr He HQ. apply wp_emit. apply HQ. split; assumption. Qed.

Lemma link_getSigners tr (Q : outcome (list signer) -> trace -> Prop) :
  linked P tr -> P (GetSigners (accounts h)) tr ->
  (linked P (GetSigners (accounts h) :: tr) ->
   Q (Returned (accounts h)) (GetSigners (accounts h) :: tr)) ->
  wp h getSigners tr Q.
Proof. intros Htr He HQ. apply wp_getSigners. apply HQ. split; assumption. Qed.

Lemma link_createRandom tr (Q : outcome signer -> trace -> Prop) :
  linked P tr ->
  (forall w, P (CreateRandom w) tr) ->
  (forall key address,
      linked P (CreateRandom (Wallet key address) :: tr) ->
      Q (Returned (Wallet key address)) (CreateRandom (Wallet key address) :: tr)) ->
  wp h createRandom tr Q.
Proof.
  intros Htr He HQ. apply wp_createRandom. intros key address. apply HQ.
  split; [apply He | exact Htr].
Qed.

End Linked.

Ltac link_head check m :=
  lazymatch m with
  | perform _ _ =>
      eapply link_perform; [eassumption | intros ?r; check | intros ?r ?Hinv]
  | emit _ =>
      eapply link_emit; [eassumption | check | intros ?Hinv]
  | getSigners =>
      eapply link_getSigners; [eassumption | check | intros ?Hinv]
  | createRandom =>
      eapply link_createRandom;
      [eassumption | intros ?w; check | intros ?key ?address ?Hinv]
  | _ => wp_head m
  end.

Ltac link_step check :=
  lazymatch goal with
  | |- wp _ ?m _ _ => link_head check m
  | |- match ?o with _ => _ end =>
      tryif is_var o then destruct o else destruct o eqn:?
  | |- (fun _ => _) _ _ => cbv beta
  | |- (fun _ => _) _ => cbv beta
  end;
  cbv beta iota delta
    [DeployFullSuite.data DeployFullSuite.issuer DeployFullSuite.topic
     DeployFullSuite.scheme DeployFullSuite.identity DeployFullSuite.signature].

(** The address is found among the deployments so far. *)
Ltac known_address :=
  unfold deployedAs; do 2 eexists;
  cbn [In]; solve [repeat (first [left; reflexivity | right])].

(** ** The wiring of the suites, address by address *)

Section LinkedAt.

Context (R : trace -> event -> Prop).

(** A property of each effect and of the effects before it, in the order of
    the run. *)
Lemma linked_at (tr pre post : trace) (e : event) :
  linked (fun e before => R (rev before) e) tr ->
  rev tr = (pre ++ e :: post)%list ->
  R pre e.
Proof.
  intros Hlinked Hsplit.
  assert (Htr : tr = (rev post ++ e :: rev pre)%list).
  { rewrite <- (rev_involutive tr), Hsplit, rev_app_distr. cbn [rev].
    rewrite <- app_assoc. reflexivity. }
  rewrite Htr in Hlinked. apply linked_split in Hlinked.
  rewrite rev_involutive in Hlinked. exact Hlinked.
Qed.

Lemma linked_each (tr : trace) (e : event) :
  linked (fun e before => R (rev before) e) tr ->
  In e (rev tr) -> exists pre, R pre e.
Proof.
  intros Hlinked HIn. apply in_split in HIn. destruct HIn as (pre & post & Hsplit).
  exists pre. exact (linked_at tr pre post e Hlinked Hsplit).
Qed.

End LinkedAt.

Lemma addressOf_owner (s : option signer) (a : string) :
  addressOf s = Returned a -> option_map signerAddress s = Some a.
Proof. destruct s; cbn; congruence. Qed.

(** The effect is found among the earlier ones. *)
Ltac in_earlier :=
  apply (proj1 (in_rev _ _)); cbn [In];
  solve [repeat (first [left; reflexivity | right])].

Ltac earlier_address := unfold deployedAs; do 2 eexists; in_earlier.


Section FullSuiteWiring.
Import DeployFullSuite.


End FullSuiteWiring.




(** C1, the claim as stated fails on confirmation: in the run on the
    sample network the token is unpaused, all the wiring calls having been
    submitted, while not one of them has been confirmed -- the script has
    waited for no receipt. *)
Lemma unpause_before_confirmation :
  let h := sampleHost [] (Returned Ethers.AddressZero) in
  let tr := traceOf (run DeployFullSuite.main h) in
  exists pre e post,
    tr = (pre ++ e :: post)%list
    /\ isUnpause e = true
    /\ wiringCompleted pre = true
    /\ forall art method, ~ confirmed pre art method.
Proof.
  intros h tr.
  exists (firstn 52 tr), (nth 52 tr (ConsoleLog "")), (skipn 53 tr).
  split; [vm_compute; reflexivity|].
  split; [vm_compute; reflexivity|].
  split; [vm_compute; reflexivity|].
  intros art method (address & arguments & from & tx & rc & _ & HIn).
  assert (Hnone : existsb isWait (firstn 52 tr) = false) by (vm_compute; reflexivity).
  assert (Hsome : existsb isWait (firstn 52 tr) = true).
  { apply existsb_exists. eexists. split; [exact HIn | reflexivity]. }
  rewrite Hnone in Hsome. discriminate Hsome.
Qed.

(** ** Who signs the calls on an identity *)

Ltac owner_check :=
  cbv beta; cbn [ownIdentity String.eqb Ascii.eqb Bool.eqb andb];
  first [ exact I
        | do 3 eexists; split; [in_earlier | apply addressOf_owner; eassumption] ].

Section FullSuiteOwners.
Import DeployFullSuite.

Lemma full_suite_owners (h : host) :
  wp h main [] (fun _ tr => linked (fun e before => ownIdentity (rev before) e) tr).
Proof.
  assert (Hinv : linked (fun e before => ownIdentity (rev before) e) []) by exact I.
  unfold main, logDeployment, deployIdentityProxy, signClaim, addClaim.
  repeat (link_step owner_check).
  all: assumption.
Qed.

(** X21.  Who signs what in the full-suite script.  The signers are taken
    by position.  The deployer (0) signs every deployment and every call,
    except: the token agent (2) deploys the AgentManager and calls its
    [addAgentAdmin] (for the address of the token admin, 3), registers the
    identities, mints and unpauses; the claim issuer (4) deploys the
    ClaimIssuer, with its own address, and calls its [addKey]; Alice (5)
    adds the key and the claim on her identity and Bob (6) the claim on
    his: every call on an identity is signed by Alice or by Bob, and the
    identity it is made on is one the run deployed before with the signer's
    own address as its management key. *)
Theorem full_suite_signers (h : host) (pre post : trace) (e : event) :
  traceOf (run main h) = (pre ++ e :: post)%list ->
  match e with
  | Deploy art arguments from _ =>
      if (art =? "AgentManager")%string then from = nth_error (accounts h) 2
      else if (art =? "ClaimIssuer")%string then
        from = nth_error (accounts h) 4
        /\ exists a, signerAt h 4 = Some a /\ arguments = [VString a]
      else from = nth_error (accounts h) 0
  | Send art address method arguments from _ =>
      if (art =? "ClaimIssuer")%string then
        from = nth_error (accounts h) 4 /\ method = "addKey"
      else if (art =? "AgentManager")%string then
        from = nth_error (accounts h) 2 /\ method = "addAgentAdmin"
        /\ exists a, signerAt h 3 = Some a /\ arguments = [VString a]
      else if (art =? "Identity")%string then
        ((method = "addKey" /\ from = nth_error (accounts h) 5)
         \/ (method = "addClaim"
             /\ (from = nth_error (accounts h) 5 \/ from = nth_error (accounts h) 6)))
        /\ exists authority owner deployer,
            In (Deploy "OnchainID.IdentityProxy" [VString authority; VString owner]
                  deployer (Returned address)) pre
            /\ option_map signerAddress from = Some owner
      else if (art =? "Token")%string
              && ((method =? "mint")%string || (method =? "unpause")%string) then
        from = nth_error (accounts h) 2
      else if (art =? "IdentityRegistry")%string
              && (method =? "batchRegisterIdentity")%string then
        from = nth_error (accounts h) 2
      else from = nth_error (accounts h) 0
  | _ => True
  end.
Proof.
  intros Hsplit.
  assert (HIn : In e (traceOf (run main h)))
    by (rewrite Hsplit; apply in_elt).
  pose proof (In_traceOf (run main h) _ e (full_suite_events h) HIn) as Hsigner.
  pose proof (linked_at ownIdentity _ pre post e (full_suite_owners h) Hsplit)
    as Howner.
  destruct e as [| | | | |art arguments from res|
                |art address method arguments from res| | |]; try exact I.
  - exact Hsigner.
  - cbn [fullSuiteEvent ownIdentity] in Hsigner, Howner.
    destruct (art =? "ClaimIssuer")%string; [exact Hsigner|].
    destruct (art =? "AgentManager")%string; [exact Hsigner|].
    destruct (art =? "Identity")%string; [|exact Hsigner].
    split; assumption.
Qed.

Lemma full_suite_signers_witness :
  let h := sampleHost [] (Returned Ethers.AddressZero) in
  let tr := traceOf (run main h) in
  exists k address arguments from res,
    nth k tr (ConsoleLog "") = Send "Identity" address "addClaim" arguments from res
    /\ option_map signerAddress from = Some (sampleAddress 7)
    /\ exists authority deployer,
        In (Deploy "OnchainID.IdentityProxy"
              [VString authority; VString (sampleAddress 7)] deployer
              (Returned address)) (firstn k tr).
Proof.
  intros h tr.
  assert (Hk : exists k,
             find (fun k => match nth k tr (ConsoleLog "") with
                            | Send art _ method _ from _ =>
                                (art =? "Identity")%string
                                && (method =? "addClaim")%string
                                && match from with
                                   | Some s => (signerAddress s =? sampleAddress 7)%string
                                   | None => false
                                   end
                            | _ => false
                            end) (seq 0 (List.length tr)) = Some k)
    by (vm_compute; eexists; reflexivity).
  destruct Hk as (k & Hk). apply find_some in Hk. destruct Hk as [_ Hk].
  assert (Hn : (k < List.length tr)%nat).
  { destruct (Nat.ltb_spec k (List.length tr)) as [Hlt|Hge]; [exact Hlt|].
    rewrite (nth_overflow _ _ Hge) in Hk. discriminate Hk. }
  pose proof (firstn_skipn_middle k tr (nth_error_nth' tr (ConsoleLog "") Hn))
    as Hsplit.
  symmetry in Hsplit.
  pose proof (full_suite_signers h _ _ _ Hsplit) as H.
  destruct (nth k tr (ConsoleLog ""))
    as [| | | | | | |art address method arguments from res| | |] eqn:He;
    try discriminate Hk.
  apply andb_true_iff in Hk. destruct Hk as [Hk Hfrom].
  apply andb_true_iff in Hk. destruct Hk as [Hart Hmethod].
  apply String.eqb_eq in Hart. apply String.eqb_eq in Hmethod. subst art method.
  cbv beta iota delta [String.eqb Ascii.eqb Bool.eqb andb orb] in H.
  destruct H as [_ (authority & owner & deployer & Hdeployed & Howner)].
  destruct from as [s|]; [|discriminate Hfrom].
  apply String.eqb_eq in Hfrom.
  cbn [option_map] in Howner. injection Howner as <-.
  exists k, address, arguments, (Some s), res.
  split; [exact He|].
  split; [cbn [option_map]; f_equal; exact Hfrom|].
  exists authority, deployer. rewrite <- Hfrom. exact Hdeployed.
Defined.

End FullSuiteOwners.
(** ** The addresses the suite scripts pass on *)

Ltac plumbing_check agent_known :=
  cbv beta; cbn [plumbed String.eqb Ascii.eqb Bool.eqb andb orb];
  first
    [ exact I
    | repeat match goal with
             | |- exists _, _ => eexists
             | |- _ /\ _ => split
             end;
      try reflexivity;
      first [ earlier_address
            | in_earlier
            | left; earlier_address
            | right; earlier_address
            | right; right; earlier_address
            | right; left; earlier_address
            | left; agent_known
            | left; reflexivity
            | right; reflexivity ] ].

Section FullSuitePlumbing.
Import DeployFullSuite.

Ltac suite_agent := symmetry; apply addressOf_signerAt; eassumption.

Lemma full_suite_plumbing (h : host) :
  wp h main []
    (fun _ tr =>
       linked (fun e before => plumbed (signerAt h 2) (rev before) e) tr).
Proof.
  assert (Hinv : linked (fun e before =>
                           plumbed (signerAt h 2) (rev before) e) [])
    by exact I.
  unfold main, logDeployment, deployIdentityProxy, signClaim, addClaim.
  repeat (link_step ltac:(plumbing_check suite_agent)).
  all: assumption.
Qed.

End FullSuitePlumbing.

Section InfrastructurePlumbing.
Import DeployTREXSuiteInfrastructure.

(** A role resolution returns the role's signer and adds at most a warning
    to the trace. *)
Lemma link_resolveRoleSigner (h : host) (P : event -> trace -> Prop) (role : RoleKey)
    (available : option signer) (deployer : signer) (tr : trace)
    (Q : outcome signer -> trace -> Prop) :
  linked P tr ->
  (forall w, P (ConsoleWarn w) tr) ->
  Q (Thrown "invalid private key") tr ->
  (forall s tr',
      roleSigner h role available deployer = Some s ->
      linked P tr' -> Q (Returned s) tr') ->
  wp h (resolveRoleSigner role available deployer) tr Q.
Proof.
  intros Htr Hw Hthrown Hreturned. unfold wp. rewrite resolveRoleSigner_cases.
  unfold roleSigner in Hreturned. unfold hasEnvKey. cbv zeta in Hreturned.
  destruct (JS.truthy _) eqn:Hkey.
  - destruct (computeAddress h _) eqn:Ha; cbn [fst snd]; [|exact Hthrown].
    apply Hreturned; [reflexivity | exact Htr].
  - destruct available as [s|]; cbn [fst snd].
    + apply Hreturned; [reflexivity | exact Htr].
    + apply Hreturned; [reflexivity|]. split; [apply Hw | exact Htr].
Qed.

Ltac wp_summary m ::=
  lazymatch m with
  | resolveRoleSigner _ _ _ =>
      eapply link_resolveRoleSigner;
      [ eassumption | intros ?w; exact I | | intros ?signer ?tr ?Hrole ?Hinv;
        repeat match goal with
               | H : context [nth_error (_ :: _) _] |- _ =>
                   progress cbn [nth_error] in H
               end ]
  end.

Ltac infrastructure_agent :=
  unfold infrastructureAgent;
  match goal with H : accounts _ = _ :: _ |- _ => rewrite H end;
  cbn [nth_error];
  match goal with H : roleSigner _ tokenAgent _ _ = Some _ |- _ => rewrite H end;
  reflexivity.

Lemma infrastructure_plumbing (h : host) :
  wp h main []
    (fun _ tr =>
       linked (fun e before =>
                 plumbed (infrastructureAgent h) (rev before) e) tr).
Proof.
  assert (Hinv : linked (fun e before =>
                           plumbed (infrastructureAgent h) (rev before) e) [])
    by exact I.
  unfold main, logDeployment, deployIdentityProxy.
  repeat (link_step ltac:(plumbing_check infrastructure_agent)).
  all: assumption.
Qed.

End InfrastructurePlumbing.

Section InfrastructureWiring.
Import DeployTREXSuiteInfrastructure.

Ltac wp_summary m ::=
  lazymatch m with
  | resolveRoleSigner _ _ _ =>
      apply wp_resolveRoleSigner_signer;
      [|intros ?signer ?tr ?Hrole _ _ _;
        repeat match goal with
               | H : context [nth_error (_ :: _) _] |- _ =>
                   progress cbn [nth_error] in H
               end]
  end.

Lemma infrastructure_wiring (h : host) :
  wp h main []
    (fun o tr =>
       isReturned o = true ->
       exists r, resolved h r /\ infrastructureWired r (rev tr)).
Proof.
  unfold main, logDeployment, deployIdentityProxy.
  repeat wp_step.
  all: cbn [isReturned]; intros Hreturned; try discriminate Hreturned.
  all: match goal with
       | Hacc : accounts _ = ?d :: _,
         H1 : roleSigner _ tokenIssuer _ _ = Some ?s1,
         H2 : roleSigner _ tokenAgent _ _ = Some ?s2,
         H3 : roleSigner _ tokenAdmin _ _ = Some ?s3,
         H4 : roleSigner _ claimIssuer _ _ = Some ?s4 |- _ =>
           exists (mkRoles d s1 s2 s3 s4); split;
           [ unfold resolved;
             cbn [deployerOf tokenIssuerOf tokenAgentOf tokenAdminOf claimIssuerOf];
             rewrite Hacc; cbn [nth_error]; repeat split; assumption
           | cbn [deployerOf tokenIssuerOf tokenAgentOf tokenAdminOf claimIssuerOf] ]
       end.
  all: unfold infrastructureWired, wired, deployedAs, sent;
    cbn [deployerOf tokenIssuerOf tokenAgentOf tokenAdminOf claimIssuerOf map];
    repeat match goal with
           | |- _ /\ _ => split
           | |- exists _, _ => eexists
           end;
    in_earlier.
Qed.

(** X19.  What a run of the infrastructure script that gets through leaves
    behind, for the roles as the script resolves them: the suite is wired
    on the contracts the run deployed (the storage bound to the identity
    registry, the claim topic registered and the claim issuer contract
    trusted for it), the agent role is granted on the token to the token
    agent and to the agent manager -- two grants in all -- and on the
    identity registry to the token agent, the token and the agent manager
    -- three in all --, the token admin is made the agent admin of the
    agent manager and a signing key is registered (purpose 3) on the claim
    issuer contract -- and the token is still paused.  The run has printed
    its four tables. *)
Theorem infrastructure_wired_and_paused (h : host) :
  isReturned (outcomeOf (run main h)) = true ->
  (exists r, resolved h r /\ infrastructureWired r (traceOf (run main h)))
  /\ countCompleted "Token" "addAgent" (traceOf (run main h)) = 2%nat
  /\ countCompleted "IdentityRegistry" "addAgent" (traceOf (run main h)) = 3%nat
  /\ countCompleted "AgentManager" "addAgentAdmin" (traceOf (run main h)) = 1%nat
  /\ countCompleted "ClaimIssuer" "addKey" (traceOf (run main h)) = 1%nat
  /\ existsb isUnpause (traceOf (run main h)) = false
  /\ List.length (filter isTable (traceOf (run main h))) = 4%nat.
Proof.
  intros Hreturned.
  destruct (infrastructure_outcome h) as (_ & _ & _ & Hdone).
  destruct (Hdone Hreturned) as (_ & H1 & H2 & H3 & H4 & Ht).
  split; [exact (infrastructure_wiring h Hreturned)|].
  unfold traceOf.
  rewrite !countCompleted_rev, existsb_rev, filter_rev, length_rev.
  repeat split; try assumption.
  exact (proj1 (main_infrastructure h)).
Qed.

Lemma infrastructure_wired_and_paused_witness :
  let h := sampleHost [] (Returned Ethers.AddressZero) in
  (exists r, resolved h r /\ infrastructureWired r (traceOf (run main h)))
  /\ existsb isUnpause (traceOf (run main h)) = false.
Proof.
  intros h.
  destruct (infrastructure_wired_and_paused h) as (Hw & _ & _ & _ & _ & Hp & _).
  - vm_compute. reflexivity.
  - split; assumption.
Defined.

End InfrastructureWiring.

Section Plumbing.

(** X27.  The addresses of the full suite.  In every run of the full-suite
    script each address of a contract that a deployment or a call passes
    on is the address an earlier deployment of the run returned for the
    contract of the kind that belongs there: the implementations registered
    with the implementation authority (version 4.0.0) are those of the
    token, the claim topics registry, the identity registry, its storage,
    the trusted issuers registry and the compliance, each in its own field;
    the proxies are built on that authority; the identity registry proxy is
    given the trusted issuers registry, the claim topics registry and the
    storage, in that order; the token proxy the identity registry, the
    compliance and the token's identity; the agent manager the token.
    Every call goes to the proxy of the contract it is made on, and the
    script makes no other calls than these: the storage is bound to the
    identity registry proxy; the agent role is granted, on the token, to
    the token agent (signer 2) or to the agent manager, and on the identity
    registry to the token agent, the token or the agent manager, and to
    nobody else; the identities registered are two identity proxies of the
    run; the issuer trusted, and the issuer of every claim added, is the
    ClaimIssuer contract of the run. *)
Theorem full_suite_addresses_are_plumbed (h : host) (pre post : trace) (e : event) :
  traceOf (run DeployFullSuite.main h) = (pre ++ e :: post)%list ->
  plumbed (signerAt h 2) pre e.
Proof.
  intros Hsplit.
  exact (linked_at (plumbed (signerAt h 2)) _ pre post e
           (full_suite_plumbing h) Hsplit).
Qed.

Lemma full_suite_addresses_are_plumbed_witness :
  let h := sampleHost [] (Returned Ethers.AddressZero) in
  let tr := traceOf (run DeployFullSuite.main h) in
  exists k address grantee from res,
    nth k tr (ConsoleLog "")
    = Send "Token" address "addAgent" [VString grantee] from res
    /\ deployedAs (firstn k tr) "TokenProxy" address
    /\ deployedAs (firstn k tr) "AgentManager" grantee.
Proof.
  intros h tr.
  assert (Hk : exists k,
             find (fun k => match nth k tr (ConsoleLog "") with
                            | Send art _ method [VString grantee] _ _ =>
                                (art =? "Token")%string
                                && (method =? "addAgent")%string
                                && negb (grantee =? sampleAddress 3)%string
                            | _ => false
                            end) (seq 0 (List.length tr)) = Some k)
    by (vm_compute; eexists; reflexivity).
  destruct Hk as (k & Hk). apply find_some in Hk. destruct Hk as [_ Hk].
  assert (Hn : (k < List.length tr)%nat).
  { destruct (Nat.ltb_spec k (List.length tr)) as [Hlt|Hge]; [exact Hlt|].
    rewrite (nth_overflow _ _ Hge) in Hk. discriminate Hk. }
  pose proof (firstn_skipn_middle k tr (nth_error_nth' tr (ConsoleLog "") Hn))
    as Hsplit.
  symmetry in Hsplit.
  pose proof (full_suite_addresses_are_plumbed h _ _ _ Hsplit) as H.
  assert (Hagent : signerAt h 2 = Some (sampleAddress 3)) by (vm_compute; reflexivity).
  rewrite Hagent in H.
  destruct (nth k tr (ConsoleLog ""))
    as [| | | | | | |art address method arguments from res| | |] eqn:He;
    try discriminate Hk.
  destruct arguments as [|[grantee| | | |] [|? ?]]; try discriminate Hk.
  apply andb_true_iff in Hk. destruct Hk as [Hk Hother].
  apply andb_true_iff in Hk. destruct Hk as [Hart Hmethod].
  apply String.eqb_eq in Hart. apply String.eqb_eq in Hmethod. subst art method.
  cbv beta iota zeta delta [plumbed String.eqb Ascii.eqb Bool.eqb andb orb] in H.
  destruct H as (Htoken & grantee' & Hargs & Hgrantee).
  injection Hargs as <-.
  exists k, address, grantee, from, res.
  split; [exact He|]. split; [exact Htoken|].
  destruct Hgrantee as [Hagent'|Hmanager]; [|exact Hmanager].
  exfalso. injection Hagent' as ->.
  rewrite String.eqb_refl in Hother. discriminate Hother.
Defined.

(** X28.  The addresses of the infrastructure.  The same holds in every
    run of the infrastructure script (its first copy, with the resolved
    roles): each address of a contract that a deployment or a call passes
    on, and each address the script waits for, is the address an earlier
    deployment of the run returned for the contract of the kind that
    belongs there; the script makes no other calls than these, and it
    grants the agent role to the token agent (the signer the role resolves
    to), the token and the agent manager, and to nobody else. *)
Theorem infrastructure_addresses_are_plumbed (h : host) (pre post : trace)
    (e : event) :
  traceOf (run DeployTREXSuiteInfrastructure.main h) = (pre ++ e :: post)%list ->
  plumbed (infrastructureAgent h) pre e.
Proof.
  intros Hsplit.
  exact (linked_at (plumbed (infrastructureAgent h)) _ pre post e
           (infrastructure_plumbing h) Hsplit).
Qed.

Lemma infrastructure_addresses_are_plumbed_witness :
  let h := sampleHost [] (Returned Ethers.AddressZero) in
  let tr := traceOf (run DeployTREXSuiteInfrastructure.main h) in
  exists k address grantee from res,
    nth k tr (ConsoleLog "")
    = Send "IdentityRegistry" address "addAgent" [VString grantee] from res
    /\ deployedAs (firstn k tr) "IdentityRegistryProxy" address
    /\ deployedAs (firstn k tr) "TokenProxy" grantee.
Proof.
  intros h tr.
  assert (Hk : exists k,
             find (fun k => match nth k tr (ConsoleLog "") with
                            | Send art _ method [VString grantee] _ _ =>
                                (art =? "IdentityRegistry")%string
                                && (method =? "addAgent")%string
                                && (grantee =? sampleAddress 1037)%string
                            | _ => false
                            end) (seq 0 (List.length tr)) = Some k)
    by (vm_compute; eexists; reflexivity).
  destruct Hk as (k & Hk). apply find_some in Hk. destruct Hk as [_ Hk].
  assert (Hn : (k < List.length tr)%nat).
  { destruct (Nat.ltb_spec k (List.length tr)) as [Hlt|Hge]; [exact Hlt|].
    rewrite (nth_overflow _ _ Hge) in Hk. discriminate Hk. }
  pose proof (firstn_skipn_middle k tr (nth_error_nth' tr (ConsoleLog "") Hn))
    as Hsplit.
  symmetry in Hsplit.
  pose proof (infrastructure_addresses_are_plumbed h _ _ _ Hsplit) as H.
  assert (Hagent : infrastructureAgent h = Some (sampleAddress 3))
    by (vm_compute; reflexivity).
  rewrite Hagent in H.
  assert (Hmanager : forallb (fun e => match e with
                                       | Deploy art _ _ (Returned a) =>
                                           negb ((art =? "AgentManager")%string
                                                 && (a =? sampleAddress 1037)%string)
                                       | _ => true
                                       end) tr = true)
    by (vm_compute; reflexivity).
  destruct (nth k tr (ConsoleLog ""))
    as [| | | | | | |art address method arguments from res| | |] eqn:He;
    try discriminate Hk.
  destruct arguments as [|[grantee| | | |] [|? ?]]; try discriminate Hk.
  apply andb_true_iff in Hk. destruct Hk as [Hk Htoken].
  apply andb_true_iff in Hk. destruct Hk as [Hart Hmethod].
  apply String.eqb_eq in Hart. apply String.eqb_eq in Hmethod.
  apply String.eqb_eq in Htoken. subst art method.
  cbv beta iota zeta delta [plumbed String.eqb Ascii.eqb Bool.eqb andb orb] in H.
  destruct H as (Hregistry & grantee' & Hargs & Hgrantee).
  injection Hargs as <-.
  exists k, address, grantee, from, res.
  split; [exact He|]. split; [exact Hregistry|].
  destruct Hgrantee as [Hagent'|[Hknown|(arguments & deployer & HIn)]];
    [| exact Hknown |].
  - exfalso. injection Hagent' as Heq. rewrite Htoken in Heq.
    assert (Hdiff : (sampleAddress 1037 =? sampleAddress 3)%string = false)
      by (vm_compute; reflexivity).
    rewrite Heq, String.eqb_refl in Hdiff. discriminate Hdiff.
  - exfalso.
    assert (HIn' : In (Deploy "AgentManager" arguments deployer (Returned grantee)) tr).
    { rewrite Hsplit. apply in_or_app. left. exact HIn. }
    pose proof (proj1 (forallb_forall _ _) Hmanager _ HIn') as Hno.
    cbv beta iota in Hno. rewrite Htoken in Hno.
    rewrite String.eqb_refl in Hno.
    cbn [String.eqb Ascii.eqb Bool.eqb andb negb] in Hno. discriminate Hno.
Defined.

End Plumbing.
(** ** Claims: digest, signature and verification *)

Section Keccak.
Import Ethers Ethers.Keccak.







End Keccak.

Section ClaimEncoding.
Import Ethers.









End ClaimEncoding.

Section Claims.
Import Ethers DeployFullSuite.




End Claims.
